(** * webtop-il-kit: a shallow embedding of the scraper core

    The development follows the Python package [webtop_il_kit]:
    - [utils.py]       date parsing ([parse_date]);
    - [pagination.py]  the directional week-page search;
    - [extractor.py]   the table extraction;
    - [auth.py]        the login flow;
    - [navigator.py], [browser.py], [scraper.py]  the orchestration.

    Python [str] values are modelled as Rocq strings holding the UTF-8
    encoding of the text.  Substring tests and equality are exact on
    this encoding.  Character classes ([str.strip]'s whitespace, the
    regex class [\d], [str.lower]) are modelled on the ASCII range;
    non-ASCII whitespace, digits and case pairs are outside the model.

    Awaited Playwright calls are calls to an abstract page driver that
    answers with a value or with an exception and moves an opaque world
    state; every theorem quantifies over all drivers. *)

From Stdlib Require Import ZArith QArith String Ascii List Bool Sorted Lia Lqa.
From stdpp Require Import gmap strings list.

Local Close Scope Q_scope.
Local Open Scope string_scope.
Local Open Scope list_scope.

(** ** Python exceptions and results *)

(** Instances of Python's [Exception] class.  [BaseException]s that are
    not [Exception]s (task cancellation, keyboard interrupt) are not
    modelled: they are never raised by the driver calls below. *)
Inductive exn : Type :=
| ValueError (msg : string)
| TypeError (msg : string)
| PlaywrightError (msg : string)
| PlainException (msg : string).

Definition is_ValueError (e : exn) : bool :=
  match e with ValueError _ => true | _ => false end.

Definition is_ValueError_or_TypeError (e : exn) : bool :=
  match e with ValueError _ | TypeError _ => true | _ => false end.

(** The result of a call that returns or raises. *)
Inductive result (A : Type) : Type :=
| Ok (a : A)
| Raise (e : exn).
Arguments Ok {A} a.
Arguments Raise {A} e.

(** ** Python string operations *)
Module PyStr.

(** [str.isspace] on one ASCII character: TAB..CR, FS..US and space. *)
Definition isspace (c : ascii) : bool :=
  let n := nat_of_ascii c in
  ((9 <=? n)%nat && (n <=? 13)%nat) || ((28 <=? n)%nat && (n <=? 32)%nat).

Fixpoint lstrip (s : string) : string :=
  match s with
  | String c s' => if isspace c then lstrip s' else s
  | EmptyString => EmptyString
  end.

Fixpoint rstrip (s : string) : string :=
  match s with
  | String c s' =>
      match rstrip s' with
      | EmptyString => if isspace c then EmptyString else String c EmptyString
      | r => String c r
      end
  | EmptyString => EmptyString
  end.

(** [s.strip()] *)
Definition strip (s : string) : string := rstrip (lstrip s).

(** [needle in hay] *)
Fixpoint contains (needle hay : string) : bool :=
  String.prefix needle hay ||
  match hay with
  | String _ hay' => contains needle hay'
  | EmptyString => false
  end.

Definition lower_char (c : ascii) : ascii :=
  let n := nat_of_ascii c in
  if ((65 <=? n)%nat && (n <=? 90)%nat) then ascii_of_nat (n + 32) else c.

(** [s.lower()] *)
Fixpoint lower (s : string) : string :=
  match s with
  | String c s' => String (lower_char c) (lower s')
  | EmptyString => EmptyString
  end.

(** [s.split()]: the maximal runs of non-whitespace characters. *)
Fixpoint split (s : string) : list string :=
  match s with
  | EmptyString => []
  | String c s' =>
      let ws := split s' in
      if isspace c then ws
      else match s' with
           | EmptyString => [String c EmptyString]
           | String c' _ =>
               if isspace c' then String c EmptyString :: ws
               else match ws with
                    | w :: ws' => String c w :: ws'
                    | [] => [String c EmptyString]
                    end
           end
  end.

(** [sep.join(parts)] *)
Fixpoint join (sep : string) (parts : list string) : string :=
  match parts with
  | [] => EmptyString
  | [p] => p
  | p :: rest => p +:+ sep +:+ join sep rest
  end.

(** [s.replace(old, new)] for a non-empty [old]: occurrences are
    replaced left to right without overlap.  [skip] counts the
    characters of a matched occurrence still to be dropped. *)
Fixpoint replace_from (old new s : string) (skip : nat) : string :=
  match s with
  | EmptyString => EmptyString
  | String c s' =>
      match skip with
      | S k => replace_from old new s' k
      | O =>
          if String.prefix old s
          then new +:+ replace_from old new s' (String.length old - 1)
          else String c (replace_from old new s' 0)
      end
  end.

Fixpoint intersperse (new s : string) : string :=
  match s with
  | EmptyString => new
  | String c s' => new +:+ String c (intersperse new s')
  end.

Definition replace (old new s : string) : string :=
  match old with
  | EmptyString => intersperse new s
  | _ => replace_from old new s 0
  end.

(** Truthiness of a [str]. *)
Definition truthy (s : string) : bool :=
  match s with EmptyString => false | _ => true end.

(** Truthiness of an [Optional[str]]. *)
Definition otruthy (o : option string) : bool :=
  match o with Some s => truthy s | None => false end.

(** [x in [a, b, ...]] on a list of strings. *)
Definition mem (x : string) (l : list string) : bool :=
  existsb (String.eqb x) l.

(** The value of an ASCII decimal digit. *)
Definition digit_val (c : ascii) : option Z :=
  let n := nat_of_ascii c in
  if ((48 <=? n)%nat && (n <=? 57)%nat) then Some (Z.of_nat (n - 48)) else None.

Definition is_digit (c : ascii) : bool :=
  match digit_val c with Some _ => true | None => false end.

Definition digit_char (v : Z) : ascii := ascii_of_nat (48 + Z.to_nat v).

(** Zero-padded decimal rendering, as [%02d] and [%04d]. *)
Definition pad2 (v : Z) : string :=
  String (digit_char (v / 10 mod 10)) (String (digit_char (v mod 10)) EmptyString).

Definition pad4 (v : Z) : string :=
  String (digit_char (v / 1000 mod 10))
    (String (digit_char (v / 100 mod 10)) (pad2 v)).

End PyStr.

(** ** [datetime.datetime] *)
Module Datetime.
Local Open Scope Z_scope.

Record datetime : Type := mkdatetime {
  year : Z; month : Z; day : Z;
  hour : Z; minute : Z; second : Z; microsecond : Z
}.

Definition MINYEAR : Z := 1.
Definition MAXYEAR : Z := 9999.

Definition is_leap (y : Z) : bool :=
  (y mod 4 =? 0) && (negb (y mod 100 =? 0) || (y mod 400 =? 0)).

Definition days_in_month (y m : Z) : Z :=
  if m =? 2 then (if is_leap y then 29 else 28)
  else if (m =? 4) || (m =? 6) || (m =? 9) || (m =? 11) then 30
  else 31.

Definition valid_date (y m d : Z) : bool :=
  (MINYEAR <=? y) && (y <=? MAXYEAR) &&
  (1 <=? m) && (m <=? 12) &&
  (1 <=? d) && (d <=? days_in_month y m).

(** [datetime(year, month, day)]: midnight of a calendar date, or
    [ValueError] when the triple is not a date. *)
Definition datetime_ymd (y m d : Z) : result datetime :=
  if negb ((MINYEAR <=? y) && (y <=? MAXYEAR))
  then Raise (ValueError "year is out of range")
  else if negb ((1 <=? m) && (m <=? 12))
  then Raise (ValueError "month must be in 1..12")
  else if negb ((1 <=? d) && (d <=? days_in_month y m))
  then Raise (ValueError "day is out of range for month")
  else Ok (mkdatetime y m d 0 0 0 0).

Definition fields (t : datetime) : list Z :=
  [year t; month t; day t; hour t; minute t; second t; microsecond t].

Fixpoint lex_compare (a b : list Z) : comparison :=
  match a, b with
  | x :: a', y :: b' =>
      match Z.compare x y with
      | Eq => lex_compare a' b'
      | c => c
      end
  | [], [] => Eq
  | [], _ :: _ => Lt
  | _ :: _, [] => Gt
  end.

(** Comparison of naive datetimes: field by field. *)
Definition compare (a b : datetime) : comparison :=
  lex_compare (fields a) (fields b).

Definition ltb (a b : datetime) : bool :=
  match compare a b with Lt => true | _ => false end.
Definition gtb (a b : datetime) : bool := ltb b a.
Definition leb (a b : datetime) : bool := negb (ltb b a).

(** [sorted(dates)]: insertion into an ascending list, stable. *)
Fixpoint insert_sorted (x : datetime) (l : list datetime) : list datetime :=
  match l with
  | [] => [x]
  | y :: l' => if ltb x y then x :: l else y :: insert_sorted x l'
  end.

Fixpoint sorted (l : list datetime) : list datetime :=
  match l with
  | [] => []
  | x :: l' => insert_sorted x (sorted l')
  end.

End Datetime.
Export Datetime(datetime, mkdatetime).

(** ** [time.strptime] for the directives the package uses *)
Module Strptime.
Import PyStr Datetime.
Local Open Scope Z_scope.

Inductive directive : Type :=
| D_d                      (* %d *)
| D_m                      (* %m *)
| D_Y                      (* %Y *)
| D_lit (c : ascii).       (* any other character, matched literally *)

(** Translation of a format string; [None] for a directive outside
    [%d], [%m], [%Y]. *)
Fixpoint compile_format (fmt : string) : option (list directive) :=
  match fmt with
  | EmptyString => Some []
  | String "%" (String "d" r) => option_map (cons D_d) (compile_format r)
  | String "%" (String "m" r) => option_map (cons D_m) (compile_format r)
  | String "%" (String "Y" r) => option_map (cons D_Y) (compile_format r)
  | String "%" _ => None
  | String c r => option_map (cons (D_lit c)) (compile_format r)
  end.

Definition in_range (c lo hi : ascii) : bool :=
  ((nat_of_ascii lo <=? nat_of_ascii c)%nat && (nat_of_ascii c <=? nat_of_ascii hi)%nat).

Definition two (c1 c2 : ascii) : Z :=
  match digit_val c1, digit_val c2 with
  | Some a, Some b => 10 * a + b
  | _, _ => 0
  end.

Definition one (c : ascii) : Z :=
  match digit_val c with Some a => a | None => 0 end.

(** The alternatives of the group for [%d],
    [3[0-1]|[1-2]\d|0[1-9]|[1-9]| [1-9]], in the order the regex
    engine tries them; each with the text left after it. *)
Definition alternatives_d (s : string) : list (Z * string) :=
  match s with
  | String c1 s1 =>
      (match s1 with
       | String c2 s2 =>
           (if Ascii.eqb c1 "3" && in_range c2 "0" "1" then [(two c1 c2, s2)] else []) ++
           (if in_range c1 "1" "2" && is_digit c2 then [(two c1 c2, s2)] else []) ++
           (if Ascii.eqb c1 "0" && in_range c2 "1" "9" then [(two c1 c2, s2)] else [])
       | EmptyString => []
       end) ++
      (if in_range c1 "1" "9" then [(one c1, s1)] else []) ++
      (match s1 with
       | String c2 s2 =>
           if Ascii.eqb c1 " " && in_range c2 "1" "9" then [(one c2, s2)] else []
       | EmptyString => []
       end)
  | EmptyString => []
  end.

(** The group for [%m], [1[0-2]|0[1-9]|[1-9]]. *)
Definition alternatives_m (s : string) : list (Z * string) :=
  match s with
  | String c1 s1 =>
      (match s1 with
       | String c2 s2 =>
           (if Ascii.eqb c1 "1" && in_range c2 "0" "2" then [(two c1 c2, s2)] else []) ++
           (if Ascii.eqb c1 "0" && in_range c2 "1" "9" then [(two c1 c2, s2)] else [])
       | EmptyString => []
       end) ++
      (if in_range c1 "1" "9" then [(one c1, s1)] else [])
  | EmptyString => []
  end.

(** The group for [%Y], [\d\d\d\d]. *)
Definition alternatives_Y (s : string) : list (Z * string) :=
  match s with
  | String c1 (String c2 (String c3 (String c4 r))) =>
      if is_digit c1 && is_digit c2 && is_digit c3 && is_digit c4
      then [(100 * two c1 c2 + two c3 c4, r)] else []
  | _ => []
  end.

(** The named groups found so far. *)
Record groups : Type := mkgroups {
  g_d : option Z; g_m : option Z; g_Y : option Z
}.

Definition no_groups : groups := mkgroups None None None.

Definition first_match {A B : Type} (f : A -> option B) : list A -> option B :=
  fix go (l : list A) : option B :=
    match l with
    | [] => None
    | a :: l' => match f a with Some b => Some b | None => go l' end
    end.

(** [regex.match(data)]: the first match in the backtracking order,
    anchored at the start only; returns the groups and the text left
    after the match. *)
Fixpoint re_match (ds : list directive) (s : string) (g : groups)
  : option (groups * string) :=
  match ds with
  | [] => Some (g, s)
  | D_lit c :: ds' =>
      match s with
      | String c' s' => if Ascii.eqb c c' then re_match ds' s' g else None
      | EmptyString => None
      end
  | D_d :: ds' =>
      first_match (fun '(v, r) => re_match ds' r (mkgroups (Some v) (g_m g) (g_Y g)))
        (alternatives_d s)
  | D_m :: ds' =>
      first_match (fun '(v, r) => re_match ds' r (mkgroups (g_d g) (Some v) (g_Y g)))
        (alternatives_m s)
  | D_Y :: ds' =>
      first_match (fun '(v, r) => re_match ds' r (mkgroups (g_d g) (g_m g) (Some v)))
        (alternatives_Y s)
  end.

Definition bad_directive : exn := ValueError "bad directive in format".
Definition no_match : exn := ValueError "time data does not match format".
Definition unconverted : exn := ValueError "unconverted data remains".

(** [datetime.strptime(data, fmt)].  A missing group takes its
    default (1900-01-01). *)
Definition strptime (data fmt : string) : result datetime :=
  match compile_format fmt with
  | None => Raise bad_directive
  | Some ds =>
      match re_match ds data no_groups with
      | None => Raise no_match
      | Some (g, EmptyString) =>
          datetime_ymd (default 1900 (g_Y g)) (default 1 (g_m g)) (default 1 (g_d g))
      | Some (_, String _ _) => Raise unconverted
      end
  end.

(** [date.strftime(fmt)] for the same directives, zero padded. *)
Definition render_directive (t : datetime) (d : directive) : string :=
  match d with
  | D_d => pad2 (Datetime.day t)
  | D_m => pad2 (Datetime.month t)
  | D_Y => pad4 (Datetime.year t)
  | D_lit c => String c EmptyString
  end.

Definition strftime (t : datetime) (fmt : string) : string :=
  match compile_format fmt with
  | Some ds => String.concat EmptyString (map (render_directive t) ds)
  | None => EmptyString
  end.

End Strptime.

(** ** utils.py *)
Module Utils.
Import PyStr Strptime.

Definition date_formats : list string :=
  [ "%d-%m-%Y";   (* 21-01-2026 *)
    "%d/%m/%Y";   (* 21/01/2026 *)
    "%Y-%m-%d";   (* 2026-01-21 *)
    "%Y/%m/%d";   (* 2026/01/21 *)
    "%d.%m.%Y" ]. (* 21.01.2026 *)

Definition parse_error (date_str : string) : exn :=
  ValueError ("Could not parse date '" +:+ date_str +:+
              "'. Supported formats: DD-MM-YYYY, DD/MM/YYYY, YYYY-MM-DD").

(** The [for fmt in date_formats] loop with its [try]/[except ValueError]. *)
Fixpoint parse_with (date_str : string) (fmts : list string) : result datetime :=
  match fmts with
  | [] => Raise (parse_error date_str)
  | fmt :: rest =>
      match strptime (strip date_str) fmt with
      | Ok t => Ok t
      | Raise e => if is_ValueError e then parse_with date_str rest else Raise e
      end
  end.

Definition parse_date (date_str : option string) : result (option datetime) :=
  match date_str with
  | None => Ok None
  | Some s =>
      match parse_with s date_formats with
      | Ok t => Ok (Some t)
      | Raise e => Raise e
      end
  end.

End Utils.

(** ** Date texts

    The shape of the strings that claims about [parse_date] speak of:
    two digits, two digits and four digits in one of the five layouts. *)
Module DateText.
Import PyStr Strptime.

(** [%d] and [%m] accept a two-digit number in these ranges. *)
Definition day_ok (v : Z) : bool := (1 <=? v)%Z && (v <=? 31)%Z.
Definition month_ok (v : Z) : bool := (1 <=? v)%Z && (v <=? 12)%Z.

(** The two families of formats and of renderings. *)
Definition day_first (sep : ascii) : list directive :=
  [D_d; D_lit sep; D_m; D_lit sep; D_Y].
Definition year_first (sep : ascii) : list directive :=
  [D_Y; D_lit sep; D_m; D_lit sep; D_d].

Definition text_day_first (sep d1 d2 m1 m2 y1 y2 y3 y4 : ascii) : string :=
  String d1 (String d2 (String sep (String m1 (String m2 (String sep
    (String y1 (String y2 (String y3 (String y4 EmptyString))))))))).
Definition text_year_first (sep d1 d2 m1 m2 y1 y2 y3 y4 : ascii) : string :=
  String y1 (String y2 (String y3 (String y4 (String sep (String m1 (String m2 (String sep
    (String d1 (String d2 EmptyString))))))))).

(** A string of whitespace only. *)
Fixpoint all_space (s : string) : bool :=
  match s with
  | EmptyString => true
  | String c s' => isspace c && all_space s'
  end.

(** The decimal digits of a number below 100, below 10000. *)
Definition tens (v : Z) : ascii := digit_char (v / 10 mod 10).
Definition units (v : Z) : ascii := digit_char (v mod 10).
Definition thousands (v : Z) : ascii := digit_char (v / 1000 mod 10).
Definition hundreds (v : Z) : ascii := digit_char (v / 100 mod 10).

(** The rendering of a date in each of the five formats. *)
Definition text_of (fmt : string) (y m d : Z) : string :=
  if String.eqb fmt "%d-%m-%Y" then
    text_day_first "-" (tens d) (units d) (tens m) (units m)
      (thousands y) (hundreds y) (tens y) (units y)
  else if String.eqb fmt "%d/%m/%Y" then
    text_day_first "/" (tens d) (units d) (tens m) (units m)
      (thousands y) (hundreds y) (tens y) (units y)
  else if String.eqb fmt "%Y-%m-%d" then
    text_year_first "-" (tens d) (units d) (tens m) (units m)
      (thousands y) (hundreds y) (tens y) (units y)
  else if String.eqb fmt "%Y/%m/%d" then
    text_year_first "/" (tens d) (units d) (tens m) (units m)
      (thousands y) (hundreds y) (tens y) (units y)
  else
    text_day_first "." (tens d) (units d) (tens m) (units m)
      (thousands y) (hundreds y) (tens y) (units y).

End DateText.


(** ** config.py and selectors.py *)

(** The double-quote character, for selectors that contain it. *)
Definition dq : string := String (ascii_of_nat 34) EmptyString.

Module Config.
Definition BASE_URL : string := "https://webtop.smartschool.co.il".
Definition LOGIN_URL : string := BASE_URL +:+ "/account/login".
Definition STUDENT_CARD_URL : string := BASE_URL +:+ "/Student_Card".
Definition HOMEWORK_URL : string := BASE_URL +:+ "/Student_Card/11".
Definition SLOW_MO : Z := 500.
Definition MAX_PAGINATION_PAGES : nat := 100.
End Config.

Module Selectors.
Definition COOKIE_BUTTON : string :=
  ("button:has-text(" +:+ dq +:+ "אשר cookies" +:+ dq +:+ ")").
Definition MOE_BUTTON : string :=
  ("button:has-text(" +:+ dq +:+ "הזדהות משרד החינוך" +:+ dq +:+ ")").
Definition USERNAME_SELECTORS : list string :=
  [ ("textbox[aria-label*=" +:+ dq +:+ "קוד המשתמש" +:+ dq +:+ "]");
    ("input[type=" +:+ dq +:+ "text" +:+ dq +:+ "][formcontrolname*=" +:+ dq +:+ "username" +:+ dq +:+ "]");
    ("input[type=" +:+ dq +:+ "text" +:+ dq +:+ "]") ].
Definition PASSWORD_SELECTORS : list string :=
  [ ("textbox[type=" +:+ dq +:+ "password" +:+ dq +:+ "]");
    ("input[type=" +:+ dq +:+ "password" +:+ dq +:+ "]");
    ("textbox[aria-label*=" +:+ dq +:+ "סיסמה" +:+ dq +:+ "]") ].
Definition TAB_ROLE : string :=
  ("[role=" +:+ dq +:+ "tab" +:+ dq +:+ "]").
Definition TAB_SELECTOR : string :=
  ("[role=" +:+ dq +:+ "tab" +:+ dq +:+ "]:has-text(" +:+ dq +:+ "קוד משתמש וסיסמה" +:+ dq +:+ "):not(:has-text(" +:+ dq +:+ "חד פעמי" +:+ dq +:+ "))").
Definition LOGIN_BUTTON_SUBMIT : string :=
  ("button[type=" +:+ dq +:+ "submit" +:+ dq +:+ "]").
Definition LOGIN_BUTTON_TEXT : string :=
  ("button:has-text(" +:+ dq +:+ "כניסה" +:+ dq +:+ ")").
Definition STUDENT_CARD_SELECTORS : list string :=
  [ ("a[href*=" +:+ dq +:+ "Student_Card" +:+ dq +:+ "]:has-text(" +:+ dq +:+ "כרטיס תלמיד" +:+ dq +:+ ")");
    ("link:has-text(" +:+ dq +:+ "כרטיס תלמיד" +:+ dq +:+ ")");
    ("a:has-text(" +:+ dq +:+ "כרטיס תלמיד" +:+ dq +:+ ")") ].
Definition STUDENT_CARD_URL_PATTERN : string :=
  "**/Student_Card**".
Definition HOMEWORK_SELECTORS : list string :=
  [ ("a[href*=" +:+ dq +:+ "Student_Card/11" +:+ dq +:+ "]:has-text(" +:+ dq +:+ "נושאי שיעור ושיעורי-בית" +:+ dq +:+ ")");
    ("a[href*=" +:+ dq +:+ "Student_Card/11" +:+ dq +:+ "]");
    ("link:has-text(" +:+ dq +:+ "נושאי שיעור ושיעורי-בית" +:+ dq +:+ ")");
    ("a:has-text(" +:+ dq +:+ "נושאי שיעור ושיעורי-בית" +:+ dq +:+ ")");
    ("nav a[href*=" +:+ dq +:+ "Student_Card/11" +:+ dq +:+ "]") ].
Definition HOMEWORK_URL_PATTERN : string :=
  "**/Student_Card/11**".
Definition DASHBOARD_INDICATORS : list string :=
  [ "text=ריכוז מידע";
    "text=כרטיס תלמיד";
    "text=תיבת הודעות";
    ("heading:has-text(" +:+ dq +:+ "ריכוז מידע" +:+ dq +:+ ")") ].
Definition DATE_HEADING : string :=
  ("span[role=" +:+ dq +:+ "heading" +:+ dq +:+ "].card-title, span[role=" +:+ dq +:+ "heading" +:+ dq +:+ "], h2").
Definition TABLE_SELECTOR : string :=
  "table, div[role='table']".
Definition TABLE_BODY_ROWS : string :=
  "tbody tr, tbody > * > tr, div[role='row'].lesson-homework, div[role='rowgroup'] > div[role='row'].lesson-homework".
Definition TABLE_CELLS : string :=
  ("td, span[role=" +:+ dq +:+ "cell" +:+ dq +:+ "]").
Definition SUBJECT_BUTTON : string :=
  ("button, a[role=" +:+ dq +:+ "button" +:+ dq +:+ "], a.link-text").
Definition FILE_LINKS : string :=
  "a".
Definition FILE_IMAGES : string :=
  "img".
Definition ERROR_KEYWORDS : list string :=
  [ "שגיאה";
    "error";
    "לא נכון";
    "לא תקין";
    "נכשל";
    "כושל" ].
Definition RECAPTCHA_IFRAME : string :=
  ("iframe[src*=" +:+ dq +:+ "recaptcha" +:+ dq +:+ "], iframe[title*=" +:+ dq +:+ "reCAPTCHA" +:+ dq +:+ "]").
Definition MOE_LOGIN_URL_PATTERN : string :=
  "**/lgn.edu.gov.il/**".
Definition WEBTOP_DOMAIN : string :=
  "webtop.smartschool.co.il".
Definition MOE_DOMAIN : string :=
  "lgn.edu.gov.il".
Definition LOGIN_PAGE_INDICATOR : string :=
  "login".
Definition DATE_FORMAT_DISPLAY : string :=
  "%d/%m/%Y".
End Selectors.
Module TextPatterns.
Definition PASSWORD_LABEL : string :=
  "סיסמה".
Definition LOGIN_BUTTON_TEXT : string :=
  "כניסה".
Definition USERNAME_PASSWORD_TAB : string :=
  "כניסה עם קוד משתמש וסיסמה".
Definition MOBILE_TAB : string :=
  "כניסה עם קוד חד פעמי לנייד".
Definition NO_HOMEWORK_PLACEHOLDER : string :=
  "אין".
Definition EMPTY_LESSON_PLACEHOLDER : string :=
  "---".
End TextPatterns.

(** Timeouts in milliseconds; iteration counts as naturals. *)
Module Timeouts.
Local Open Scope Z_scope.
Definition ELEMENT_VISIBLE : Z := 5000.
Definition ELEMENT_WAIT : Z := 10000.
Definition PAGE_LOAD : Z := 15000.
Definition URL_WAIT : Z := 10000.
Definition NETWORK_IDLE : Z := 10000.
(** 60 s when the environment variable CI is "true", else 30 s. *)
Definition LOGIN_REDIRECT (ci : bool) : Z := if ci then 60000 else 30000.
Definition RECAPTCHA_CHECK_DELAY : Q := 5%Q.
Definition RECAPTCHA_WAIT : nat := 10%nat.
Definition BUTTON_ENABLE_MAX_WAIT : nat := 10%nat.
Definition BUTTON_ENABLE_DELAY : Q := (5 # 10)%Q.
Definition TAB_CLICK_DELAY : Q := 2%Q.
End Timeouts.

(** Delays in seconds. *)
Module Delays.
Local Open Scope Q_scope.
Definition SHORT : Q := 3 # 10.
Definition MEDIUM : Q := 5 # 10.
Definition LONG : Q := 1.
Definition VERY_LONG : Q := 2.
Definition EXTRA_LONG : Q := 3.
Definition AFTER_CLICK : Q := 1.
Definition AFTER_FILL : Q := 5 # 10.
Definition AFTER_TAB_SWITCH : Q := 2.
Definition AFTER_PAGE_LOAD : Q := 2.
Definition AFTER_LOGIN : Q := 2.
End Delays.

(** ** The page driver *)

(** A Playwright [Locator]: a description of how to find elements,
    built without touching the page. *)
Inductive locator : Type :=
| Locate (selector : string)                      (* page.locator(selector) *)
| ByRole (role name : string) (exact : bool)      (* page.get_by_role(role, name=.., exact=..) *)
| Within (parent : locator) (selector : string)   (* parent.locator(selector) *)
| First (l : locator)                             (* l.first *)
| Nth (l : locator) (i : nat).                    (* l.nth(i) *)

Definition browser : Type := nat.
Definition context : Type := nat.

(** The calls made on the browser automation engine, indexed by the
    type of their answer. *)
Inductive call : Type -> Type :=
(* Page *)
| Goto (url wait_until : string) (timeout : option Z) : call unit
| Reload (wait_until : string) (timeout : Z) : call unit
| Title : call string
| WaitForUrl (pattern : string) (timeout : Z) : call unit
| WaitForLoadState (st : string) (timeout : option Z) : call unit
| WaitForSelector (selector : string) (st : option string) (timeout : Z) : call unit
| WaitForTimeout (ms : Z) : call unit
| Evaluate (script : string) : call unit
| Screenshot (path : string) (full_page : bool) : call unit
| GetByRole (role name : string) (exact : bool) : call unit
| AddInitScript : call unit
(* Locator *)
| Count (l : locator) : call nat
| All (l : locator) : call (list locator)
| IsVisible (l : locator) : call bool
| GetAttribute (l : locator) (name : string) : call (option string)
| TextContent (l : locator) : call (option string)
| Click (l : locator) (force : bool) (timeout : option Z) : call unit
| Fill (l : locator) (value : string) : call unit
| WaitFor (l : locator) (st : string) (timeout : Z) : call unit
| ScrollIntoViewIfNeeded (l : locator) : call unit
| ElementHandle (l : locator) : call bool
(* Playwright, Browser, BrowserContext *)
| StartPlaywright : call unit
| StopPlaywright : call unit
| Launch (engine : string) (channel : option string) (args : list string) : call browser
| Contexts (b : browser) : call nat
| CloseBrowser (b : browser) : call unit
| NewContext (b : browser) : call context
| NewPage (c : context) : call unit
| CloseContext (c : context) : call unit.

Inductive direction : Type := Forward | Backward.

Definition direction_eqb (a b : direction) : bool :=
  match a, b with
  | Forward, Forward | Backward, Backward => true
  | _, _ => false
  end.

(** What an execution leaves behind: the driver calls it made and, for
    the pagination search, ghost marks of the pages it recorded. *)
Inductive event : Type :=
| Called {A : Type} (c : call A)
| Visit (url : string) (d : direction)
| VisitedCleared.

(** A driver answers every call from its world state, with a value or
    with an exception, and moves the world.  [page_url] is the [page.url]
    property, [loop_time] the event loop's clock in seconds, [today]
    [datetime.now()], and [sleep] what the world does during
    [asyncio.sleep]. *)
Record PageDriver (W : Type) : Type := mkDriver {
  answer : forall A : Type, call A -> W -> result A * W;
  page_url : W -> string;
  loop_time : W -> Q;
  today : W -> datetime;
  sleep : Q -> W -> W
}.
Arguments answer {W} _ {A} _ _.
Arguments page_url {W} _ _.
Arguments loop_time {W} _ _.
Arguments today {W} _ _.
Arguments sleep {W} _ _ _.

(** ** Awaited computations *)

Record state (W : Type) : Type := mkstate {
  world : W;
  trace : list event      (* newest first *)
}.
Arguments mkstate {W} _ _.
Arguments world {W} _.
Arguments trace {W} _.

Definition M (W A : Type) : Type := state W -> result A * state W.

Definition ret {W A : Type} (a : A) : M W A := fun s => (Ok a, s).

Definition raise {W A : Type} (e : exn) : M W A := fun s => (Raise e, s).

Definition bind {W A B : Type} (m : M W A) (k : A -> M W B) : M W B :=
  fun s =>
    match m s with
    | (Ok a, s') => k a s'
    | (Raise e, s') => (Raise e, s')
    end.

(** [try: m  except Exception as e: h e] *)
Definition try_except {W A : Type} (m : M W A) (h : exn -> M W A) : M W A :=
  fun s =>
    match m s with
    | (Ok a, s') => (Ok a, s')
    | (Raise e, s') => h e s'
    end.

(** [try: m  except Exception: pass] *)
Definition try_pass {W : Type} (m : M W unit) : M W unit :=
  try_except m (fun _ => ret tt).

(** A pure call that returns or raises. *)
Definition lift_result {W A : Type} (r : result A) : M W A := fun s => (r, s).

Declare Scope await_scope.
Delimit Scope await_scope with await.
Arguments bind {W A B} m%_await k%_await.
Arguments try_except {W A} m%_await h%_await.
Arguments try_pass {W} m%_await.
Notation "x <- m ;; k" := (bind m (fun x => k))
  (at level 100, m at next level, right associativity) : await_scope.
Notation "m ;; k" := (bind m (fun _ => k))
  (at level 100, right associativity) : await_scope.
Local Open Scope await_scope.

Section Primitives.
Context {W : Type} (drv : PageDriver W).

(** [await] of one driver call; the call is recorded in the trace. *)
Definition perform {A : Type} (c : call A) : M W A :=
  fun s =>
    let '(r, w) := answer drv c (world s) in
    (r, mkstate w (Called c :: trace s)).

Definition asyncio_sleep (seconds : Q) : M W unit :=
  fun s => (Ok tt, mkstate (sleep drv seconds (world s)) (trace s)).

Definition get_url : M W string := fun s => (Ok (page_url drv (world s)), s).

Definition get_loop_time : M W Q := fun s => (Ok (loop_time drv (world s)), s).

Definition datetime_now : M W datetime := fun s => (Ok (today drv (world s)), s).

(** Ghost: leave a mark in the trace. *)
Definition mark (e : event) : M W unit :=
  fun s => (Ok tt, mkstate (world s) (e :: trace s)).

End Primitives.

(** ** pagination.py *)
Module Pagination.
Import PyStr Datetime Strptime.

Definition scroll_to_bottom : string := "window.scrollTo(0, document.body.scrollHeight)".
Definition scroll_to_top : string := "window.scrollTo(0, 0)".

(** [text and needle in text] for an [Optional[str]]. *)
Definition text_has (needle : string) (text : option string) : bool :=
  match text with
  | Some t => truthy t && contains needle t
  | None => false
  end.

(** One attempt of [re.search] for [(\d{2})/(\d{2})/(\d{4})] at the
    start of [s]: the groups day, month, year as numbers.  [\d] is
    taken as [0-9]: a text that holds decimal digits of another script,
    which Python's [\d] and [int] accept as well, is outside the model. *)
Definition date_at (s : string) : option (Z * Z * Z) :=
  match s with
  | String d1 (String d2 (String s1 (String m1 (String m2 (String s2
      (String y1 (String y2 (String y3 (String y4 _))))))))) =>
      if is_digit d1 && is_digit d2 && Ascii.eqb s1 "/" &&
         is_digit m1 && is_digit m2 && Ascii.eqb s2 "/" &&
         is_digit y1 && is_digit y2 && is_digit y3 && is_digit y4
      then Some (two d1 d2, two m1 m2, (100 * two y1 y2 + two y3 y4)%Z)
      else None
  | _ => None
  end.

(** [re.search(Selectors.DATE_REGEX_PATTERN, s)]: the leftmost match. *)
Fixpoint search_date (s : string) : option (Z * Z * Z) :=
  match date_at s with
  | Some g => Some g
  | None =>
      match s with
      | String _ s' => search_date s'
      | EmptyString => None
      end
  end.

(** The date a heading contributes to [dates], if any.  The
    [ValueError] of [datetime(...)] is caught and the heading skipped. *)
Definition heading_date (heading_text : option string) : option datetime :=
  match heading_text with
  | Some t =>
      if truthy t then
        match search_date t with
        | Some (d, m, y) =>
            match datetime_ymd y m d with
            | Ok date_obj => Some date_obj
            | Raise _ => None
            end
        | None => None
        end
      else None
  | None => None
  end.

Definition flip (d : direction) : direction :=
  match d with Forward => Backward | Backward => Forward end.

(** Direction chosen from the dates on the first page; [None] when the
    target lies within their range. *)
Definition initial_direction (target_date : datetime) (current_dates : list datetime)
  : option direction :=
  match current_dates with
  | first :: _ =>
      if ltb target_date first then Some Backward
      else if gtb target_date (List.last current_dates first) then Some Forward
      else None
  | [] => Some Forward
  end.

(** Direction after a click, from the dates now on the page. *)
Definition updated_direction (target_date : datetime) (d : direction)
    (new_dates : list datetime) : direction :=
  match new_dates with
  | first :: _ =>
      if ltb target_date first && direction_eqb d Forward then Backward
      else if gtb target_date (List.last new_dates first) && direction_eqb d Backward then Forward
      else d
  | [] => d
  end.

Definition forward_button_selectors : list string :=
  [ "#main app-multi-cards-view app-lesson-homework app-lesson-homework-view app-tool-bar span:nth-child(3) > a";
    "app-tool-bar span:nth-child(3) > a";
    "app-tool-bar div > div > span:nth-child(3) > a";
    "#main app-tool-bar span:nth-child(3) > a";
    ("a[role=" +:+ dq +:+ "button" +:+ dq +:+ "]:has-text(" +:+ dq +:+ "שבוע הבא" +:+ dq +:+ ")");
    ("a[role=" +:+ dq +:+ "button" +:+ dq +:+ "]:has(mat-icon[svgicon=" +:+ dq +:+ "navigate_next" +:+ dq +:+ "])");
    ("a:has(mat-icon[svgicon=" +:+ dq +:+ "navigate_next" +:+ dq +:+ "])");
    ("a.link-text:has(mat-icon[svgicon=" +:+ dq +:+ "navigate_next" +:+ dq +:+ "])");
    ("button:has-text(" +:+ dq +:+ "הבא" +:+ dq +:+ ")");
    ("button:has-text(" +:+ dq +:+ "Next" +:+ dq +:+ ")");
    ("a:has-text(" +:+ dq +:+ "הבא" +:+ dq +:+ ")");
    ("a:has-text(" +:+ dq +:+ "Next" +:+ dq +:+ ")");
    ("[aria-label*=" +:+ dq +:+ "הבא" +:+ dq +:+ "]");
    ("[aria-label*=" +:+ dq +:+ "Next" +:+ dq +:+ "]");
    ("button[aria-label*=" +:+ dq +:+ "הבא" +:+ dq +:+ "]");
    ".pagination button:last-child";
    ".pagination a:last-child";
    ("[class*=" +:+ dq +:+ "next" +:+ dq +:+ "]");
    ("[class*=" +:+ dq +:+ "Next" +:+ dq +:+ "]") ].
Definition backward_button_selectors : list string :=
  [ "#main app-multi-cards-view app-lesson-homework app-lesson-homework-view app-tool-bar span:nth-child(1) > a";
    "app-tool-bar span:nth-child(1) > a";
    "app-tool-bar div > div > span:nth-child(1) > a";
    "#main app-tool-bar span:nth-child(1) > a";
    ("a[role=" +:+ dq +:+ "button" +:+ dq +:+ "]:has-text(" +:+ dq +:+ "שבוע קודם" +:+ dq +:+ ")");
    ("a[role=" +:+ dq +:+ "button" +:+ dq +:+ "]:has(mat-icon[svgicon=" +:+ dq +:+ "navigate_before" +:+ dq +:+ "])");
    ("a:has(mat-icon[svgicon=" +:+ dq +:+ "navigate_before" +:+ dq +:+ "])");
    ("a.link-text:has(mat-icon[svgicon=" +:+ dq +:+ "navigate_before" +:+ dq +:+ "])");
    ("button:has-text(" +:+ dq +:+ "הקודם" +:+ dq +:+ ")");
    ("button:has-text(" +:+ dq +:+ "Previous" +:+ dq +:+ ")");
    ("button:has-text(" +:+ dq +:+ "קודם" +:+ dq +:+ ")");
    ("a:has-text(" +:+ dq +:+ "הקודם" +:+ dq +:+ ")");
    ("a:has-text(" +:+ dq +:+ "Previous" +:+ dq +:+ ")");
    ("a:has-text(" +:+ dq +:+ "קודם" +:+ dq +:+ ")");
    ("[aria-label*=" +:+ dq +:+ "הקודם" +:+ dq +:+ "]");
    ("[aria-label*=" +:+ dq +:+ "Previous" +:+ dq +:+ "]");
    ("[aria-label*=" +:+ dq +:+ "קודם" +:+ dq +:+ "]");
    ("button[aria-label*=" +:+ dq +:+ "הקודם" +:+ dq +:+ "]");
    ".pagination button:first-child";
    ".pagination a:first-child";
    ("[class*=" +:+ dq +:+ "prev" +:+ dq +:+ "]");
    ("[class*=" +:+ dq +:+ "Prev" +:+ dq +:+ "]");
    ("[class*=" +:+ dq +:+ "previous" +:+ dq +:+ "]") ].

Definition button_selectors (d : direction) : list string :=
  match d with
  | Forward => forward_button_selectors
  | Backward => backward_button_selectors
  end.

Section WithDriver.
Context {W : Type} (drv : PageDriver W).
Local Notation "'await' c" := (perform drv c) (at level 10, c at level 9).

(** The [for heading in headings] loop of [find_date_on_page]. *)
Fixpoint find_in_headings (target_date_str : string) (headings : list locator)
  : M W bool :=
  match headings with
  | [] => ret false
  | heading :: rest =>
      try_pass (await (ScrollIntoViewIfNeeded heading) ;;
                await (WaitForTimeout 200)) ;;
      heading_text <- await (TextContent heading) ;;
      if text_has target_date_str heading_text then ret true
      else find_in_headings target_date_str rest
  end.

Definition find_date_on_page (target_date_str : string) : M W bool :=
  try_except
    (await (WaitForLoadState "networkidle" (Some Timeouts.NETWORK_IDLE)) ;;
     await (Evaluate scroll_to_bottom) ;;
     await (WaitForTimeout 1000) ;;
     await (Evaluate scroll_to_top) ;;
     await (WaitForTimeout 500) ;;
     try_pass (await (WaitForSelector Selectors.DATE_HEADING (Some "visible")
                          Timeouts.ELEMENT_VISIBLE)) ;;
     headings <- await (All (Locate Selectors.DATE_HEADING)) ;;
     find_in_headings target_date_str headings)
    (fun _ => ret false).

(** The [for heading in headings] loop of [get_dates_on_page].  The
    list [dates] is a local that outlives an exception: a raising
    step ends the loop and the dates collected so far stay. *)
Fixpoint dates_of_headings (headings : list locator) (dates : list datetime)
  : M W (list datetime) :=
  match headings with
  | [] => ret dates
  | heading :: rest =>
      step <- try_except
                (try_pass (await (ScrollIntoViewIfNeeded heading) ;;
                           await (WaitForTimeout 200)) ;;
                 heading_text <- await (TextContent heading) ;;
                 ret (Some heading_text))
                (fun _ => ret None) ;;
      match step with
      | Some heading_text =>
          dates_of_headings rest
            (dates ++ match heading_date heading_text with
                      | Some date_obj => [date_obj]
                      | None => []
                      end)
      | None => ret dates
      end
  end.

Definition get_dates_on_page : M W (list datetime) :=
  dates <- try_except
             (await (WaitForLoadState "networkidle" (Some Timeouts.NETWORK_IDLE)) ;;
              await (Evaluate scroll_to_bottom) ;;
              await (WaitForTimeout 1000) ;;
              try_pass (await (WaitForSelector Selectors.DATE_HEADING (Some "visible")
                                   Timeouts.ELEMENT_VISIBLE)) ;;
              headings <- await (All (Locate Selectors.DATE_HEADING)) ;;
              dates_of_headings headings [])
             (fun _ => ret []) ;;
  ret (sorted dates).

(** The body of the [for selector in button_selectors] loop: the
    button when it is usable. *)
Definition usable_button (selector : string) : M W (option locator) :=
  let btn := First (Locate selector) in
  count <- await (Count btn) ;;
  if (0 <? count)%nat then
    is_visible <- await (IsVisible btn) ;;
    is_disabled <- await (GetAttribute btn "disabled") ;;
    aria_disabled <- await (GetAttribute btn "aria-disabled") ;;
    has_empty_class <-
      try_except
        (class_attr <- await (GetAttribute btn "class") ;;
         ret (text_has "empty" class_attr))
        (fun _ => ret false) ;;
    if is_visible && negb (otruthy is_disabled) &&
       negb (bool_decide (aria_disabled = Some "true")) && negb has_empty_class
    then ret (Some btn)
    else ret None
  else ret None.

Fixpoint first_usable_button (selectors : list string) : M W (option locator) :=
  match selectors with
  | [] => ret None
  | selector :: rest =>
      found <- try_except (usable_button selector) (fun _ => ret None) ;;
      match found with
      | Some btn => ret (Some btn)
      | None => first_usable_button rest
      end
  end.

Definition _find_navigation_button (d : direction) : M W (option locator) :=
  try_pass
    (await (Evaluate scroll_to_top) ;;
     await (WaitForTimeout 500) ;;
     try_pass (await (WaitForSelector "app-tool-bar" (Some "visible")
                          Timeouts.ELEMENT_VISIBLE))) ;;
  first_usable_button (button_selectors d).

Definition _click_navigation_button (nav_button : locator) (d : direction)
    (pages_checked : nat) (target_date : datetime) : M W (bool * direction) :=
  let target_date_str := strftime target_date Selectors.DATE_FORMAT_DISPLAY in
  try_except
    (await (ScrollIntoViewIfNeeded nav_button) ;;
     await (WaitForTimeout 300) ;;
     await (WaitFor nav_button "visible" Timeouts.ELEMENT_VISIBLE) ;;
     try_except
       (await (Click nav_button false (Some Timeouts.ELEMENT_VISIBLE)))
       (fun _ => await (Click nav_button true (Some Timeouts.ELEMENT_VISIBLE))) ;;
     await (WaitForLoadState "networkidle" (Some Timeouts.NETWORK_IDLE)) ;;
     asyncio_sleep drv Delays.AFTER_PAGE_LOAD ;;
     found <- find_date_on_page target_date_str ;;
     if found then ret (true, d)
     else
       new_dates <- get_dates_on_page ;;
       ret (false, updated_direction target_date d new_dates))
    (fun _ => ret (false, flip d)).

(** The [while pages_checked < max_pages] loop; [remaining] is
    [max_pages - pages_checked] on entry.  Leaving the loop, by
    [break] or by its condition, returns [False].  The marks
    [Visit] and [VisitedCleared] are ghost. *)
Fixpoint navigate_loop (remaining pages_checked : nat) (d : direction)
    (visited_pages : gset string) (target_date : datetime) : M W bool :=
  match remaining with
  | O => ret false
  | S remaining =>
      let pages_checked := S pages_checked in
      let target_date_str := strftime target_date Selectors.DATE_FORMAT_DISPLAY in
      current_url <- get_url drv ;;
      if bool_decide (current_url ∈ visited_pages) then
        match d with
        | Forward =>
            mark VisitedCleared ;;
            navigate_loop remaining pages_checked Backward ∅ target_date
        | Backward => ret false
        end
      else
        mark (Visit current_url d) ;;
        let visited_pages := {[current_url]} ∪ visited_pages in
        nav_button <- _find_navigation_button d ;;
        await (WaitForLoadState "networkidle" None) ;;
        asyncio_sleep drv Delays.LONG ;;
        found <- find_date_on_page target_date_str ;;
        if found then ret true
        else
          match nav_button with
          | Some nav_button =>
              clicked <- _click_navigation_button nav_button d pages_checked target_date ;;
              if fst clicked then ret true
              else if negb (direction_eqb (snd clicked) d) then
                mark VisitedCleared ;;
                navigate_loop remaining pages_checked (snd clicked) ∅ target_date
              else navigate_loop remaining pages_checked d visited_pages target_date
          | None =>
              match d with
              | Forward =>
                  mark VisitedCleared ;;
                  navigate_loop remaining pages_checked Backward ∅ target_date
              | Backward => ret false
              end
          end
  end.

Definition navigate_to_date_page (target_date : datetime) : M W bool :=
  let target_date_str := strftime target_date Selectors.DATE_FORMAT_DISPLAY in
  found <- find_date_on_page target_date_str ;;
  if found then ret true
  else
    current_dates <- get_dates_on_page ;;
    match initial_direction target_date current_dates with
    | Some d => navigate_loop Config.MAX_PAGINATION_PAGES 0 d ∅ target_date
    | None => ret false
    end.

End WithDriver.
End Pagination.

(** ** extractor.py *)
Module Extractor.
Import PyStr Datetime Strptime Pagination.

(** An entry of [attached_files]: the dictionaries with [type] "link"
    and "image". *)
Inductive FileRef : Type :=
| FileLink (href text : string)
| FileImage (src alt : string).

(** The dictionary built for a table row. *)
Record HomeworkRecord : Type := mkrecord {
  hour : string;
  subject : string;
  teacher : string;
  lesson_topic : string;
  homework : string;
  combined : string;
  status : string;
  attached_files : list FileRef;
  date : string
}.

Definition _combine_content (lesson_topic homework : string) : string :=
  let combined_content : list string := [] in
  let combined_content :=
    if truthy lesson_topic &&
       negb (mem lesson_topic [TextPatterns.EMPTY_LESSON_PLACEHOLDER; EmptyString])
    then combined_content ++ [lesson_topic] else combined_content in
  let combined_content :=
    if truthy homework &&
       negb (mem homework ["--"; TextPatterns.NO_HOMEWORK_PLACEHOLDER; EmptyString])
    then combined_content ++ [homework] else combined_content in
  match combined_content with
  | [] => EmptyString
  | _ => join " | " combined_content
  end.

(** The text clean-up of [_extract_cell_text], after [text_content]. *)
Definition clean_cell_text (text : option string) : string :=
  match text with
  | Some text =>
      if truthy text then
        let text := join " " (split text) in
        let text := strip (replace "שיעורי בית:" EmptyString
                             (replace "נושא שיעור:" EmptyString text)) in
        if mem text ["-`"; "-"; "`"; "--"] then EmptyString else text
      else EmptyString
  | None => EmptyString
  end.

(** [value.strip() if value else ""] *)
Definition strip_or_empty (value : option string) : string :=
  match value with
  | Some v => if truthy v then strip v else EmptyString
  | None => EmptyString
  end.

Section WithDriver.
Context {W : Type} (drv : PageDriver W).
Local Notation "'await' c" := (perform drv c) (at level 10, c at level 9).

(** The [for heading in headings] loop of [_find_date_heading]. *)
Fixpoint heading_with (target_date_str : string) (headings : list locator)
  : M W (option locator) :=
  match headings with
  | [] => ret None
  | heading :: rest =>
      try_pass (await (ScrollIntoViewIfNeeded heading) ;;
                await (WaitForTimeout 200)) ;;
      heading_text <- await (TextContent heading) ;;
      if text_has target_date_str heading_text then ret (Some heading)
      else heading_with target_date_str rest
  end.

Definition _find_date_heading (target_date_str : string) : M W (option locator) :=
  await (WaitForLoadState "networkidle" (Some Timeouts.NETWORK_IDLE)) ;;
  await (Evaluate scroll_to_bottom) ;;
  await (WaitForTimeout 1000) ;;
  try_pass (await (WaitForSelector Selectors.DATE_HEADING (Some "visible")
                     Timeouts.ELEMENT_VISIBLE)) ;;
  headings <- await (All (Locate Selectors.DATE_HEADING)) ;;
  heading_with target_date_str headings.

(** Method 2 of [_find_date_table]: the loop over all tables. *)
Fixpoint table_labelled (target_date_str : string) (all_tables : list locator)
  : M W (option locator) :=
  match all_tables with
  | [] => ret None
  | tab :: rest =>
      try_pass (await (ScrollIntoViewIfNeeded tab) ;;
                await (WaitForTimeout 300)) ;;
      tab_aria <- await (GetAttribute tab "aria-label") ;;
      if text_has target_date_str tab_aria then ret (Some tab)
      else table_labelled target_date_str rest
  end.

(** Method 3: the body of the loop over the cards, inside its [try]. *)
Definition table_in_card (target_date_str : string) (target_heading card : locator)
  : M W (option locator) :=
  heading_text <- await (TextContent target_heading) ;;
  if otruthy heading_text then
    let heading_in_card :=
      Within card ("span[role=" +:+ dq +:+ "heading" +:+ dq +:+ "]:has-text(" +:+ dq +:+
                   target_date_str +:+ dq +:+ ")") in
    n <- await (Count heading_in_card) ;;
    if (0 <? n)%nat then
      await (ScrollIntoViewIfNeeded card) ;;
      await (WaitForTimeout 500) ;;
      let table := First (Within card ("div[role=" +:+ dq +:+ "table" +:+ dq +:+ "]")) in
      k <- await (Count table) ;;
      if (0 <? k)%nat then
        await (WaitFor table "visible" Timeouts.ELEMENT_VISIBLE) ;;
        ret (Some table)
      else ret None
    else ret None
  else ret None.

(** [for i in range(card_count)], from index [i], [todo] cards to go. *)
Fixpoint table_in_cards (target_date_str : string) (target_heading all_cards : locator)
    (i todo : nat) : M W (option locator) :=
  match todo with
  | O => ret None
  | S todo =>
      found <- try_except (table_in_card target_date_str target_heading (Nth all_cards i))
                 (fun _ => ret None) ;;
      match found with
      | Some table => ret (Some table)
      | None => table_in_cards target_date_str target_heading all_cards (S i) todo
      end
  end.

(** Method 4: the body of the loop over [div[role="table"]], inside its [try]. *)
Definition table_if_labelled (target_date_str : string) (table : locator)
  : M W (option locator) :=
  await (ScrollIntoViewIfNeeded table) ;;
  await (WaitForTimeout 300) ;;
  aria_label <- await (GetAttribute table "aria-label") ;;
  if text_has target_date_str aria_label then ret (Some table) else ret None.

Fixpoint table_by_index (target_date_str : string) (all_tables : locator)
    (i todo : nat) : M W (option locator) :=
  match todo with
  | O => ret None
  | S todo =>
      found <- try_except (table_if_labelled target_date_str (Nth all_tables i))
                 (fun _ => ret None) ;;
      match found with
      | Some table => ret (Some table)
      | None => table_by_index target_date_str all_tables (S i) todo
      end
  end.

(** [first m, and when it gives nothing, next] *)
Definition or_else (m next : M W (option locator)) : M W (option locator) :=
  found <- m ;;
  match found with
  | Some table => ret (Some table)
  | None => next
  end.

Definition _find_date_table (target_date_str : string) (target_heading : locator)
  : M W (option locator) :=
  try_pass (await (ScrollIntoViewIfNeeded target_heading) ;;
            await (WaitForTimeout 500)) ;;
  (* Method 1: table by aria-label *)
  or_else
    (try_except
       (let table := First (Locate ("[aria-label*=" +:+ dq +:+ target_date_str +:+ dq +:+ "]")) in
        await (WaitFor table "visible" Timeouts.ELEMENT_VISIBLE) ;;
        ret (Some table))
       (fun _ => ret None))
  (* Method 2: all tables, by aria-label *)
  (or_else
    (try_except
       (await (ScrollIntoViewIfNeeded target_heading) ;;
        await (WaitForTimeout 1000) ;;
        all_tables <- await (All (Locate Selectors.TABLE_SELECTOR)) ;;
        heading_element <- await (ElementHandle target_heading) ;;
        if heading_element : bool then table_labelled target_date_str all_tables
        else ret None)
       (fun _ => ret None))
  (* Method 3: the card that holds the heading *)
  (or_else
    (try_except
       (await (ScrollIntoViewIfNeeded target_heading) ;;
        await (WaitForTimeout 1000) ;;
        let all_cards := Locate "mat-card" in
        card_count <- await (Count all_cards) ;;
        table_in_cards target_date_str target_heading all_cards 0 card_count)
       (fun _ => ret None))
  (* Method 4: div[role="table"] by aria-label *)
    (try_except
       (await (ScrollIntoViewIfNeeded target_heading) ;;
        await (WaitForTimeout 1000) ;;
        let all_tables := Locate ("div[role=" +:+ dq +:+ "table" +:+ dq +:+ "]") in
        count <- await (Count all_tables) ;;
        table_by_index target_date_str all_tables 0 count)
       (fun _ => ret None)))).

Definition _extract_cell_text (cell : locator) : M W string :=
  try_except
    (text <- await (TextContent cell) ;;
     ret (clean_cell_text text))
    (fun _ => ret EmptyString).

Definition _extract_subject (subject_cell : locator) : M W string :=
  try_except
    (let subject_btn := First (Within subject_cell Selectors.SUBJECT_BUTTON) in
     n <- await (Count subject_btn) ;;
     from_button <-
       (if (0 <? n)%nat then
          subject_text <- await (TextContent subject_btn) ;;
          if otruthy subject_text then ret (Some (strip_or_empty subject_text))
          else ret None
        else ret None) ;;
     match from_button with
     | Some s => ret s
     | None =>
         subject_text <- await (TextContent subject_cell) ;;
         ret (strip_or_empty subject_text)
     end)
    (fun _ => ret EmptyString).

(** The loops of [_extract_attached_files]; each body is in its own
    [try], so a failing element is skipped. *)
Fixpoint links_of (file_links : list locator) (attached_files : list FileRef)
  : M W (list FileRef) :=
  match file_links with
  | [] => ret attached_files
  | link :: rest =>
      new <- try_except
               (href <- await (GetAttribute link "href") ;;
                text_content <- await (TextContent link) ;;
                let text := strip_or_empty text_content in
                match href with
                | Some h => if truthy h then ret [FileLink h text] else ret []
                | None => ret []
                end)
               (fun _ => ret []) ;;
      links_of rest (attached_files ++ new)
  end.

Fixpoint images_of (file_imgs : list locator) (attached_files : list FileRef)
  : M W (list FileRef) :=
  match file_imgs with
  | [] => ret attached_files
  | img :: rest =>
      new <- try_except
               (src <- await (GetAttribute img "src") ;;
                alt_attr <- await (GetAttribute img "alt") ;;
                let alt := strip_or_empty alt_attr in
                match src with
                | Some v => if truthy v then ret [FileImage v alt] else ret []
                | None => ret []
                end)
               (fun _ => ret []) ;;
      images_of rest (attached_files ++ new)
  end.

(** [attached_files] is a local that outlives an exception of the two
    [all()] calls: what was collected before stays. *)
Definition _extract_attached_files (file_cell : locator) : M W (list FileRef) :=
  links <- try_except
             (file_links <- await (All (Within file_cell Selectors.FILE_LINKS)) ;;
              attached_files <- links_of file_links [] ;;
              ret (Some attached_files))
             (fun _ => ret None) ;;
  match links with
  | Some attached_files =>
      try_except
        (file_imgs <- await (All (Within file_cell Selectors.FILE_IMAGES)) ;;
         images_of file_imgs attached_files)
        (fun _ => ret attached_files)
  | None => ret []
  end.

(** The cell reads of one row with at least six cells: the dictionary
    the row would contribute.  [more] holds the cells after the sixth;
    its head, when there is one, is [cells[6]]. *)
Definition row_fields (target_date_str : string) (c0 c1 c2 c3 c4 c5 : locator)
    (more : list locator) : M W HomeworkRecord :=
  hour <- _extract_cell_text c0 ;;
  subject <- _extract_subject c1 ;;
  teacher <- _extract_cell_text c2 ;;
  status <- _extract_cell_text c3 ;;
  lesson_topic <- _extract_cell_text c4 ;;
  homework <- _extract_cell_text c5 ;;
  attached_files <-
    match more with
    | c6 :: _ => _extract_attached_files c6
    | [] => ret []
    end ;;
  let combined := _combine_content lesson_topic homework in
  ret (mkrecord hour subject teacher lesson_topic homework combined status
                attached_files target_date_str).

(** The body of [for row_idx, row in enumerate(rows)]: the list after
    the row.  [len(cells) >= 6] is the first pattern. *)
Definition extract_row (target_date_str : string) (row : locator)
    (homework_list : list HomeworkRecord) : M W (list HomeworkRecord) :=
  cells <- await (All (Within row Selectors.TABLE_CELLS)) ;;
  match cells with
  | c0 :: c1 :: c2 :: c3 :: c4 :: c5 :: more =>
      homework_item <- row_fields target_date_str c0 c1 c2 c3 c4 c5 more ;;
      if truthy (subject homework_item)
      then ret (homework_list ++ [homework_item])
      else ret homework_list
  | _ => ret homework_list
  end.

Fixpoint extract_rows (target_date_str : string) (rows : list locator)
    (homework_list : list HomeworkRecord) : M W (list HomeworkRecord) :=
  match rows with
  | [] => ret homework_list
  | row :: rest =>
      homework_list <- extract_row target_date_str row homework_list ;;
      extract_rows target_date_str rest homework_list
  end.

Definition _extract_table_data (table : locator) (target_date_str : string)
  : M W (list HomeworkRecord) :=
  try_pass (await (WaitFor table "visible" Timeouts.ELEMENT_WAIT)) ;;
  rows <- await (All (Within table Selectors.TABLE_BODY_ROWS)) ;;
  extract_rows target_date_str rows [].

(** The body of the [try] of [extract_homework]; [homework_list] is
    the empty list until the last step assigns it. *)
Definition extract_flow (target_date : option datetime) (homework_list : list HomeworkRecord)
  : M W (list HomeworkRecord) :=
  await (WaitForLoadState "networkidle" None) ;;
  asyncio_sleep drv Delays.AFTER_PAGE_LOAD ;;
  target_date <- match target_date with
                 | Some t => ret t
                 | None => datetime_now drv
                 end ;;
  let target_date_str := strftime target_date Selectors.DATE_FORMAT_DISPLAY in
  on_page <- find_date_on_page drv target_date_str ;;
  reached <- (if on_page : bool then ret true
              else navigate_to_date_page drv target_date) ;;
  if negb reached then ret homework_list
  else
    target_heading <- _find_date_heading target_date_str ;;
    match target_heading with
    | None => ret homework_list
    | Some target_heading =>
        table <- _find_date_table target_date_str target_heading ;;
        match table with
        | None => ret homework_list
        | Some table =>
            homework_list <- _extract_table_data table target_date_str ;;
            ret homework_list
        end
    end.

(** On an exception the handler returns [homework_list], which is
    still the empty list: the assignment in the last step of the flow
    did not happen. *)
Definition extract_homework (target_date : option datetime) : M W (list HomeworkRecord) :=
  let homework_list : list HomeworkRecord := [] in
  try_except (extract_flow target_date homework_list)
    (fun _ => ret homework_list).

End WithDriver.
End Extractor.

(** ** Computations with a polling loop that has no iteration bound *)

(** [_verify_login_success] polls in a [while True] loop that ends when
    the clock has advanced far enough.  Such computations take fuel:
    [None] means that the fuel ran out while the loop was still
    polling.  No handler catches that. *)
Definition F (W A : Type) : Type := state W -> option (result A * state W).

Definition lift {W A : Type} (m : M W A) : F W A := fun s => Some (m s).

Definition fbind {W A B : Type} (m : F W A) (k : A -> F W B) : F W B :=
  fun s =>
    match m s with
    | Some (Ok a, s') => k a s'
    | Some (Raise e, s') => Some (Raise e, s')
    | None => None
    end.

(** [try: m  except Exception as e: h e] *)
Definition ftry_except {W A : Type} (m : F W A) (h : exn -> F W A) : F W A :=
  fun s =>
    match m s with
    | Some (Ok a, s') => Some (Ok a, s')
    | Some (Raise e, s') => h e s'
    | None => None
    end.

Definition out_of_fuel {W A : Type} : F W A := fun _ => None.

Notation "x <<- m ;; k" := (fbind m (fun x => k))
  (at level 100, m at next level, right associativity) : await_scope.

(** ** auth.py *)
Module Auth.
Import PyStr.

Definition Qgtb (a b : Q) : bool :=
  match Qcompare a b with Gt => true | _ => false end.

(** [is_disabled is None and aria_disabled != "true"] *)
Definition is_enabled (is_disabled aria_disabled : option string) : bool :=
  match is_disabled with
  | None => negb (bool_decide (aria_disabled = Some "true"))
  | Some _ => false
  end.

(** [tab_text and USERNAME_PASSWORD_TAB in tab_text and MOBILE_TAB not in tab_text] *)
Definition is_password_tab_text (tab_text : option string) : bool :=
  match tab_text with
  | Some t =>
      truthy t && contains TextPatterns.USERNAME_PASSWORD_TAB t &&
      negb (contains TextPatterns.MOBILE_TAB t)
  | None => false
  end.

(** [aria_selected == "true" or (class_attr and ("selected" in
    class_attr.lower() or "active" in class_attr.lower()))] *)
Definition looks_selected (aria_selected class_attr : option string) : bool :=
  bool_decide (aria_selected = Some "true") ||
  match class_attr with
  | Some c => truthy c && (contains "selected" (lower c) || contains "active" (lower c))
  | None => false
  end.

(** [btn_text and TextPatterns.LOGIN_BUTTON_TEXT in btn_text] *)
Definition has_login_text (btn_text : option string) : bool :=
  match btn_text with
  | Some t => truthy t && contains TextPatterns.LOGIN_BUTTON_TEXT t
  | None => false
  end.

(** The Cloudflare test on the page title. *)
Definition cloudflare_title (page_title : string) : bool :=
  contains "could not be satisfied" (lower page_title) ||
  contains "cloudflare" (lower page_title).

(** [WEBTOP_DOMAIN in current_url and LOGIN_PAGE_INDICATOR not in current_url.lower()] *)
Definition redirected_to_webtop (current_url : string) : bool :=
  contains Selectors.WEBTOP_DOMAIN current_url &&
  negb (contains Selectors.LOGIN_PAGE_INDICATOR (lower current_url)).

Section WithDriver.
Context {W : Type} (drv : PageDriver W).
Context (ci : bool).
Local Notation "'await' c" := (perform drv c) (at level 10, c at level 9).
Local Open Scope await_scope.

Definition _accept_cookies : M W unit :=
  try_pass
    (let cookie_button := Locate Selectors.COOKIE_BUTTON in
     n <- await (Count cookie_button) ;;
     if (0 <? n)%nat then
       await (Click cookie_button false (Some (Timeouts.ELEMENT_VISIBLE / 5)%Z)) ;;
       asyncio_sleep drv Delays.AFTER_CLICK
     else ret tt).

(** [for _ in range(n)]: poll until the button is enabled. *)
Fixpoint wait_until_enabled (button : locator) (n : nat) : M W unit :=
  match n with
  | O => ret tt
  | S n =>
      is_disabled <- await (GetAttribute button "disabled") ;;
      aria_disabled <- await (GetAttribute button "aria-disabled") ;;
      if is_enabled is_disabled aria_disabled then ret tt
      else
        asyncio_sleep drv Timeouts.BUTTON_ENABLE_DELAY ;;
        wait_until_enabled button n
  end.

Definition _click_moe_button : M W unit :=
  let moe_button := Locate Selectors.MOE_BUTTON in
  await (WaitFor moe_button "visible" Timeouts.ELEMENT_WAIT) ;;
  wait_until_enabled moe_button Timeouts.BUTTON_ENABLE_MAX_WAIT ;;
  await (Click moe_button false None).

(** Method 1 of [_is_tab_already_selected]. *)
Fixpoint any_visible (selectors : list string) : M W bool :=
  match selectors with
  | [] => ret false
  | selector :: rest =>
      let field := First (Locate selector) in
      n <- await (Count field) ;;
      visible <- (if (0 <? n)%nat then await (IsVisible field) else ret false) ;;
      if visible : bool then ret true else any_visible rest
  end.

(** Method 2. *)
Fixpoint any_selected_tab (all_tabs : list locator) : M W bool :=
  match all_tabs with
  | [] => ret false
  | tab :: rest =>
      tab_text <- await (TextContent tab) ;;
      selected <-
        (if is_password_tab_text tab_text then
           aria_selected <- await (GetAttribute tab "aria-selected") ;;
           class_attr <- await (GetAttribute tab "class") ;;
           ret (looks_selected aria_selected class_attr)
         else ret false) ;;
      if selected : bool then ret true else any_selected_tab rest
  end.

(** Method 3. *)
Fixpoint any_password_field (selectors : list string) : M W bool :=
  match selectors with
  | [] => ret false
  | selector :: rest =>
      let password_field := First (Locate selector) in
      n <- await (Count password_field) ;;
      visible <- (if (0 <? n)%nat then await (IsVisible password_field) else ret false) ;;
      labelled <-
        (if visible : bool then
           aria_label <- await (GetAttribute password_field "aria-label") ;;
           ret (match aria_label with
                | Some a => truthy a && contains TextPatterns.PASSWORD_LABEL a &&
                            negb (contains TextPatterns.MOBILE_TAB a)
                | None => false
                end)
         else ret false) ;;
      if labelled : bool then ret true else any_password_field rest
  end.

Definition _is_tab_already_selected : M W bool :=
  m1 <- try_except (any_visible Selectors.USERNAME_SELECTORS) (fun _ => ret false) ;;
  if m1 : bool then ret true
  else
    m2 <- try_except
            (all_tabs <- await (All (Locate Selectors.TAB_ROLE)) ;;
             any_selected_tab all_tabs)
            (fun _ => ret false) ;;
    if m2 : bool then ret true
    else try_except (any_password_field Selectors.PASSWORD_SELECTORS) (fun _ => ret false).

(** Method 1 of [_click_correct_tab]. *)
Fixpoint click_tab_by_text (all_tabs : list locator) : M W bool :=
  match all_tabs with
  | [] => ret false
  | tab :: rest =>
      tab_text <- await (TextContent tab) ;;
      if is_password_tab_text tab_text then
        await (WaitFor tab "visible" Timeouts.ELEMENT_VISIBLE) ;;
        await (Click tab false None) ;;
        asyncio_sleep drv Timeouts.TAB_CLICK_DELAY ;;
        ret true
      else click_tab_by_text rest
  end.

Definition _click_correct_tab : M W bool :=
  m1 <- try_except
          (all_tabs <- await (All (Locate Selectors.TAB_ROLE)) ;;
           click_tab_by_text all_tabs)
          (fun _ => ret false) ;;
  if m1 : bool then ret true
  else
    m2 <- try_except
            (await (GetByRole "tab" TextPatterns.USERNAME_PASSWORD_TAB true) ;;
             let tab := ByRole "tab" TextPatterns.USERNAME_PASSWORD_TAB true in
             await (WaitFor tab "visible" Timeouts.ELEMENT_WAIT) ;;
             tab_text <- await (TextContent tab) ;;
             if is_password_tab_text tab_text then
               await (Click tab false None) ;;
               asyncio_sleep drv Timeouts.TAB_CLICK_DELAY ;;
               ret true
             else ret false)
            (fun _ => ret false) ;;
    if m2 : bool then ret true
    else
      try_except
        (let tab := First (Locate Selectors.TAB_SELECTOR) in
         n <- await (Count tab) ;;
         if (0 <? n)%nat then
           await (TextContent tab) ;;
           await (WaitFor tab "visible" Timeouts.ELEMENT_VISIBLE) ;;
           await (Click tab false None) ;;
           asyncio_sleep drv Timeouts.TAB_CLICK_DELAY ;;
           ret true
         else ret false)
        (fun _ => ret false).

Definition _select_username_password_tab : M W unit :=
  asyncio_sleep drv Timeouts.TAB_CLICK_DELAY ;;
  selected <- _is_tab_already_selected ;;
  if selected : bool then asyncio_sleep drv Delays.AFTER_TAB_SWITCH
  else
    _click_correct_tab ;;
    ret tt.

Definition _handle_moe_login_page : M W unit :=
  try_pass (await (WaitForUrl Selectors.MOE_LOGIN_URL_PATTERN Timeouts.PAGE_LOAD)) ;;
  await (WaitForLoadState "networkidle" (Some Timeouts.PAGE_LOAD)) ;;
  asyncio_sleep drv Delays.EXTRA_LONG ;;
  _select_username_password_tab.

(** The [for selector in ...] loop shared by [_find_username_field] and
    [_find_password_field]: the first field that is present and becomes
    visible. *)
Fixpoint first_visible_field (selectors : list string) : M W (option locator) :=
  match selectors with
  | [] => ret None
  | selector :: rest =>
      found <- try_except
                 (let field := First (Locate selector) in
                  n <- await (Count field) ;;
                  if (0 <? n)%nat then
                    await (WaitFor field "visible" Timeouts.ELEMENT_VISIBLE) ;;
                    ret (Some field)
                  else ret None)
                 (fun _ => ret None) ;;
      match found with
      | Some field => ret (Some field)
      | None => first_visible_field rest
      end
  end.

Definition username_not_found : exn := PlainException "Could not find username field".
Definition password_not_found : exn := PlainException "Could not find password field".
Definition login_button_not_found : exn :=
  PlainException "Could not find login button (may have matched a tab instead)".

Definition _find_username_field : M W locator :=
  found <- first_visible_field Selectors.USERNAME_SELECTORS ;;
  match found with
  | Some field => ret field
  | None =>
      try_except
        (await (GetByRole "textbox" "קוד המשתמש שלך" false) ;;
         ret (ByRole "textbox" "קוד המשתמש שלך" false))
        (fun _ => raise username_not_found)
  end.

Definition _find_password_field : M W locator :=
  found <- first_visible_field Selectors.PASSWORD_SELECTORS ;;
  match found with
  | Some field => ret field
  | None =>
      try_except
        (await (GetByRole "textbox" "סיסמה" false) ;;
         ret (ByRole "textbox" "סיסמה" false))
        (fun _ => raise password_not_found)
  end.

Definition _fill_credentials (username password : string) : M W unit :=
  username_field <- _find_username_field ;;
  await (Fill username_field username) ;;
  asyncio_sleep drv Delays.AFTER_FILL ;;
  password_field <- _find_password_field ;;
  await (Click password_field false None) ;;
  asyncio_sleep drv Delays.SHORT ;;
  await (Fill password_field password) ;;
  asyncio_sleep drv Delays.AFTER_FILL ;;
  asyncio_sleep drv Delays.VERY_LONG.

(** [role != "tab"] *)
Definition not_tab (role : option string) : bool :=
  negb (bool_decide (role = Some "tab")).

(** Method 1 of [_find_login_button]: submit buttons. *)
Fixpoint submit_button (submit_buttons : list locator) : M W (option locator) :=
  match submit_buttons with
  | [] => ret None
  | btn :: rest =>
      btn_text <- await (TextContent btn) ;;
      found <-
        (if has_login_text btn_text then
           role <- await (GetAttribute btn "role") ;;
           if not_tab role then
             try_except
               (let parent := First (Within btn "xpath=..") in
                parent_role <- await (GetAttribute parent "role") ;;
                if negb (bool_decide (parent_role = Some "tablist")) &&
                   negb (bool_decide (parent_role = Some "tabpanel"))
                then ret (Some btn) else ret None)
               (fun _ => ret (Some btn))
           else ret None
         else ret None) ;;
      match found with
      | Some b => ret (Some b)
      | None => submit_button rest
      end
  end.

(** Method 2: buttons with the login text. *)
Fixpoint text_button (all_buttons : list locator) : M W (option locator) :=
  match all_buttons with
  | [] => ret None
  | btn :: rest =>
      role <- await (GetAttribute btn "role") ;;
      found <-
        (if not_tab role then
           try_except
             (tablist_parent <-
                await (Count (Within btn ("xpath=ancestor::*[@role=" +:+ dq +:+ "tablist" +:+ dq +:+ "]"))) ;;
              if (tablist_parent =? 0)%nat then
                await (TextContent btn) ;;
                ret (Some btn)
              else ret None)
             (fun _ =>
                btn_type <- await (GetAttribute btn "type") ;;
                if bool_decide (btn_type = Some "submit") then
                  await (TextContent btn) ;;
                  ret (Some btn)
                else ret None)
         else ret None) ;;
      match found with
      | Some b => ret (Some b)
      | None => text_button rest
      end
  end.

(** Method 3: [get_by_role]. *)
Fixpoint role_button (all_buttons : list locator) : M W (option locator) :=
  match all_buttons with
  | [] => ret None
  | btn :: rest =>
      role <- await (GetAttribute btn "role") ;;
      if not_tab role then ret (Some btn) else role_button rest
  end.

(** Method 4: the submit button of a form. *)
Fixpoint form_button (forms : list locator) : M W (option locator) :=
  match forms with
  | [] => ret None
  | form :: rest =>
      let submit_btn := First (Within form Selectors.LOGIN_BUTTON_SUBMIT) in
      n <- await (Count submit_btn) ;;
      found <-
        (if (0 <? n)%nat then
           btn_text <- await (TextContent submit_btn) ;;
           if has_login_text btn_text then ret (Some submit_btn) else ret None
         else ret None) ;;
      match found with
      | Some b => ret (Some b)
      | None => form_button rest
      end
  end.

Definition _find_login_button : M W locator :=
  m1 <- try_except
          (submit_buttons <- await (All (Locate Selectors.LOGIN_BUTTON_SUBMIT)) ;;
           submit_button submit_buttons)
          (fun _ => ret None) ;;
  match m1 with
  | Some btn => ret btn
  | None =>
      m2 <- try_except
              (all_buttons <- await (All (Locate Selectors.LOGIN_BUTTON_TEXT)) ;;
               text_button all_buttons)
              (fun _ => ret None) ;;
      match m2 with
      | Some btn => ret btn
      | None =>
          m3 <- try_except
                  (await (GetByRole "button" "כניסה" false) ;;
                   all_buttons <- await (All (ByRole "button" "כניסה" false)) ;;
                   role_button all_buttons)
                  (fun _ => ret None) ;;
          match m3 with
          | Some btn => ret btn
          | None =>
              m4 <- try_except
                      (forms <- await (All (Locate "form")) ;;
                       form_button forms)
                      (fun _ => ret None) ;;
              match m4 with
              | Some btn => ret btn
              | None => raise login_button_not_found
              end
          end
      end
  end.

Definition _click_login_button : M W unit :=
  login_button <- _find_login_button ;;
  wait_until_enabled login_button Timeouts.BUTTON_ENABLE_MAX_WAIT ;;
  await (TextContent login_button) ;;
  await (Click login_button false None).

(** The [for keyword in ...] loop of [_check_for_errors]. *)
Fixpoint error_keyword_shown (page_text : string) (keywords : list string) : M W bool :=
  match keywords with
  | [] => ret false
  | keyword :: rest =>
      shown <-
        (if contains (lower keyword) (lower page_text) then
           let error_elem := First (Locate ("text=/" +:+ keyword +:+ "/i")) in
           n <- await (Count error_elem) ;;
           if (0 <? n)%nat then
             await (TextContent error_elem) ;;
             ret true
           else ret false
         else ret false) ;;
      if shown : bool then ret true else error_keyword_shown page_text rest
  end.

Definition _check_for_errors : M W bool :=
  try_except
    (page_text <- await (TextContent (Locate "body")) ;;
     match page_text with
     | Some t => if truthy t then error_keyword_shown t Selectors.ERROR_KEYWORDS else ret false
     | None => ret false
     end)
    (fun _ => ret false).

(** [for _ in range(n)] of [_handle_recaptcha]: wait for the redirect. *)
Fixpoint wait_for_redirect (n : nat) : M W bool :=
  match n with
  | O => ret false
  | S n =>
      asyncio_sleep drv Delays.LONG ;;
      current_url <- get_url drv ;;
      if contains Selectors.WEBTOP_DOMAIN current_url then ret true
      else wait_for_redirect n
  end.

Definition _handle_recaptcha : M W bool :=
  try_except
    (let recaptcha := Locate Selectors.RECAPTCHA_IFRAME in
     n <- await (Count recaptcha) ;;
     if (0 <? n)%nat then
       is_visible <- await (IsVisible (First recaptcha)) ;;
       if is_visible : bool then wait_for_redirect Timeouts.RECAPTCHA_WAIT
       else ret false
     else ret false)
    (fun _ => ret false).

(** The [for keyword in ERROR_KEYWORDS[:3]] loop of [_debug_login_failure].
    The text of a found element is only logged; slicing a missing text
    raises [TypeError] inside the inner [try]. *)
Fixpoint log_error_keywords (body_text : string) (keywords : list string) : M W unit :=
  match keywords with
  | [] => ret tt
  | keyword :: rest =>
      (if contains (lower keyword) (lower body_text) then
         try_pass
           (let error_elem := First (Locate ("text=" +:+ keyword)) in
            n <- await (Count error_elem) ;;
            if (0 <? n)%nat then
              error_text <- await (TextContent error_elem) ;;
              match error_text with
              | Some _ => ret tt
              | None => raise (TypeError "'NoneType' object is not subscriptable")
              end
            else ret tt)
       else ret tt) ;;
      log_error_keywords body_text rest
  end.

Definition _debug_login_failure : M W unit :=
  try_pass
    (await Title ;;
     body_text <- await (TextContent (Locate "body")) ;;
     match body_text with
     | Some t =>
         if truthy t then log_error_keywords t (firstn 3 Selectors.ERROR_KEYWORDS)
         else ret tt
     | None => ret tt
     end) ;;
  try_pass (await (Screenshot "login_debug.png" true)).

(** The [for indicator in DASHBOARD_INDICATORS] loop. *)
Fixpoint dashboard_shown (indicators : list string) : M W bool :=
  match indicators with
  | [] => ret false
  | indicator :: rest =>
      seen <- try_except
                (await (WaitForSelector indicator None Timeouts.ELEMENT_VISIBLE) ;;
                 asyncio_sleep drv Delays.AFTER_LOGIN ;;
                 ret true)
                (fun _ => ret false) ;;
      if seen : bool then ret true else dashboard_shown rest
  end.

(** [Timeouts.LOGIN_REDIRECT / 1000], in seconds. *)
Definition max_wait_time : Q := inject_Z (Timeouts.LOGIN_REDIRECT ci) / 1000.

(** One round of the [while True] loop of [_verify_login_success]:
    [inl r] when the function returns [r] from inside the loop,
    [inr None] on [break], [inr (Some c)] to poll again with
    [recaptcha_checked = c]. *)
Definition poll_once (start_time : Q) (recaptcha_checked : bool)
  : M W (bool + option bool) :=
  current_url <- get_url drv ;;
  now <- get_loop_time drv ;;
  let elapsed := (now - start_time)%Q in
  if redirected_to_webtop current_url then ret (inr None)
  else
    on_moe <-
      (if contains Selectors.MOE_DOMAIN current_url then
         has_error <- _check_for_errors ;;
         if has_error : bool then ret (inl false)
         else if negb recaptcha_checked && Qgtb elapsed Timeouts.RECAPTCHA_CHECK_DELAY then
           solved <- _handle_recaptcha ;;
           if solved : bool then ret (inr None) else ret (inr (Some true))
         else ret (inr (Some recaptcha_checked))
       else ret (inr (Some recaptcha_checked))) ;;
    match on_moe with
    | inr (Some checked) =>
        if Qgtb elapsed max_wait_time then
          _debug_login_failure ;;
          ret (inr None)
        else
          asyncio_sleep drv Delays.LONG ;;
          ret (inr (Some checked))
    | other => ret other
    end.

(** The loop itself: [Some r] when the function returned [r] inside the
    loop, [None] when the loop was left by [break]. *)
Fixpoint poll_redirect (fuel : nat) (start_time : Q) (recaptcha_checked : bool)
  : F W (option bool) :=
  match fuel with
  | O => out_of_fuel
  | S fuel =>
      round <<- lift (poll_once start_time recaptcha_checked) ;;
      match round with
      | inl r => lift (ret (Some r))
      | inr None => lift (ret None)
      | inr (Some checked) => poll_redirect fuel start_time checked
      end
  end.

(** What follows the loop. *)
Definition final_verification : M W bool :=
  try_pass (await (WaitForLoadState "networkidle" (Some Timeouts.NETWORK_IDLE))) ;;
  asyncio_sleep drv Delays.EXTRA_LONG ;;
  current_url <- get_url drv ;;
  if negb (contains Selectors.LOGIN_PAGE_INDICATOR (lower current_url)) &&
     negb (contains Selectors.MOE_DOMAIN (lower current_url))
  then
    asyncio_sleep drv Delays.AFTER_LOGIN ;;
    ret true
  else
    seen <- dashboard_shown Selectors.DASHBOARD_INDICATORS ;;
    if seen : bool then ret true
    else if contains Selectors.MOE_DOMAIN current_url then
      _check_for_errors ;;
      ret false
    else ret false.

Definition _verify_login_success (fuel : nat) : F W bool :=
  start_time <<- lift (get_loop_time drv) ;;
  returned <<- poll_redirect fuel start_time false ;;
  match returned with
  | Some r => lift (ret r)
  | None => lift final_verification
  end.

(** The body of the [try] of [login]. *)
Definition login_flow (username password : string) (fuel : nat) : F W bool :=
  blocked <<- lift
     (asyncio_sleep drv Delays.SHORT ;;
      await (Goto Config.LOGIN_URL "networkidle" (Some 60000%Z)) ;;
      asyncio_sleep drv Delays.MEDIUM ;;
      page_title <- await Title ;;
      if cloudflare_title page_title then
        asyncio_sleep drv (Delays.EXTRA_LONG * 3)%Q ;;
        await (Reload "networkidle" 60000) ;;
        asyncio_sleep drv Delays.MEDIUM ;;
        page_title <- await Title ;;
        if contains "could not be satisfied" (lower page_title) then
          _debug_login_failure ;;
          ret true
        else ret false
      else ret false) ;;
  if blocked : bool then lift (ret false)
  else
    entered <<- lift (_accept_cookies ;;
                      _click_moe_button ;;
                      _handle_moe_login_page ;;
                      _fill_credentials username password ;;
                      _click_login_button) ;;
    login_success <<- _verify_login_success fuel ;;
    debugged <<- lift (if login_success : bool then ret tt else _debug_login_failure) ;;
    lift (ret login_success).

Definition login (username password : string) (fuel : nat) : F W bool :=
  ftry_except (login_flow username password fuel)
    (fun _ =>
       lift (try_pass _debug_login_failure ;;
             ret false)).

End WithDriver.
End Auth.

(** ** navigator.py *)
Module Navigator.
Import PyStr.

Section WithDriver.
Context {W : Type} (drv : PageDriver W).
Local Notation "'await' c" := (perform drv c) (at level 10, c at level 9).

(** The loop of [_click_student_card] and of [_click_homework_link],
    which differ in their selectors and URL pattern only. *)
Fixpoint click_first_link (selectors : list string) (url_pattern : string) : M W bool :=
  match selectors with
  | [] => ret false
  | selector :: rest =>
      clicked <- try_except
                   (let element := First (Locate selector) in
                    n <- await (Count element) ;;
                    if (0 <? n)%nat then
                      await (WaitFor element "visible" Timeouts.ELEMENT_VISIBLE) ;;
                      await (Click element false None) ;;
                      try_pass (await (WaitForUrl url_pattern Timeouts.URL_WAIT)) ;;
                      await (WaitForLoadState "networkidle" (Some Timeouts.NETWORK_IDLE)) ;;
                      asyncio_sleep drv Delays.AFTER_PAGE_LOAD ;;
                      ret true
                    else ret false)
                   (fun _ => ret false) ;;
      if clicked : bool then ret true else click_first_link rest url_pattern
  end.

Definition _click_student_card : M W bool :=
  click_first_link Selectors.STUDENT_CARD_SELECTORS Selectors.STUDENT_CARD_URL_PATTERN.

Definition _click_homework_link : M W bool :=
  click_first_link Selectors.HOMEWORK_SELECTORS Selectors.HOMEWORK_URL_PATTERN.

Definition _verify_homework_page : M W bool :=
  current_url <- get_url drv ;;
  if contains Selectors.LOGIN_PAGE_INDICATOR (lower current_url) then ret false
  else if contains "Student_Card/11" current_url || contains "Student_Card" current_url
  then ret true
  else
    try_except
      (await (WaitForSelector "h2, table" None Timeouts.ELEMENT_VISIBLE) ;;
       ret true)
      (fun _ => ret false).

Definition navigate_to_homework : M W bool :=
  try_except
    (await (WaitForLoadState "networkidle" None) ;;
     asyncio_sleep drv Delays.AFTER_PAGE_LOAD ;;
     current_url <- get_url drv ;;
     if contains Selectors.LOGIN_PAGE_INDICATOR (lower current_url) then ret false
     else
       student_card_clicked <- _click_student_card ;;
       redirected <-
         (if student_card_clicked : bool then ret false
          else
            await (Goto Config.STUDENT_CARD_URL "networkidle" None) ;;
            asyncio_sleep drv Delays.EXTRA_LONG ;;
            current_url <- get_url drv ;;
            ret (contains Selectors.LOGIN_PAGE_INDICATOR (lower current_url))) ;;
       if redirected : bool then ret false
       else
         homework_clicked <- _click_homework_link ;;
         (if homework_clicked : bool then ret tt
          else
            await (Goto Config.HOMEWORK_URL "networkidle" None) ;;
            asyncio_sleep drv Delays.EXTRA_LONG) ;;
         _verify_homework_page)
    (fun _ => ret false).

End WithDriver.
End Navigator.

(** ** browser.py *)
Module Browser.

(** Engine, channel and arguments of the four launch configurations;
    [headless] and [slow_mo] are the same in all four. *)
Definition browser_configs : list (string * option string * list string) :=
  [ ("chromium", Some "chrome",
     ["--disable-blink-features=AutomationControlled"; "--disable-dev-shm-usage";
      "--no-sandbox"; "--disable-setuid-sandbox"; "--disable-web-security"]);
    ("chromium", None,
     ["--disable-blink-features=AutomationControlled"; "--disable-dev-shm-usage";
      "--no-sandbox"; "--disable-setuid-sandbox"]);
    ("webkit", None, []);
    ("firefox", None, []) ].

Section WithDriver.
Context {W : Type} (drv : PageDriver W).
Local Notation "'await' c" := (perform drv c) (at level 10, c at level 9).

(** The body of the loop of [launch_browser]: a browser that was
    launched but then fails the liveness check is closed again. *)
Definition try_launch (config : string * option string * list string)
  : M W (option browser) :=
  let '(engine, channel, args) := config in
  launched <- try_except
                (b <- await (Launch engine channel args) ;;
                 ret (Some b))
                (fun _ => ret None) ;;
  match launched with
  | Some b =>
      alive <- try_except
                 (asyncio_sleep drv Delays.LONG ;;
                  await (Contexts b) ;;
                  ret true)
                 (fun _ => ret false) ;;
      if alive : bool then ret (Some b)
      else
        try_pass (await (CloseBrowser b)) ;;
        ret None
  | None => ret None
  end.

Fixpoint launch_first (configs : list (string * option string * list string))
  : M W browser :=
  match configs with
  | [] => raise (PlainException "Failed to launch any browser")
  | config :: rest =>
      launched <- try_launch config ;;
      match launched with
      | Some b => ret b
      | None => launch_first rest
      end
  end.

Definition launch_browser : M W browser := launch_first browser_configs.

Definition create_context (b : browser) : M W context := await (NewContext b).

Definition create_page (c : context) : M W unit :=
  await (NewPage c) ;;
  await AddInitScript.

End WithDriver.
End Browser.

(** ** scraper.py *)
Module Scraper.
Import PyStr Utils Extractor.

(** The environment variables the package reads at import time. *)
Record environ : Type := mkenviron {
  MINISTRY_OF_EDUCATION_USERNAME : option string;
  MINISTRY_OF_EDUCATION_PASSWORD : option string;
  CI : bool
}.

Definition missing_credentials : exn :=
  ValueError "MINISTRY_OF_EDUCATION_USERNAME and MINISTRY_OF_EDUCATION_PASSWORD must be set in environment variables".

Definition login_failed : exn :=
  PlainException "Failed to login to Webtop. Check login_debug.png screenshot for details. Possible reasons: invalid credentials, reCAPTCHA challenge, network timeout, or browser automation detection.".

Definition navigation_failed : exn :=
  PlainException "Failed to navigate to homework page".

Section WithDriver.
Context {W : Type} (drv : PageDriver W).
Context (env : environ).
Local Notation "'await' c" := (perform drv c) (at level 10, c at level 9).

(** [self.username], [self.password]: copied from [Config] by [__init__]. *)
Definition username : option string := MINISTRY_OF_EDUCATION_USERNAME env.
Definition password : option string := MINISTRY_OF_EDUCATION_PASSWORD env.

(** [m], keeping its exception as a value. *)
Definition attempt {A : Type} (m : M W A) : M W (A + exn) :=
  try_except (a <- m ;; ret (inl a)) (fun e => ret (inr e)).

(** The [except Exception] clause of [get_today_homework]: close what
    was opened, swallow what closing raises, and raise again. *)
Definition cleanup {A : Type} (c : option context) (b : option browser) (e : exn)
  : M W A :=
  try_pass
    ((match c with Some c => await (CloseContext c) | None => ret tt end) ;;
     (match b with Some b => await (CloseBrowser b) | None => ret tt end)) ;;
  raise e.

(** [async with async_playwright()]: the exit runs on every way out
    of the body that is not fuel exhaustion. *)
Definition with_playwright {A : Type} (body : F W A) : F W A :=
  started <<- lift (await StartPlaywright) ;;
  fun s =>
    match body s with
    | Some (r, s') =>
        match await StopPlaywright s' with
        | (Ok _, s'') => Some (r, s'')
        | (Raise e, s'') => Some (Raise e, s'')
        end
    | None => None
    end.

Definition get_today_homework (date : option string) (fuel : nat)
  : F W (list HomeworkRecord) :=
  if negb (otruthy username) || negb (otruthy password)
  then lift (raise missing_credentials)
  else
    target_date <<- lift
      (if otruthy date then
         parsed <- lift_result (parse_date date) ;;
         match parsed with
         | Some t => ret t
         | None => datetime_now drv   (* not reached: [date] is not [None] *)
         end
       else datetime_now drv) ;;
    with_playwright
      (launched <<- lift (attempt (Browser.launch_browser drv)) ;;
       match launched with
       | inr e => lift (cleanup None None e)
       | inl b =>
           created <<- lift (attempt (Browser.create_context drv b)) ;;
           match created with
           | inr e => lift (cleanup None (Some b) e)
           | inl c =>
               ftry_except
                 (paged <<- lift (Browser.create_page drv c) ;;
                  if negb (otruthy username) || negb (otruthy password)
                  then lift (raise (ValueError "Credentials not configured."))
                  else
                    login_success <<- Auth.login drv (CI env)
                                        (default EmptyString username)
                                        (default EmptyString password) fuel ;;
                    if negb login_success then lift (raise login_failed)
                    else
                      nav_success <<- lift (Navigator.navigate_to_homework drv) ;;
                      if negb nav_success then lift (raise navigation_failed)
                      else
                        homework <<- lift (extract_homework drv (Some target_date)) ;;
                        closed <<- lift (await (CloseContext c) ;;
                                         await (CloseBrowser b)) ;;
                        lift (ret homework))
                 (fun e => lift (cleanup (Some c) (Some b) e))
           end
       end).

End WithDriver.
End Scraper.

(** ** Fixture pages

    Pages that never change, in the manner of the mocked pages of the
    test-suite: every call is answered from a fixed description. *)
Module Fixture.
Import PyStr.

Record page_model : Type := mkpage {
  pm_url : string;
  pm_all : locator -> result (list locator);
  pm_count : locator -> result nat;
  pm_text : locator -> result (option string);
  pm_attribute : locator -> string -> result (option string);
  pm_visible : locator -> result bool;
  pm_click : locator -> bool -> result unit;
  pm_get_by_role : result unit
}.

Definition static_answer (p : page_model) (A : Type) (c : call A) : result A :=
  match c in call T return result T with
  | Goto _ _ _ => Ok tt
  | Reload _ _ => Ok tt
  | Title => Ok "Webtop"
  | WaitForUrl _ _ => Ok tt
  | WaitForLoadState _ _ => Ok tt
  | WaitForSelector _ _ _ => Ok tt
  | WaitForTimeout _ => Ok tt
  | Evaluate _ => Ok tt
  | Screenshot _ _ => Ok tt
  | GetByRole _ _ _ => pm_get_by_role p
  | AddInitScript => Ok tt
  | Count l => pm_count p l
  | All l => pm_all p l
  | IsVisible l => pm_visible p l
  | GetAttribute l name => pm_attribute p l name
  | TextContent l => pm_text p l
  | Click l force _ => pm_click p l force
  | Fill _ _ => Ok tt
  | WaitFor _ _ _ => Ok tt
  | ScrollIntoViewIfNeeded _ => Ok tt
  | ElementHandle _ => Ok true
  | StartPlaywright => Ok tt
  | StopPlaywright => Ok tt
  | Launch _ _ _ => Ok 0%nat
  | Contexts _ => Ok 0%nat
  | CloseBrowser _ => Ok tt
  | NewContext _ => Ok 0%nat
  | NewPage _ => Ok tt
  | CloseContext _ => Ok tt
  end.

Definition static_driver (p : page_model) : PageDriver unit :=
  mkDriver unit
    (fun A c w => (static_answer p A c, w))
    (fun _ => pm_url p)
    (fun _ => 0%Q)
    (fun _ => mkdatetime 2026 1 21 12 0 0 0)
    (fun _ w => w).

Definition start : state unit := mkstate tt [].

(** A page on which nothing is found and [get_by_role] raises. *)
Definition blank_page : page_model :=
  mkpage Config.LOGIN_URL
    (fun _ => Ok [])
    (fun _ => Ok 0%nat)
    (fun _ => Ok None)
    (fun _ _ => Ok None)
    (fun _ => Ok false)
    (fun _ _ => Ok tt)
    (Raise (PlaywrightError "no element with this role")).

(** A week page with the headings of 20/01/2026 and 22/01/2026 and a
    table of three rows: a row of six cells whose lesson and homework
    cells hold the "no data yet" text, a row of five cells, and a row
    of seven cells with a link in the last one.  When [broken], a
    fourth row follows whose cells cannot be read. *)
Definition heading_text (i : nat) : option string :=
  match i with
  | 0%nat => Some "יום שלישי | 20/01/2026 | ב׳ שְׁבָט תשפ״ו"
  | 1%nat => Some "יום חמישי | 22/01/2026 | ד׳ שְׁבָט תשפ״ו"
  | _ => None
  end.

Definition cell_text (row cell : nat) : option string :=
  match row, cell with
  | 0%nat, 0%nat => Some "1"
  | 0%nat, 1%nat => Some " מתמטיקה "
  | 0%nat, 2%nat => Some "מורה א"
  | 0%nat, 3%nat => Some "נוכח"
  | 0%nat, 4%nat => Some "טרם הוזנו נתונים"
  | 0%nat, 5%nat => Some "טרם הוזנו נתונים"
  | 1%nat, 0%nat => Some "2"
  | 1%nat, 1%nat => Some "אנגלית"
  | 2%nat, 0%nat => Some "3"
  | 2%nat, 1%nat => Some "היסטוריה"
  | 2%nat, 2%nat => Some "מורה ב"
  | 2%nat, 3%nat => Some "נוכח"
  | 2%nat, 4%nat => Some "נושא שיעור: פרק 5"
  | 2%nat, 5%nat => Some "שיעורי בית: עמוד 45"
  | _, _ => Some EmptyString
  end.

Definition numbered (l : locator) (n : nat) : list locator :=
  map (Nth l) (seq 0 n).

Definition week_all (broken : bool) (l : locator) : result (list locator) :=
  match l with
  | Locate sel =>
      if String.eqb sel Selectors.DATE_HEADING then Ok (numbered l 2) else Ok []
  | Within (Nth _ row) sel =>
      if String.eqb sel Selectors.TABLE_CELLS then
        match row with
        | 0%nat => Ok (numbered l 6)
        | 1%nat => Ok (numbered l 5)
        | 2%nat => Ok (numbered l 7)
        | _ => Raise (PlaywrightError "Target page, context or browser has been closed")
        end
      else if String.eqb sel Selectors.FILE_LINKS then
        match l with
        | Within (Nth (Within (Nth _ 2%nat) _) 6%nat) _ => Ok (numbered l 1)
        | _ => Ok []
        end
      else Ok []
  | Within _ sel =>
      if String.eqb sel Selectors.TABLE_BODY_ROWS
      then Ok (numbered l (if broken then 4 else 3))
      else Ok []
  | _ => Ok []
  end.

Definition week_text (l : locator) : result (option string) :=
  match l with
  | Nth (Locate _) i => Ok (heading_text i)
  | Nth (Within (Nth (Within (Nth _ _) _) _) _) _ => Ok (Some " תרגילים.pdf ")
  | Nth (Within (Nth _ row) _) cell => Ok (cell_text row cell)
  | _ => Ok None
  end.

Definition week_attribute (l : locator) (name : string) : result (option string) :=
  match l with
  | Nth (Within (Nth (Within (Nth _ _) _) _) _) _ =>
      if String.eqb name "href" then Ok (Some "https://webtop.smartschool.co.il/files/45.pdf")
      else Ok None
  | _ => Ok None
  end.

Definition week_page (broken : bool) : page_model :=
  mkpage Config.HOMEWORK_URL
    (week_all broken)
    (fun _ => Ok 0%nat)
    week_text
    week_attribute
    (fun _ => Ok true)
    (fun _ _ => Ok tt)
    (Ok tt).

(** A page without date headings whose address never changes and whose
    navigation controls are present and enabled but cannot be clicked. *)
Definition stuck_page : page_model :=
  mkpage Config.HOMEWORK_URL
    (fun _ => Ok [])
    (fun _ => Ok 1%nat)
    (fun _ => Ok None)
    (fun _ _ => Ok None)
    (fun _ => Ok true)
    (fun _ _ => Raise (PlaywrightError "Timeout 5000ms exceeded."))
    (Ok tt).

Definition jan (d : Z) : datetime := mkdatetime 2026 1 d 0 0 0 0.

(** The table of 20/01/2026 on the week page, as the first lookup of
    [_find_date_table] finds it, its rows and their cells. *)
Definition table_2001 : locator :=
  First (Locate ("[aria-label*=" +:+ dq +:+ "20/01/2026" +:+ dq +:+ "]")).
Definition row_2001 (i : nat) : locator :=
  Nth (Within table_2001 Selectors.TABLE_BODY_ROWS) i.
Definition cell_2001 (i k : nat) : locator :=
  Nth (Within (row_2001 i) Selectors.TABLE_CELLS) k.

(** The records of its first and third row. *)
Definition first_item : Extractor.HomeworkRecord :=
  Extractor.mkrecord "1" "מתמטיקה" "מורה א" "טרם הוזנו נתונים" "טרם הוזנו נתונים"
    "טרם הוזנו נתונים | טרם הוזנו נתונים" "נוכח" [] "20/01/2026".

Definition third_item : Extractor.HomeworkRecord :=
  Extractor.mkrecord "3" "היסטוריה" "מורה ב" "פרק 5" "עמוד 45" "פרק 5 | עמוד 45" "נוכח"
    [Extractor.FileLink "https://webtop.smartschool.co.il/files/45.pdf" "תרגילים.pdf"]
    "20/01/2026".

(** The same pages under a clock that [asyncio.sleep] advances. *)
Definition ticking_driver (p : page_model) : PageDriver Q :=
  mkDriver Q
    (fun A c w => (static_answer p A c, w))
    (fun _ => pm_url p)
    (fun w => w)
    (fun _ => mkdatetime 2026 1 21 12 0 0 0)
    (fun d w => Qred (w + d)%Q).

Definition start_clock : state Q := mkstate 0%Q [].

(** A login page on which every element is there and visible, and
    which never leaves the login URL. *)
Definition form_page : page_model :=
  mkpage Config.LOGIN_URL
    (fun l => Ok [First l])
    (fun _ => Ok 1%nat)
    (fun _ => Ok None)
    (fun _ _ => Ok None)
    (fun _ => Ok true)
    (fun _ _ => Ok tt)
    (Ok tt).

End Fixture.

(** ** What the claims speak of *)
Module Claims.
Import PyStr Extractor.

(** What [_combine_content] keeps on each side. *)
Definition lesson_kept (lesson_topic : string) : Prop :=
  lesson_topic <> EmptyString /\ lesson_topic <> TextPatterns.EMPTY_LESSON_PLACEHOLDER.

Definition homework_kept (homework : string) : Prop :=
  homework <> EmptyString /\ homework <> "--" /\
  homework <> TextPatterns.NO_HOMEWORK_PLACEHOLDER.

(** One placeholder set for both sides: empty, the "no homework" marker
    and the "empty lesson" marker. *)
Definition placeholder (s : string) : Prop :=
  s = EmptyString \/ s = TextPatterns.NO_HOMEWORK_PLACEHOLDER \/
  s = TextPatterns.EMPTY_LESSON_PLACEHOLDER.



(** *** Observations on the trace of an execution *)

Definition is_call (e : event) : bool :=
  match e with Called _ => true | _ => false end.

Definition is_click_call {A : Type} (c : call A) : bool :=
  match c with Click _ _ _ => true | _ => false end.

Definition is_click (e : event) : bool :=
  match e with Called c => is_click_call c | _ => false end.

(** The number of click attempts in a trace. *)
Fixpoint clicks (tr : list event) : nat :=
  match tr with
  | [] => 0
  | e :: tr' => (if is_click e then 1 else 0) + clicks tr'
  end.

(** The number of pages the search recorded, that is the rounds of the
    loop that went on to look for a navigation control. *)
Fixpoint visit_count (tr : list event) : nat :=
  match tr with
  | [] => 0
  | Visit _ _ :: tr' => S (visit_count tr')
  | _ :: tr' => visit_count tr'
  end.

(** The recorded pages with the direction of the search, oldest first
    when given the events oldest first. *)
Fixpoint visits (chronological : list event) : list (string * direction) :=
  match chronological with
  | [] => []
  | Visit url d :: rest => (url, d) :: visits rest
  | _ :: rest => visits rest
  end.

(** No page is recorded while it is in the visited set: [seen] is the
    set at the start of the events, given oldest first. *)
Fixpoint fresh_from (seen : gset string) (chronological : list event) : Prop :=
  match chronological with
  | [] => True
  | Visit url _ :: rest => (url ∉ seen) /\ fresh_from ({[url]} ∪ seen) rest
  | VisitedCleared :: rest => fresh_from ∅ rest
  | Called _ :: rest => fresh_from seen rest
  end.

(** The events an execution added, newest first. *)
Definition added {W : Type} (before after : state W) (new : list event) : Prop :=
  trace after = new ++ trace before.

End Claims.


(** ** Predicates on awaited computations *)
Module Awaited.
Import Claims.

(** Every value [m] returns satisfies [Q]. *)
Definition post {W A : Type} (Q : A -> Prop) (m : M W A) : Prop :=
  forall s a s', m s = (Ok a, s') -> Q a.

(** [m] never raises. *)
Definition total {W A : Type} (m : M W A) : Prop :=
  forall s, exists a s', m s = (Ok a, s').

(** [m] adds events that satisfy [P] to the trace. *)
Definition emits {W A : Type} (P : list event -> Prop) (m : M W A) : Prop :=
  forall s, exists new, added s (snd (m s)) new /\ P new.

(** Driver calls only, at most [k] of them clicks. *)
Definition calls_with_clicks (k : nat) (new : list event) : Prop :=
  Forall (fun e => is_call e = true) new /\ clicks new <= k.

Definition quiet {W A : Type} (k : nat) (m : M W A) : Prop :=
  emits (calls_with_clicks k) m.

(** The budget of the pagination loop: at most [c] clicks and [n]
    recorded pages, none recorded while in the visited set [seen]. *)
Definition within_budget (c n : nat) (seen : gset string) (new : list event) : Prop :=
  clicks new <= c /\ visit_count new <= n /\ fresh_from seen (rev new).

(** [a <= b] on datetimes. *)
Definition dt_le (a b : datetime) : Prop := Datetime.ltb b a = false.

(** The clock of the driver never runs backwards during a call and
    advances by the duration at least during a sleep. *)
Definition clock_advances {W : Type} (drv : PageDriver W) : Prop :=
  (forall (A : Type) (c : call A) (w : W),
     (loop_time drv w <= loop_time drv (snd (answer drv c w)))%Q) /\
  (forall (d : Q) (w : W),
     (0 <= d)%Q -> (loop_time drv w + d <= loop_time drv (sleep drv d w))%Q).

(** The clock is not earlier after [m] than before. *)
Definition later {W A : Type} (drv : PageDriver W) (m : M W A) : Prop :=
  forall s, (loop_time drv (world s) <= loop_time drv (world (snd (m s))))%Q.
End Awaited.

(** ** What the further properties speak of *)
Module Observations.
Import PyStr Datetime Strptime Claims.

(** Midnight of a calendar date. *)
Definition calendar_midnight (t : datetime) : Prop :=
  valid_date (year t) (month t) (day t) = true /\
  hour t = 0%Z /\ minute t = 0%Z /\ second t = 0%Z /\ microsecond t = 0%Z.



(** A text without ASCII digits. *)
Fixpoint no_digit (s : string) : bool :=
  match s with
  | EmptyString => true
  | String c s' => negb (is_digit c) && no_digit s'
  end.

(** A text whose characters all lie below U+0640: in UTF-8 these are
    the ASCII characters and the two-byte characters with a lead byte
    up to 0xD8 (Latin, Greek, Cyrillic, Armenian, Hebrew), so no byte
    of the text exceeds 0xD8. *)
Fixpoint below_U0640 (s : string) : bool :=
  match s with
  | EmptyString => true
  | String c s' => (nat_of_ascii c <=? 216)%nat && below_U0640 s'
  end.

(** A text of characters below U+0640, none of them in [0-9]: it
    holds no decimal digit of any script.  Python's [\d] and [int]
    accept every Unicode decimal digit, and the first ones after [0-9]
    are the Arabic-Indic digits, from U+0660 on. *)
Definition no_decimal_digit (s : string) : bool := no_digit s && below_U0640 s.

(** Every value [m] returns, with the state it returns in, satisfies [Q]. *)
Definition ends {W A : Type} (Q : A -> state W -> Prop) (m : M W A) : Prop :=
  forall s a s', m s = (Ok a, s') -> Q a s'.

(** Every exception [m] raises, with the state it is raised in,
    satisfies [Q]. *)
Definition fails {W A : Type} (Q : exn -> state W -> Prop) (m : M W A) : Prop :=
  forall s e s', m s = (Raise e, s') -> Q e s'.

(** The state in which the heading search says yes: a heading has just
    been read whose text contains the date string. *)
Definition read_the_date {W : Type} (drv : PageDriver W) (t : string)
    (found : bool) (s' : state W) : Prop :=
  found = true ->
  exists heading heading_text s0,
    perform drv (TextContent heading) s0 = (Ok heading_text, s') /\
    Pagination.text_has t heading_text = true.

(** The state right after [find_date_on_page] found the date. *)
Definition found_the_date {W : Type} (drv : PageDriver W) (t : string)
    (found : bool) (s' : state W) : Prop :=
  found = true -> exists s0, Pagination.find_date_on_page drv t s0 = (Ok true, s').

(** The state in which the wait for the load state has just raised [e]. *)
Definition load_wait_failed {W : Type} (drv : PageDriver W) (e : exn) (s' : state W) : Prop :=
  exists s0, perform drv (WaitForLoadState "networkidle" None) s0 = (Raise e, s').

(** A control found by one of the selectors. *)
Definition first_of (sels : list string) (found : option locator) : Prop :=
  forall btn, found = Some btn ->
    exists selector, selector ∈ sels /\ btn = First (Locate selector).

End Observations.

(** ** What the properties of the extraction speak of *)
Module Cleaned.
Import PyStr Extractor.

(** The texts that [_extract_cell_text] turns into the empty string. *)
Definition cell_placeholders : list string := ["-`"; "-"; "`"; "--"].

(** A character that is not whitespace, or the space itself. *)
Definition plain (c : ascii) : bool := negb (isspace c) || Ascii.eqb c " ".

Fixpoint all_chars (p : ascii -> bool) (s : string) : bool :=
  match s with
  | EmptyString => true
  | String c s' => p c && all_chars p s'
  end.

(** A run of characters without whitespace. *)
Definition word (w : string) : Prop := all_chars (fun c => negb (isspace c)) w = true.

(** A cell text as [_extract_cell_text] leaves it: trimmed, not a
    placeholder, and with no whitespace but single spaces. *)
Definition clean_text (s : string) : Prop :=
  strip s = s /\ (s ∉ cell_placeholders) /\ all_chars plain s = true.

(** The entries of [attached_files]. *)
Definition is_link (f : FileRef) : Prop :=
  match f with
  | FileLink href text => href <> EmptyString /\ strip text = text
  | FileImage _ _ => False
  end.

Definition is_image (f : FileRef) : Prop :=
  match f with
  | FileImage src alt => src <> EmptyString /\ strip alt = alt
  | FileLink _ _ => False
  end.

Definition links_then_images (files : list FileRef) : Prop :=
  exists links images,
    files = links ++ images /\ Forall is_link links /\ Forall is_image images.

(** A record as [_extract_table_data] builds it for the date string. *)
Definition well_formed (date_str : string) (r : HomeworkRecord) : Prop :=
  date r = date_str /\
  combined r = _combine_content (lesson_topic r) (homework r) /\
  subject r <> EmptyString /\ strip (subject r) = subject r /\
  clean_text (hour r) /\ clean_text (teacher r) /\ clean_text (status r) /\
  clean_text (lesson_topic r) /\ clean_text (homework r) /\
  links_then_images (attached_files r).

(** At most [k] clicks. *)
Definition clicks_at_most {W A : Type} (k : nat) (m : M W A) : Prop :=
  Awaited.emits (fun new => Claims.clicks new <= k) m.

End Cleaned.

(** ** Observations on the calls of an execution *)
Module Watch.
Import Claims Awaited.

(** The value typed by a call of [fill]. *)
Definition fill_value (e : event) : option string :=
  match e with
  | Called c => match c with Fill _ value => Some value | _ => None end
  | _ => None
  end.

(** The address of a call of [goto]. *)
Definition goto_url (e : event) : option string :=
  match e with
  | Called c => match c with Goto url _ _ => Some url | _ => None end
  | _ => None
  end.

(** The configuration of a call of [launch]. *)
Definition launch_of (e : event) : option (string * option string * list string) :=
  match e with
  | Called c =>
      match c with
      | Launch engine channel args => Some (engine, channel, args)
      | _ => None
      end
  | _ => None
  end.

(** What [obs] sees in the events, in their order. *)
Fixpoint seen {X : Type} (obs : event -> option X) (chronological : list event) : list X :=
  match chronological with
  | [] => []
  | e :: rest =>
      match obs e with
      | Some x => x :: seen obs rest
      | None => seen obs rest
      end
  end.

(** What [obs] sees of the events that [m] adds, oldest first,
    satisfies [S]. *)
Definition sees {W A X : Type} (obs : event -> option X) (S : list X -> Prop)
    (m : M W A) : Prop :=
  emits (fun new => S (seen obs (rev new))) m.

(** [obs] sees nothing of [m]. *)
Definition unseen {W A X : Type} (obs : event -> option X) (m : M W A) : Prop :=
  sees obs (fun l => l = []) m.

(** The same for computations that take fuel, when they return. *)
Definition femits {W A : Type} (P : list event -> Prop) (m : F W A) : Prop :=
  forall s r s', m s = Some (r, s') -> exists new, added s s' new /\ P new.

(** The credentials in the order they are typed: none, the username,
    or the username and then the password. *)
Definition typed_in_order (username password : string) (values : list string) : Prop :=
  values = [] \/ values = [username] \/ values = [username; password].

Definition typed_as (username password : string) (new : list event) : Prop :=
  typed_in_order username password (seen fill_value (rev new)).

(** At most [k] clicks among the events. *)
Definition at_most (k : nat) (new : list event) : Prop := clicks new <= k.

(** The addresses [navigate_to_homework] may go to, in their order. *)
Definition fallback_gotos (urls : list string) : Prop :=
  urls = [] \/ urls = [Config.STUDENT_CARD_URL] \/ urls = [Config.HOMEWORK_URL] \/
  urls = [Config.STUDENT_CARD_URL; Config.HOMEWORK_URL].

(** The state right after the homework page was verified, at an
    address without "login". *)
Definition verified {W : Type} (drv : PageDriver W) (ok : bool) (s' : state W) : Prop :=
  ok = true ->
  exists s0,
    Navigator._verify_homework_page drv s0 = (Ok true, s') /\
    PyStr.contains Selectors.LOGIN_PAGE_INDICATOR (PyStr.lower (page_url drv (world s0))) = false.

(** The last call was the attempt to save the debugging screenshot. *)
Definition shot {W : Type} (s : state W) : Prop :=
  exists earlier, trace s = Called (Screenshot "login_debug.png" true) :: earlier.

End Watch.

(** ** More fixture pages *)
Module Fixture2.
Import Fixture.

(** A driver whose every call fails: the page has been closed. *)
Definition page_closed : exn :=
  PlaywrightError "Target page, context or browser has been closed".

Definition closed_driver : PageDriver unit :=
  mkDriver unit
    (fun A c w => (Raise page_closed, w))
    (fun _ => Config.HOMEWORK_URL)
    (fun _ => 0%Q)
    (fun _ => mkdatetime 2026 1 21 12 0 0 0)
    (fun _ w => w).

(** The week page as a logged-in session answers: every element that
    is asked for is counted once, and the login button is found by
    its role. *)
Definition session_all (l : locator) : result (list locator) :=
  match l with
  | ByRole _ _ _ => Ok [l]
  | _ => week_all false l
  end.

Definition session_page : page_model :=
  mkpage Config.HOMEWORK_URL
    session_all
    (fun _ => Ok 1%nat)
    week_text
    week_attribute
    (fun _ => Ok true)
    (fun _ _ => Ok tt)
    (Ok tt).

Definition credentials : Scraper.environ :=
  Scraper.mkenviron (Some "user") (Some "secret") false.

End Fixture2.

(** * Properties *)

Module PureFacts.
Import PyStr Datetime Strptime Utils DateText.

Lemma is_digit_cases (c : ascii) :
  is_digit c = true ->
  c = "0"%char \/ c = "1"%char \/ c = "2"%char \/ c = "3"%char \/ c = "4"%char \/
  c = "5"%char \/ c = "6"%char \/ c = "7"%char \/ c = "8"%char \/ c = "9"%char.
Proof.
  destruct c as [[] [] [] [] [] [] [] []]; vm_compute; intros H;
    try discriminate H; tauto.
Qed.

Ltac digit_cases H :=
  apply is_digit_cases in H;
  destruct H as [H|[H|[H|[H|[H|[H|[H|[H|[H|H]]]]]]]]]; subst.

Lemma digit_char_spec (k : Z) :
  (0 <= k <= 9)%Z -> is_digit (digit_char k) = true /\ digit_val (digit_char k) = Some k.
Proof.
  intros H.
  assert (k = 0 \/ k = 1 \/ k = 2 \/ k = 3 \/ k = 4 \/ k = 5 \/ k = 6 \/ k = 7 \/ k = 8 \/ k = 9)%Z
    as C by lia.
  destruct C as [C|[C|[C|[C|[C|[C|[C|[C|[C|C]]]]]]]]]; subst; split; reflexivity.
Qed.

Lemma two_digit_chars (a b : Z) :
  (0 <= a <= 9)%Z -> (0 <= b <= 9)%Z -> two (digit_char a) (digit_char b) = (10 * a + b)%Z.
Proof.
  intros Ha Hb. unfold two.
  destruct (digit_char_spec a Ha) as [_ ->], (digit_char_spec b Hb) as [_ ->]. reflexivity.
Qed.

(** The alternatives of [%d] on two digits: the two-digit reading when
    it is a day number, then the one-digit reading. *)
Lemma alternatives_d_digits (c1 c2 : ascii) (r : string) :
  is_digit c1 = true -> is_digit c2 = true ->
  alternatives_d (String c1 (String c2 r)) =
    (if (1 <=? two c1 c2)%Z && (two c1 c2 <=? 31)%Z then [(two c1 c2, r)] else []) ++
    (if negb (Ascii.eqb c1 "0") then [(one c1, String c2 r)] else []).
Proof.
  intros H1 H2. digit_cases H1; digit_cases H2; reflexivity.
Qed.

Lemma alternatives_m_digits (c1 c2 : ascii) (r : string) :
  is_digit c1 = true -> is_digit c2 = true ->
  alternatives_m (String c1 (String c2 r)) =
    (if (1 <=? two c1 c2)%Z && (two c1 c2 <=? 12)%Z then [(two c1 c2, r)] else []) ++
    (if negb (Ascii.eqb c1 "0") then [(one c1, String c2 r)] else []).
Proof.
  intros H1 H2. digit_cases H1; digit_cases H2; reflexivity.
Qed.

Lemma alternatives_Y_digits (c1 c2 c3 c4 : ascii) (r : string) :
  is_digit c1 = true -> is_digit c2 = true -> is_digit c3 = true -> is_digit c4 = true ->
  alternatives_Y (String c1 (String c2 (String c3 (String c4 r)))) =
    [((100 * two c1 c2 + two c3 c4)%Z, r)].
Proof.
  intros H1 H2 H3 H4. unfold alternatives_Y. rewrite H1, H2, H3, H4. reflexivity.
Qed.


Lemma re_match_d_eq ds s g :
  re_match (D_d :: ds) s g =
  first_match (fun '(v, r) => re_match ds r (mkgroups (Some v) (g_m g) (g_Y g)))
    (alternatives_d s).
Proof. reflexivity. Qed.

Lemma re_match_m_eq ds s g :
  re_match (D_m :: ds) s g =
  first_match (fun '(v, r) => re_match ds r (mkgroups (g_d g) (Some v) (g_Y g)))
    (alternatives_m s).
Proof. reflexivity. Qed.

Lemma re_match_Y_eq ds s g :
  re_match (D_Y :: ds) s g =
  first_match (fun '(v, r) => re_match ds r (mkgroups (g_d g) (g_m g) (Some v)))
    (alternatives_Y s).
Proof. reflexivity. Qed.

Lemma re_match_lit_eq c ds c' s g :
  re_match (D_lit c :: ds) (String c' s) g =
  if Ascii.eqb c c' then re_match ds s g else None.
Proof. reflexivity. Qed.

Lemma re_match_lit_digit sep ds c s g :
  is_digit sep = false -> is_digit c = true ->
  re_match (D_lit sep :: ds) (String c s) g = None.
Proof.
  intros Hs Hc. rewrite re_match_lit_eq.
  destruct (Ascii.eqb_spec sep c) as [->|]; [congruence | reflexivity].
Qed.


(** [%d] followed by a separator, on two digits: only the two-digit
    reading can go on. *)
Lemma re_match_d_sep c1 c2 sep ds r g :
  is_digit c1 = true -> is_digit c2 = true -> is_digit sep = false ->
  re_match (D_d :: D_lit sep :: ds) (String c1 (String c2 r)) g =
  if day_ok (two c1 c2)
  then re_match (D_lit sep :: ds) r (mkgroups (Some (two c1 c2)) (g_m g) (g_Y g))
  else None.
Proof.
  intros H1 H2 Hs. rewrite re_match_d_eq, alternatives_d_digits by assumption.
  fold (day_ok (two c1 c2)).
  destruct (day_ok (two c1 c2)), (negb (Ascii.eqb c1 "0")); cbn [app first_match];
    rewrite ?(re_match_lit_digit sep ds c2) by assumption;
    try destruct (re_match (D_lit sep :: ds) r _) as [[]|]; reflexivity.
Qed.

Lemma re_match_m_sep c1 c2 sep ds r g :
  is_digit c1 = true -> is_digit c2 = true -> is_digit sep = false ->
  re_match (D_m :: D_lit sep :: ds) (String c1 (String c2 r)) g =
  if month_ok (two c1 c2)
  then re_match (D_lit sep :: ds) r (mkgroups (g_d g) (Some (two c1 c2)) (g_Y g))
  else None.
Proof.
  intros H1 H2 Hs. rewrite re_match_m_eq, alternatives_m_digits by assumption.
  fold (month_ok (two c1 c2)).
  destruct (month_ok (two c1 c2)), (negb (Ascii.eqb c1 "0")); cbn [app first_match];
    rewrite ?(re_match_lit_digit sep ds c2) by assumption;
    try destruct (re_match (D_lit sep :: ds) r _) as [[]|]; reflexivity.
Qed.

Lemma re_match_Y_digits c1 c2 c3 c4 ds r g :
  is_digit c1 = true -> is_digit c2 = true -> is_digit c3 = true -> is_digit c4 = true ->
  re_match (D_Y :: ds) (String c1 (String c2 (String c3 (String c4 r)))) g =
  re_match ds r (mkgroups (g_d g) (g_m g) (Some (100 * two c1 c2 + two c3 c4)%Z)).
Proof.
  intros. rewrite re_match_Y_eq, alternatives_Y_digits by assumption.
  cbn [first_match]. destruct (re_match ds r _) as [[]|]; reflexivity.
Qed.

(** [%Y] where the third character is not a digit. *)
Lemma re_match_Y_short c1 c2 sep ds r g :
  is_digit sep = false ->
  re_match (D_Y :: ds) (String c1 (String c2 (String sep r))) g = None.
Proof.
  intros Hs. rewrite re_match_Y_eq. unfold alternatives_Y.
  destruct r as [|c4 r]; [reflexivity|].
  rewrite Hs, !andb_false_r. reflexivity.
Qed.

Section Digits.
Variables d1 d2 m1 m2 y1 y2 y3 y4 : ascii.
Hypothesis Hd1 : is_digit d1 = true.
Hypothesis Hd2 : is_digit d2 = true.
Hypothesis Hm1 : is_digit m1 = true.
Hypothesis Hm2 : is_digit m2 = true.
Hypothesis Hy1 : is_digit y1 = true.
Hypothesis Hy2 : is_digit y2 = true.
Hypothesis Hy3 : is_digit y3 = true.
Hypothesis Hy4 : is_digit y4 = true.
Variables sep sep' : ascii.
Hypothesis Hsep : is_digit sep = false.
Hypothesis Hsep' : is_digit sep' = false.

Local Notation "'dd'" := (two d1 d2).
Local Notation "'mm'" := (two m1 m2).
Local Notation "'yy'" := (100 * two y1 y2 + two y3 y4)%Z.

Lemma day_first_on_day_first :
  re_match (day_first sep') (text_day_first sep d1 d2 m1 m2 y1 y2 y3 y4) no_groups =
  if Ascii.eqb sep' sep && day_ok dd && month_ok mm
  then Some (mkgroups (Some dd) (Some mm) (Some yy), EmptyString)
  else None.
Proof.
  unfold day_first, text_day_first.
  rewrite re_match_d_sep by assumption.
  destruct (day_ok dd); [|rewrite andb_false_r; reflexivity].
  rewrite re_match_lit_eq.
  destruct (Ascii.eqb sep' sep) eqn:E; [|reflexivity].
  rewrite re_match_m_sep by assumption.
  destruct (month_ok mm); [|reflexivity].
  rewrite re_match_lit_eq, E.
  rewrite re_match_Y_digits by assumption. reflexivity.
Qed.

Lemma day_first_on_year_first :
  re_match (day_first sep') (text_year_first sep d1 d2 m1 m2 y1 y2 y3 y4) no_groups = None.
Proof.
  unfold day_first, text_year_first.
  rewrite re_match_d_sep by assumption.
  rewrite re_match_lit_digit by assumption.
  destruct (day_ok _); reflexivity.
Qed.

Lemma year_first_on_day_first :
  re_match (year_first sep') (text_day_first sep d1 d2 m1 m2 y1 y2 y3 y4) no_groups = None.
Proof.
  unfold year_first, text_day_first. apply re_match_Y_short. assumption.
Qed.

Lemma year_first_on_year_first :
  re_match (year_first sep') (text_year_first sep d1 d2 m1 m2 y1 y2 y3 y4) no_groups =
  if Ascii.eqb sep' sep && month_ok mm
  then if day_ok dd
       then Some (mkgroups (Some dd) (Some mm) (Some yy), EmptyString)
       else if negb (Ascii.eqb d1 "0")
            then Some (mkgroups (Some (one d1)) (Some mm) (Some yy), String d2 EmptyString)
            else None
  else None.
Proof.
  unfold year_first, text_year_first.
  rewrite re_match_Y_digits by assumption.
  rewrite re_match_lit_eq.
  destruct (Ascii.eqb sep' sep) eqn:E; [|reflexivity].
  rewrite re_match_m_sep by assumption.
  destruct (month_ok mm); [|reflexivity].
  rewrite re_match_lit_eq, E.
  rewrite re_match_d_eq, alternatives_d_digits by assumption.
  fold (day_ok dd).
  destruct (day_ok dd), (negb (Ascii.eqb d1 "0")); reflexivity.
Qed.


Lemma strptime_day_first_fmt fmt :
  compile_format fmt = Some (day_first sep') ->
  strptime (text_day_first sep d1 d2 m1 m2 y1 y2 y3 y4) fmt =
    (if Ascii.eqb sep' sep && day_ok dd && month_ok mm
     then datetime_ymd yy mm dd else Raise no_match) /\
  strptime (text_year_first sep d1 d2 m1 m2 y1 y2 y3 y4) fmt = Raise no_match.
Proof.
  intros Hc. unfold strptime. rewrite Hc.
  rewrite day_first_on_day_first, day_first_on_year_first.
  split; [|reflexivity].
  destruct (Ascii.eqb sep' sep && day_ok dd && month_ok mm); reflexivity.
Qed.

Lemma strptime_year_first_fmt fmt :
  compile_format fmt = Some (year_first sep') ->
  strptime (text_day_first sep d1 d2 m1 m2 y1 y2 y3 y4) fmt = Raise no_match /\
  strptime (text_year_first sep d1 d2 m1 m2 y1 y2 y3 y4) fmt =
    (if Ascii.eqb sep' sep && month_ok mm
     then if day_ok dd then datetime_ymd yy mm dd
          else if negb (Ascii.eqb d1 "0") then Raise unconverted else Raise no_match
     else Raise no_match).
Proof.
  intros Hc. unfold strptime. rewrite Hc.
  rewrite year_first_on_day_first, year_first_on_year_first.
  split; [reflexivity|].
  destruct (Ascii.eqb sep' sep && month_ok mm); [|reflexivity].
  destruct (day_ok dd); [reflexivity|].
  destruct (negb (Ascii.eqb d1 "0")); reflexivity.
Qed.

End Digits.

Lemma datetime_ymd_cases y m d :
  (valid_date y m d = true /\ datetime_ymd y m d = Ok (mkdatetime y m d 0 0 0 0)) \/
  (valid_date y m d = false /\ exists msg, datetime_ymd y m d = Raise (ValueError msg)).
Proof.
  unfold valid_date, datetime_ymd.
  destruct ((MINYEAR <=? y)%Z && (y <=? MAXYEAR)%Z); cbn [negb andb];
    [|right; eauto].
  destruct ((1 <=? m)%Z); cbn [andb]; [|right; eauto].
  destruct ((m <=? 12)%Z); cbn [negb andb]; [|right; eauto].
  destruct ((1 <=? d)%Z); cbn [andb]; [|right; eauto].
  destruct ((d <=? days_in_month y m)%Z); cbn [negb]; [left|right]; eauto.
Qed.

Lemma days_in_month_le_31 y m : (days_in_month y m <= 31)%Z.
Proof.
  unfold days_in_month.
  destruct (m =? 2)%Z; [destruct (is_leap y); lia|].
  destruct ((m =? 4)%Z || (m =? 6)%Z || (m =? 9)%Z || (m =? 11)%Z); lia.
Qed.

Lemma valid_date_ok y m d :
  valid_date y m d = true -> day_ok d = true /\ month_ok m = true.
Proof.
  unfold valid_date, day_ok, month_ok. intros H.
  pose proof (days_in_month_le_31 y m).
  repeat (apply andb_prop in H; destruct H as [H ?]).
  split; apply andb_true_intro; split; try assumption; apply Z.leb_le; apply Z.leb_le in H0; lia.
Qed.

Lemma digit_not_space c : is_digit c = true -> isspace c = false.
Proof. intros H. digit_cases H; reflexivity. Qed.

Lemma lstrip_spaces ws s : all_space ws = true -> lstrip (ws +:+ s) = lstrip s.
Proof.
  induction ws as [|c ws IH]; [reflexivity|].
  change (String c ws +:+ s) with (String c (ws +:+ s)).
  cbn [all_space lstrip]. intros H. apply andb_prop in H as [-> H]. auto.
Qed.

Lemma rstrip_spaces ws : all_space ws = true -> rstrip ws = EmptyString.
Proof.
  induction ws as [|c ws IH]; cbn [all_space rstrip]; [reflexivity|].
  intros H. apply andb_prop in H as [Hc H]. rewrite IH by assumption.
  rewrite Hc. reflexivity.
Qed.

Lemma rstrip_app_spaces s ws : all_space ws = true -> rstrip (s +:+ ws) = rstrip s.
Proof.
  intros H. induction s as [|c s IH]; [apply rstrip_spaces; assumption|].
  change (String c s +:+ ws) with (String c (s +:+ ws)). cbn [rstrip].
  rewrite IH. reflexivity.
Qed.

Lemma lstrip_nonspace c r : isspace c = false -> lstrip (String c r) = String c r.
Proof. intros H. cbn [lstrip]. rewrite H. reflexivity. Qed.

Lemma rstrip_last c : isspace c = false -> rstrip (String c EmptyString) = String c EmptyString.
Proof. intros H. cbn [rstrip]. rewrite H. reflexivity. Qed.

Lemma rstrip_cons c c' r :
  rstrip (String c' r) = String c' r -> rstrip (String c (String c' r)) = String c (String c' r).
Proof. intros H. change (rstrip (String c (String c' r)))
  with (match rstrip (String c' r) with
        | EmptyString => if isspace c then EmptyString else String c EmptyString
        | String a b => String c (String a b)
        end). rewrite H. reflexivity. Qed.

Lemma strip_text_day_first ws1 ws2 sep d1 d2 m1 m2 y1 y2 y3 y4 :
  all_space ws1 = true -> all_space ws2 = true ->
  is_digit d1 = true -> is_digit y4 = true ->
  strip (ws1 +:+ text_day_first sep d1 d2 m1 m2 y1 y2 y3 y4 +:+ ws2) =
  text_day_first sep d1 d2 m1 m2 y1 y2 y3 y4.
Proof.
  intros H1 H2 Hd Hy. unfold strip. rewrite lstrip_spaces by assumption.
  replace (lstrip (text_day_first sep d1 d2 m1 m2 y1 y2 y3 y4 +:+ ws2))
    with (text_day_first sep d1 d2 m1 m2 y1 y2 y3 y4 +:+ ws2)
    by (symmetry; apply lstrip_nonspace, digit_not_space; assumption).
  rewrite rstrip_app_spaces by assumption.
  unfold text_day_first. repeat apply rstrip_cons.
  apply rstrip_last, digit_not_space; assumption.
Qed.

Lemma strip_text_year_first ws1 ws2 sep d1 d2 m1 m2 y1 y2 y3 y4 :
  all_space ws1 = true -> all_space ws2 = true ->
  is_digit y1 = true -> is_digit d2 = true ->
  strip (ws1 +:+ text_year_first sep d1 d2 m1 m2 y1 y2 y3 y4 +:+ ws2) =
  text_year_first sep d1 d2 m1 m2 y1 y2 y3 y4.
Proof.
  intros H1 H2 Hd Hy. unfold strip. rewrite lstrip_spaces by assumption.
  replace (lstrip (text_year_first sep d1 d2 m1 m2 y1 y2 y3 y4 +:+ ws2))
    with (text_year_first sep d1 d2 m1 m2 y1 y2 y3 y4 +:+ ws2)
    by (symmetry; apply lstrip_nonspace, digit_not_space; assumption).
  rewrite rstrip_app_spaces by assumption.
  unfold text_year_first. repeat apply rstrip_cons.
  apply rstrip_last, digit_not_space; assumption.
Qed.

Lemma digits_are_digits v :
  is_digit (tens v) = true /\ is_digit (units v) = true /\
  is_digit (hundreds v) = true /\ is_digit (thousands v) = true.
Proof.
  unfold tens, units, hundreds, thousands.
  repeat split; apply digit_char_spec;
    match goal with |- (0 <= ?a mod 10 <= 9)%Z => pose proof (Z.mod_pos_bound a 10); lia end.
Qed.

Lemma mod10_digit a : (0 <= a mod 10 <= 9)%Z.
Proof. pose proof (Z.mod_pos_bound a 10). lia. Qed.

Lemma two_digits v : (0 <= v <= 99)%Z -> two (tens v) (units v) = v.
Proof.
  intros H. unfold tens, units.
  rewrite two_digit_chars by apply mod10_digit.
  rewrite (Z.mod_small (v / 10)) by (split; [apply Z.div_pos; lia | apply Z.div_lt_upper_bound; lia]).
  pose proof (Z.div_mod v 10). lia.
Qed.

Lemma four_digits v :
  (0 <= v <= 9999)%Z ->
  (100 * two (thousands v) (hundreds v) + two (tens v) (units v))%Z = v.
Proof.
  intros H. unfold thousands, hundreds, tens, units.
  rewrite !two_digit_chars by apply mod10_digit.
  pose proof (Z.div_mod v 10 ltac:(lia)).
  pose proof (Z.div_mod (v / 10) 10 ltac:(lia)).
  pose proof (Z.div_mod (v / 100) 10 ltac:(lia)).
  pose proof (Z.div_mod (v / 1000) 10 ltac:(lia)).
  pose proof (Z.mod_pos_bound v 10 ltac:(lia)).
  pose proof (Z.mod_pos_bound (v / 10) 10 ltac:(lia)).
  pose proof (Z.mod_pos_bound (v / 100) 10 ltac:(lia)).
  pose proof (Z.mod_pos_bound (v / 1000) 10 ltac:(lia)).
  assert (v / 100 = v / 10 / 10)%Z by (rewrite Z.div_div by lia; reflexivity).
  assert (v / 1000 = v / 100 / 10)%Z by (rewrite Z.div_div by lia; reflexivity).
  assert (v / 1000 < 10)%Z by (apply Z.div_lt_upper_bound; lia).
  assert (0 <= v / 1000)%Z by (apply Z.div_pos; lia).
  rewrite (Z.mod_small (v / 1000)) by lia.
  lia.
Qed.

Lemma strftime_text fmt y m d :
  fmt ∈ date_formats ->
  strftime (mkdatetime y m d 0 0 0 0) fmt = text_of fmt y m d.
Proof.
  unfold date_formats. intros H.
  repeat (apply elem_of_cons in H as [->|H]); try reflexivity.
  apply elem_of_nil in H. destruct H.
Qed.

Lemma is_ValueError_no_match : is_ValueError no_match = true.
Proof. reflexivity. Qed.

Section Rendered.
Variables d1 d2 m1 m2 y1 y2 y3 y4 : ascii.
Hypothesis Hd1 : is_digit d1 = true.
Hypothesis Hd2 : is_digit d2 = true.
Hypothesis Hm1 : is_digit m1 = true.
Hypothesis Hm2 : is_digit m2 = true.
Hypothesis Hy1 : is_digit y1 = true.
Hypothesis Hy2 : is_digit y2 = true.
Hypothesis Hy3 : is_digit y3 = true.
Hypothesis Hy4 : is_digit y4 = true.
Variable s : string.

Ltac five_formats sep Hsep :=
  let A := fresh "A" in let B := fresh "B" in
  destruct (strptime_day_first_fmt d1 d2 m1 m2 y1 y2 y3 y4 Hd1 Hd2 Hm1 Hm2 Hy1 Hy2 Hy3 Hy4
              sep "-"%char eq_refl "%d-%m-%Y" eq_refl) as [A B];
  rewrite ?A, ?B; clear A B;
  destruct (strptime_day_first_fmt d1 d2 m1 m2 y1 y2 y3 y4 Hd1 Hd2 Hm1 Hm2 Hy1 Hy2 Hy3 Hy4
              sep "/"%char eq_refl "%d/%m/%Y" eq_refl) as [A B];
  rewrite ?A, ?B; clear A B;
  destruct (strptime_day_first_fmt d1 d2 m1 m2 y1 y2 y3 y4 Hd1 Hd2 Hm1 Hm2 Hy1 Hy2 Hy3 Hy4
              sep "."%char eq_refl "%d.%m.%Y" eq_refl) as [A B];
  rewrite ?A, ?B; clear A B;
  destruct (strptime_year_first_fmt d1 d2 m1 m2 y1 y2 y3 y4 Hd1 Hd2 Hm1 Hm2 Hy1 Hy2 Hy3 Hy4
              sep "-"%char Hsep eq_refl "%Y-%m-%d" eq_refl) as [A B];
  rewrite ?A, ?B; clear A B;
  destruct (strptime_year_first_fmt d1 d2 m1 m2 y1 y2 y3 y4 Hd1 Hd2 Hm1 Hm2 Hy1 Hy2 Hy3 Hy4
              sep "/"%char Hsep eq_refl "%Y/%m/%d" eq_refl) as [A B];
  rewrite ?A, ?B; clear A B.

Ltac settle :=
  repeat match goal with
    | |- context [is_ValueError no_match] => rewrite is_ValueError_no_match
    | |- context [is_ValueError unconverted] => change (is_ValueError unconverted) with true
    | |- context [is_ValueError (ValueError ?m)] => change (is_ValueError (ValueError m)) with true
    | |- context [if ?b then _ else _] => destruct b eqn:?
    | _ => progress cbn [andb negb]
    end; try reflexivity; try discriminate.

Lemma parse_with_day_first sep :
  sep = "-"%char \/ sep = "/"%char \/ sep = "."%char ->
  strip s = text_day_first sep d1 d2 m1 m2 y1 y2 y3 y4 ->
  parse_with s date_formats =
    if valid_date (100 * two y1 y2 + two y3 y4) (two m1 m2) (two d1 d2)
    then Ok (mkdatetime (100 * two y1 y2 + two y3 y4) (two m1 m2) (two d1 d2) 0 0 0 0)
    else Raise (parse_error s).
Proof.
  intros Hsep Hs.
  assert (is_digit sep = false) as Hnd by (destruct Hsep as [->|[->| ->]]; reflexivity).
  unfold date_formats. cbn [parse_with]. rewrite Hs.
  five_formats sep Hnd.
  destruct (datetime_ymd_cases (100 * two y1 y2 + two y3 y4) (two m1 m2) (two d1 d2))
    as [[V E]|[V [msg E]]]; rewrite V, E.
  - destruct (valid_date_ok _ _ _ V) as [-> ->].
    destruct Hsep as [->|[->| ->]]; cbn; reflexivity.
  - destruct Hsep as [->|[->| ->]];
      change (Ascii.eqb "-" "-") with true; change (Ascii.eqb "/" "/") with true;
      change (Ascii.eqb "." ".") with true;
      change (Ascii.eqb "-" "/") with false; change (Ascii.eqb "-" ".") with false;
      change (Ascii.eqb "/" "-") with false; change (Ascii.eqb "/" ".") with false;
      change (Ascii.eqb "." "-") with false; change (Ascii.eqb "." "/") with false;
      settle.
Qed.

Lemma parse_with_year_first sep :
  sep = "-"%char \/ sep = "/"%char ->
  strip s = text_year_first sep d1 d2 m1 m2 y1 y2 y3 y4 ->
  parse_with s date_formats =
    if valid_date (100 * two y1 y2 + two y3 y4) (two m1 m2) (two d1 d2)
    then Ok (mkdatetime (100 * two y1 y2 + two y3 y4) (two m1 m2) (two d1 d2) 0 0 0 0)
    else Raise (parse_error s).
Proof.
  intros Hsep Hs.
  assert (is_digit sep = false) as Hnd by (destruct Hsep as [->| ->]; reflexivity).
  unfold date_formats. cbn [parse_with]. rewrite Hs.
  five_formats sep Hnd.
  destruct (datetime_ymd_cases (100 * two y1 y2 + two y3 y4) (two m1 m2) (two d1 d2))
    as [[V E]|[V [msg E]]]; rewrite V, E.
  - destruct (valid_date_ok _ _ _ V) as [-> ->].
    destruct Hsep as [->| ->]; cbn; reflexivity.
  - destruct Hsep as [->| ->];
      change (Ascii.eqb "-" "-") with true; change (Ascii.eqb "/" "/") with true;
      change (Ascii.eqb "-" "/") with false; change (Ascii.eqb "/" "-") with false;
      settle.
Qed.

End Rendered.

(** Parsing the rendering of three numbers in one of the five formats:
    the date when they form one, the parse error otherwise. *)
Lemma parse_with_rendering s fmt y m d :
  fmt ∈ date_formats ->
  (0 <= d <= 99)%Z -> (0 <= m <= 99)%Z -> (0 <= y <= 9999)%Z ->
  strip s = text_of fmt y m d ->
  parse_with s date_formats =
    if valid_date y m d then Ok (mkdatetime y m d 0 0 0 0) else Raise (parse_error s).
Proof.
  intros Hf Hd Hm Hy Hs.
  destruct (digits_are_digits d) as (Dt & Du & _ & _).
  destruct (digits_are_digits m) as (Mt & Mu & _ & _).
  destruct (digits_are_digits y) as (Yt & Yu & Yh & Yk).
  pose proof (two_digits d Hd) as Ed. pose proof (two_digits m Hm) as Em.
  pose proof (four_digits y Hy) as Ey.
  unfold date_formats in Hf.
  repeat (apply elem_of_cons in Hf as [->|Hf]); [..|apply elem_of_nil in Hf; destruct Hf].
  - change (text_of "%d-%m-%Y" y m d) with
      (text_day_first "-" (tens d) (units d) (tens m) (units m)
         (thousands y) (hundreds y) (tens y) (units y)) in Hs.
    rewrite (parse_with_day_first _ _ _ _ _ _ _ _ Dt Du Mt Mu Yk Yh Yt Yu s "-"%char) by tauto.
    rewrite Ed, Em, Ey. reflexivity.
  - change (text_of "%d/%m/%Y" y m d) with
      (text_day_first "/" (tens d) (units d) (tens m) (units m)
         (thousands y) (hundreds y) (tens y) (units y)) in Hs.
    rewrite (parse_with_day_first _ _ _ _ _ _ _ _ Dt Du Mt Mu Yk Yh Yt Yu s "/"%char) by tauto.
    rewrite Ed, Em, Ey. reflexivity.
  - change (text_of "%Y-%m-%d" y m d) with
      (text_year_first "-" (tens d) (units d) (tens m) (units m)
         (thousands y) (hundreds y) (tens y) (units y)) in Hs.
    rewrite (parse_with_year_first _ _ _ _ _ _ _ _ Dt Du Mt Mu Yk Yh Yt Yu s "-"%char) by tauto.
    rewrite Ed, Em, Ey. reflexivity.
  - change (text_of "%Y/%m/%d" y m d) with
      (text_year_first "/" (tens d) (units d) (tens m) (units m)
         (thousands y) (hundreds y) (tens y) (units y)) in Hs.
    rewrite (parse_with_year_first _ _ _ _ _ _ _ _ Dt Du Mt Mu Yk Yh Yt Yu s "/"%char) by tauto.
    rewrite Ed, Em, Ey. reflexivity.
  - change (text_of "%d.%m.%Y" y m d) with
      (text_day_first "." (tens d) (units d) (tens m) (units m)
         (thousands y) (hundreds y) (tens y) (units y)) in Hs.
    rewrite (parse_with_day_first _ _ _ _ _ _ _ _ Dt Du Mt Mu Yk Yh Yt Yu s "."%char) by tauto.
    rewrite Ed, Em, Ey. reflexivity.
Qed.

Lemma strip_text_of fmt y m d ws1 ws2 :
  fmt ∈ date_formats -> all_space ws1 = true -> all_space ws2 = true ->
  strip (ws1 +:+ text_of fmt y m d +:+ ws2) = text_of fmt y m d.
Proof.
  intros Hf H1 H2.
  destruct (digits_are_digits d) as (Dt & Du & _ & _).
  destruct (digits_are_digits y) as (_ & Yu & _ & Yk).
  unfold date_formats in Hf.
  repeat (apply elem_of_cons in Hf as [->|Hf]); [..|apply elem_of_nil in Hf; destruct Hf];
    first [ apply strip_text_day_first; assumption
          | apply strip_text_year_first; assumption ].
Qed.

Lemma strip_text_plain fmt y m d :
  fmt ∈ date_formats -> strip (text_of fmt y m d) = text_of fmt y m d.
Proof.
  intros Hf.
  pose proof (strip_text_of fmt y m d EmptyString EmptyString Hf eq_refl eq_refl) as H.
  unfold date_formats in Hf.
  repeat (apply elem_of_cons in Hf as [->|Hf]); [..|apply elem_of_nil in Hf; destruct Hf];
    exact H.
Qed.

Lemma valid_date_ranges y m d :
  valid_date y m d = true -> (0 <= d <= 99)%Z /\ (0 <= m <= 99)%Z /\ (0 <= y <= 9999)%Z.
Proof.
  intros H. destruct (valid_date_ok _ _ _ H) as [Hd Hm].
  unfold day_ok, month_ok in *. unfold valid_date, MINYEAR, MAXYEAR in H.
  repeat (apply andb_prop in H; destruct H as [H ?]).
  apply andb_prop in Hd as [? ?]. apply andb_prop in Hm as [? ?].
  repeat match goal with X : (_ <=? _)%Z = true |- _ => apply Z.leb_le in X end. lia.
Qed.

Lemma strptime_raises_ValueError data fmt e :
  strptime data fmt = Raise e -> is_ValueError e = true.
Proof.
  unfold strptime.
  destruct (compile_format fmt); [|intros [= <-]; reflexivity].
  destruct (re_match _ _ _) as [[g [|? ?]]|]; try (intros [= <-]; reflexivity).
  intros H.
  destruct (datetime_ymd_cases (default 1900%Z (g_Y g)) (default 1%Z (g_m g))
              (default 1%Z (g_d g))) as [[_ E]|[_ [msg E]]]; rewrite E in H;
    [discriminate | injection H as <-; reflexivity].
Qed.

Lemma parse_with_unmatched s fmts :
  (forall fmt t, fmt ∈ fmts -> strptime (strip s) fmt <> Ok t) ->
  parse_with s fmts = Raise (parse_error s).
Proof.
  induction fmts as [|fmt fmts IH]; intros H; cbn [parse_with]; [reflexivity|].
  destruct (strptime (strip s) fmt) as [t|e] eqn:E.
  - exfalso. apply (H fmt t); [left | exact E].
  - rewrite (strptime_raises_ValueError _ _ _ E).
    apply IH. intros f t Hf. apply H. right. exact Hf.
Qed.

(** C6.  [parse_date] raises the [ValueError] built by [parse_error]
    for every string that, once trimmed, none of the five formats
    parses; no date is returned in its place.  Strings that look like a
    date but name no calendar date are among them: for all numbers [d]
    and [m] below 100 and [y] below 10000 that do not form a date (day
    32, 30 February, year 0), the rendering in each of the five formats
    is rejected. *)
Theorem parse_date_unsupported_raises :
  (forall s : string,
     (forall fmt t, fmt ∈ date_formats -> strptime (strip s) fmt <> Ok t) ->
     parse_date (Some s) = Raise (parse_error s)) /\
  (forall fmt y m d,
     fmt ∈ date_formats ->
     (0 <= d <= 99)%Z -> (0 <= m <= 99)%Z -> (0 <= y <= 9999)%Z ->
     valid_date y m d = false ->
     parse_date (Some (strftime (mkdatetime y m d 0 0 0 0) fmt)) =
       Raise (parse_error (strftime (mkdatetime y m d 0 0 0 0) fmt))).
Proof.
  split.
  - intros s H. unfold parse_date. rewrite (parse_with_unmatched s date_formats H). reflexivity.
  - intros fmt y m d Hf Hd Hm Hy V. unfold parse_date.
    rewrite (parse_with_rendering _ fmt y m d Hf Hd Hm Hy).
    + rewrite V. reflexivity.
    + rewrite strftime_text by assumption. apply strip_text_plain. assumption.
Qed.

Lemma parse_date_day_32 :
  parse_date (Some "32-01-2026") = Raise (parse_error "32-01-2026").
Proof.
  apply (proj1 parse_date_unsupported_raises).
  intros fmt t Hf. unfold date_formats in Hf.
  repeat (apply elem_of_cons in Hf as [->|Hf]); [..|apply elem_of_nil in Hf; destruct Hf];
    vm_compute; discriminate.
Defined.

(** C7.  Format invariance: the rendering of a calendar date in any
    of the five formats, with any whitespace around it, parses to the
    same value, midnight of that date. *)
Theorem parse_date_format_invariant (y m d : Z) (fmt ws1 ws2 : string) :
  valid_date y m d = true ->
  fmt ∈ date_formats ->
  all_space ws1 = true -> all_space ws2 = true ->
  parse_date (Some (ws1 +:+ strftime (mkdatetime y m d 0 0 0 0) fmt +:+ ws2)) =
    Ok (Some (mkdatetime y m d 0 0 0 0)).
Proof.
  intros V Hf H1 H2.
  destruct (valid_date_ranges _ _ _ V) as (Hd & Hm & Hy).
  unfold parse_date. rewrite strftime_text by assumption.
  rewrite (parse_with_rendering _ fmt y m d Hf Hd Hm Hy)
    by (apply strip_text_of; assumption).
  rewrite V. reflexivity.
Qed.

Lemma parse_date_format_invariant_witness :
  parse_date (Some ("  " +:+ strftime (mkdatetime 2024 2 29 0 0 0 0) "%Y/%m/%d" +:+ " ")) =
    Ok (Some (mkdatetime 2024 2 29 0 0 0 0)).
Proof.
  apply (parse_date_format_invariant 2024 2 29 "%Y/%m/%d" "  " " ").
  - reflexivity.
  - unfold date_formats. do 3 right. left.
  - reflexivity.
  - reflexivity.
Defined.

End PureFacts.

Module CombineFacts.
Import PyStr Extractor Claims.

Lemma truthy_spec s : truthy s = true <-> s <> EmptyString.
Proof. destruct s; cbn; split; congruence. Qed.

Lemma lesson_test_spec lt :
  truthy lt && negb (mem lt [TextPatterns.EMPTY_LESSON_PLACEHOLDER; EmptyString]) = true
  <-> lesson_kept lt.
Proof.
  unfold lesson_kept, mem. cbn [existsb].
  rewrite andb_true_iff, negb_true_iff, !orb_false_iff, truthy_spec.
  rewrite !String.eqb_neq. tauto.
Qed.

Lemma homework_test_spec hw :
  truthy hw && negb (mem hw ["--"; TextPatterns.NO_HOMEWORK_PLACEHOLDER; EmptyString]) = true
  <-> homework_kept hw.
Proof.
  unfold homework_kept, mem. cbn [existsb].
  rewrite andb_true_iff, negb_true_iff, !orb_false_iff, truthy_spec.
  rewrite !String.eqb_neq. tauto.
Qed.

(** C2, as amended.  [_combine_content] keeps the lesson topic unless
    it is empty or the "empty lesson" marker, and the homework unless
    it is empty, two dashes or the "no homework" marker.  The result is
    empty when neither is kept, the kept side as it is when one is, and
    the two joined by " | " when both are.  The placeholder sets of the
    two sides differ. *)
Theorem combine_content_cases (lesson_topic homework : string) :
  (~ lesson_kept lesson_topic -> ~ homework_kept homework ->
     _combine_content lesson_topic homework = EmptyString) /\
  (lesson_kept lesson_topic -> ~ homework_kept homework ->
     _combine_content lesson_topic homework = lesson_topic) /\
  (~ lesson_kept lesson_topic -> homework_kept homework ->
     _combine_content lesson_topic homework = homework) /\
  (lesson_kept lesson_topic -> homework_kept homework ->
     _combine_content lesson_topic homework = lesson_topic +:+ " | " +:+ homework).
Proof.
  unfold _combine_content.
  pose proof (lesson_test_spec lesson_topic) as L.
  pose proof (homework_test_spec homework) as H.
  destruct (truthy lesson_topic && negb (mem lesson_topic _)),
           (truthy homework && negb (mem homework _));
    repeat split; intros; try reflexivity;
    try (exfalso; tauto);
    try (exfalso; match goal with
                  | X : false = true <-> _ |- _ => destruct X as [_ X]; discriminate X; assumption
                  end).
Qed.

Lemma combine_content_cases_witness :
  _combine_content "פרק 5" "עמוד 45" = "פרק 5 | עמוד 45".
Proof.
  apply (proj2 (proj2 (proj2 (combine_content_cases "פרק 5" "עמוד 45")))).
  - split; discriminate.
  - repeat split; discriminate.
Defined.

Lemma combine_content_sides_differ :
  placeholder TextPatterns.NO_HOMEWORK_PLACEHOLDER /\ placeholder EmptyString /\
  _combine_content TextPatterns.NO_HOMEWORK_PLACEHOLDER EmptyString <> EmptyString.
Proof.
  split; [right; left; reflexivity|].
  split; [left; reflexivity|].
  vm_compute. discriminate.
Qed.

End CombineFacts.

(** ** Facts about awaited computations *)
Module AwaitedFacts.
Import Claims Awaited.

Lemma clicks_app a b : clicks (a ++ b) = clicks a + clicks b.
Proof. induction a as [|e a IH]; cbn [app clicks]; [reflexivity|]. rewrite IH. lia. Qed.

Lemma visit_count_app a b : visit_count (a ++ b) = visit_count a + visit_count b.
Proof.
  induction a as [|e a IH]; [reflexivity|].
  destruct e; cbn [app visit_count]; rewrite IH; reflexivity.
Qed.

Lemma visit_count_calls new :
  Forall (fun e => is_call e = true) new -> visit_count new = 0.
Proof.
  induction 1 as [|e new He _ IH]; [reflexivity|].
  destruct e; cbn in He; try discriminate. exact IH.
Qed.

Lemma fresh_from_calls seen new rest :
  Forall (fun e => is_call e = true) new ->
  fresh_from seen (new ++ rest) <-> fresh_from seen rest.
Proof.
  induction 1 as [|e new He _ IH]; [reflexivity|].
  destruct e; cbn in He; try discriminate. exact IH.
Qed.

Lemma fresh_from_only_calls seen new :
  Forall (fun e => is_call e = true) new -> fresh_from seen new.
Proof.
  intros H. rewrite <- (app_nil_r new). apply fresh_from_calls; [assumption | exact I].
Qed.

Section Toolkit.
Context {W : Type} (drv : PageDriver W).

Lemma added_refl (s : state W) : added s s [].
Proof. reflexivity. Qed.

Lemma added_trans (s1 s2 s3 : state W) n1 n2 :
  added s1 s2 n1 -> added s2 s3 n2 -> added s1 s3 (n2 ++ n1).
Proof. unfold added. intros H1 H2. rewrite H2, H1, app_assoc. reflexivity. Qed.

Lemma emits_bind {A B : Type} (P Q R : list event -> Prop) (m : M W A) (f : A -> M W B) :
  emits P m -> (forall x, emits Q (f x)) ->
  (forall n1, P n1 -> R n1) ->
  (forall n1 n2, P n1 -> Q n2 -> R (n2 ++ n1)) ->
  emits R (bind m f).
Proof.
  intros Hm Hf Hraise Hboth s. unfold bind.
  destruct (Hm s) as (n1 & A1 & P1).
  destruct (m s) as [[a|e] s1]; cbn [snd] in *.
  - destruct (Hf a s1) as (n2 & A2 & Q2).
    exists (n2 ++ n1). split; [eapply added_trans; eassumption | auto].
  - exists n1. auto.
Qed.

Lemma emits_try {A : Type} (P Q R : list event -> Prop) (m : M W A) (h : exn -> M W A) :
  emits P m -> (forall e, emits Q (h e)) ->
  (forall n1, P n1 -> R n1) ->
  (forall n1 n2, P n1 -> Q n2 -> R (n2 ++ n1)) ->
  emits R (try_except m h).
Proof.
  intros Hm Hh Hok Hboth s. unfold try_except.
  destruct (Hm s) as (n1 & A1 & P1).
  destruct (m s) as [[a|e] s1]; cbn [snd] in *.
  - exists n1. auto.
  - destruct (Hh e s1) as (n2 & A2 & Q2).
    exists (n2 ++ n1). split; [eapply added_trans; eassumption | auto].
Qed.

Lemma emits_weaken {A : Type} (P Q : list event -> Prop) (m : M W A) :
  emits P m -> (forall n, P n -> Q n) -> emits Q m.
Proof. intros H PQ s. destruct (H s) as (n & ? & ?). exists n. auto. Qed.

Lemma emits_nothing {A : Type} (P : list event -> Prop) (m : M W A) :
  P [] -> (forall s, trace (snd (m s)) = trace s) -> emits P m.
Proof. intros HP H s. exists []. split; [exact (H s) | exact HP]. Qed.

Lemma calls_nil k : calls_with_clicks k [].
Proof. split; [constructor | cbn; lia]. Qed.

Lemma calls_app a b n2 n1 :
  calls_with_clicks a n1 -> calls_with_clicks b n2 -> calls_with_clicks (a + b) (n2 ++ n1).
Proof.
  intros [F1 C1] [F2 C2]. split; [apply Forall_app; auto | rewrite clicks_app; lia].
Qed.

Lemma calls_mono a b n : a <= b -> calls_with_clicks a n -> calls_with_clicks b n.
Proof. intros ? [? ?]. split; [assumption | lia]. Qed.

Lemma quiet_mono {A : Type} a b (m : M W A) : a <= b -> quiet a m -> quiet b m.
Proof. intros L H. eapply emits_weaken; [exact H | intros n; apply calls_mono; exact L]. Qed.

Lemma quiet_ret {A : Type} k (a : A) : quiet (W:=W) k (ret a).
Proof. apply emits_nothing; [apply calls_nil | reflexivity]. Qed.

Lemma quiet_raise {A : Type} k e : quiet (W:=W) (A:=A) k (raise e).
Proof. apply emits_nothing; [apply calls_nil | reflexivity]. Qed.

Lemma quiet_lift_result {A : Type} k (r : result A) : quiet (W:=W) k (lift_result r).
Proof. apply emits_nothing; [apply calls_nil | reflexivity]. Qed.

Lemma quiet_sleep k d : quiet k (asyncio_sleep drv d).
Proof. apply emits_nothing; [apply calls_nil | reflexivity]. Qed.

Lemma quiet_get_url k : quiet k (get_url drv).
Proof. apply emits_nothing; [apply calls_nil | reflexivity]. Qed.

Lemma quiet_get_loop_time k : quiet k (get_loop_time drv).
Proof. apply emits_nothing; [apply calls_nil | reflexivity]. Qed.

Lemma quiet_datetime_now k : quiet k (datetime_now drv).
Proof. apply emits_nothing; [apply calls_nil | reflexivity]. Qed.

Lemma quiet_perform {A : Type} k (c : call A) :
  is_click_call c = false -> quiet k (perform drv c).
Proof.
  intros H s. unfold perform. destruct (answer drv c (world s)) as [r w].
  exists [Called c]. split; [reflexivity|]. split.
  - constructor; [reflexivity | constructor].
  - cbn. rewrite H. lia.
Qed.

Lemma quiet_click {A : Type} k (c : call A) : quiet (S k) (perform drv c).
Proof.
  intros s. unfold perform. destruct (answer drv c (world s)) as [r w].
  exists [Called c]. split; [reflexivity|]. split.
  - constructor; [reflexivity | constructor].
  - cbn. destruct (is_click_call c); lia.
Qed.

Lemma quiet_bind_split {A B : Type} a b k (m : M W A) (f : A -> M W B) :
  quiet a m -> (forall x, quiet b (f x)) -> a + b <= k -> quiet k (bind m f).
Proof.
  intros Hm Hf L.
  apply (emits_bind (calls_with_clicks a) (calls_with_clicks b)); auto.
  - intros n. apply calls_mono. lia.
  - intros n1 n2 H1 H2. eapply calls_mono; [exact L | apply calls_app; assumption].
Qed.

Lemma quiet_try_split {A : Type} a b k (m : M W A) (h : exn -> M W A) :
  quiet a m -> (forall e, quiet b (h e)) -> a + b <= k -> quiet k (try_except m h).
Proof.
  intros Hm Hh L.
  apply (emits_try (calls_with_clicks a) (calls_with_clicks b)); auto.
  - intros n. apply calls_mono. lia.
  - intros n1 n2 H1 H2. eapply calls_mono; [exact L | apply calls_app; assumption].
Qed.

Lemma quiet_bind0 {A B : Type} k (m : M W A) (f : A -> M W B) :
  quiet 0 m -> (forall x, quiet k (f x)) -> quiet k (bind m f).
Proof. intros. apply (quiet_bind_split 0 k); auto. Qed.

Lemma quiet_try0 {A : Type} k (m : M W A) (h : exn -> M W A) :
  quiet 0 m -> (forall e, quiet k (h e)) -> quiet k (try_except m h).
Proof. intros. apply (quiet_try_split 0 k); auto. Qed.

Lemma quiet_try_pass0 k (m : M W unit) : quiet 0 m -> quiet k (try_pass m).
Proof. intros. apply quiet_try0; [assumption | intros; apply quiet_ret]. Qed.

End Toolkit.

Create HintDb quiet.

(** Click-free code: driver calls other than clicks, sleeps, reads of
    the page address, and what is built from them. *)
Ltac quiet0 :=
  repeat first
    [ apply quiet_ret
    | apply quiet_raise
    | apply quiet_lift_result
    | apply quiet_sleep
    | apply quiet_get_url
    | apply quiet_get_loop_time
    | apply quiet_datetime_now
    | apply quiet_perform; reflexivity
    | apply quiet_try_pass0
    | apply quiet_bind0; [|intros ?]
    | apply quiet_try0; [|intros ?]
    | match goal with
      | |- quiet _ (match ?x with _ => _ end) => destruct x
      | |- quiet _ (let '_ := ?x in _) => destruct x
      end
    | assumption
    | solve [auto with quiet] ].

End AwaitedFacts.

Module PaginationFacts.
Import Claims Awaited AwaitedFacts Pagination.
Section WithDriver.
Context {W : Type} (drv : PageDriver W).

Lemma quiet_find_in_headings k t hs : quiet k (find_in_headings drv t hs).
Proof. induction hs as [|h hs IH]; cbn [find_in_headings]; quiet0. Qed.

#[local] Hint Resolve quiet_find_in_headings : quiet.

Lemma quiet_find_date_on_page k t : quiet k (find_date_on_page drv t).
Proof. unfold find_date_on_page. quiet0. Qed.

Lemma quiet_dates_of_headings k hs dates : quiet k (dates_of_headings drv hs dates).
Proof.
  revert dates. induction hs as [|h hs IH]; intros dates; cbn [dates_of_headings]; quiet0.
Qed.
#[local] Hint Resolve quiet_dates_of_headings : quiet.

Lemma quiet_get_dates_on_page k : quiet k (get_dates_on_page drv).
Proof. unfold get_dates_on_page. quiet0. Qed.

Lemma quiet_usable_button k sel : quiet k (usable_button drv sel).
Proof. unfold usable_button. quiet0. Qed.
#[local] Hint Resolve quiet_usable_button : quiet.

Lemma quiet_first_usable_button k sels : quiet k (first_usable_button drv sels).
Proof. induction sels as [|sel sels IH]; cbn [first_usable_button]; quiet0. Qed.
#[local] Hint Resolve quiet_first_usable_button : quiet.

Lemma quiet_find_navigation_button k d : quiet k (_find_navigation_button drv d).
Proof. unfold _find_navigation_button. quiet0. Qed.

#[local] Hint Resolve quiet_find_date_on_page quiet_get_dates_on_page quiet_find_navigation_button : quiet.

(** A navigation step clicks at most twice: the click and, when it
    fails, the forced click. *)
Lemma quiet_click_navigation_button nav_button d pages_checked target :
  quiet 2 (_click_navigation_button drv nav_button d pages_checked target).
Proof.
  unfold _click_navigation_button.
  apply (quiet_try_split 2 0); [|intros; quiet0|lia].
  apply quiet_bind0; [quiet0|intros _].
  apply quiet_bind0; [quiet0|intros _].
  apply quiet_bind0; [quiet0|intros _].
  apply (quiet_bind_split 2 0); [|intros; quiet0|lia].
  apply (quiet_try_split 1 1); [apply quiet_click | intros; apply quiet_click | lia].
Qed.

(** *** The budget of the search loop *)

Lemma budget_ret {A : Type} c n v (a : A) : emits (W:=W) (within_budget c n v) (ret a).
Proof.
  apply emits_nothing; [|reflexivity].
  repeat split; cbn; lia.
Qed.

Lemma budget_of_calls k c n v new :
  k <= c -> calls_with_clicks k new -> within_budget c n v new.
Proof.
  intros L [F C]. repeat split.
  - lia.
  - rewrite visit_count_calls by assumption. lia.
  - apply fresh_from_only_calls, Forall_rev. assumption.
Qed.

Lemma budget_after_quiet {A B : Type} k c c' n v (m : M W A) (f : A -> M W B) :
  quiet k m -> (forall x, emits (within_budget c n v) (f x)) -> k + c <= c' ->
  emits (within_budget c' n v) (bind m f).
Proof.
  intros Hm Hf L.
  apply (emits_bind (calls_with_clicks k) (within_budget c n v)); auto.
  - intros n1 H1. apply (budget_of_calls k); [lia | assumption].
  - intros n1 n2 [F1 C1] (C2 & V2 & R2). repeat split.
    + rewrite clicks_app. lia.
    + rewrite visit_count_app, (visit_count_calls n1) by assumption. lia.
    + rewrite rev_app_distr. apply fresh_from_calls; [apply Forall_rev|]; assumption.
Qed.

Lemma budget_after_quiet0 {A B : Type} c n v (m : M W A) (f : A -> M W B) :
  quiet 0 m -> (forall x, emits (within_budget c n v) (f x)) ->
  emits (within_budget c n v) (bind m f).
Proof. intros Hm Hf. apply (budget_after_quiet 0 c); auto. Qed.

Lemma budget_mark_visit {A : Type} c n v url d (m : M W A) :
  url ∉ v -> emits (within_budget c n ({[url]} ∪ v)) m ->
  emits (within_budget c (S n) v) (bind (mark (Visit url d)) (fun _ => m)).
Proof.
  intros Hu Hm s. unfold bind, mark.
  destruct (Hm (mkstate (world s) (Visit url d :: trace s))) as (n2 & A2 & C2 & V2 & R2).
  exists (n2 ++ [Visit url d]). split.
  - unfold added in *. rewrite A2. cbn [trace]. rewrite <- app_assoc. reflexivity.
  - repeat split.
    + rewrite clicks_app. cbn. lia.
    + rewrite visit_count_app. cbn. lia.
    + rewrite rev_app_distr. cbn [rev app fresh_from]. split; assumption.
Qed.

Lemma budget_mark_clear {A : Type} c n v (m : M W A) :
  emits (within_budget c n ∅) m ->
  emits (within_budget c n v) (bind (mark VisitedCleared) (fun _ => m)).
Proof.
  intros Hm s. unfold bind, mark.
  destruct (Hm (mkstate (world s) (VisitedCleared :: trace s))) as (n2 & A2 & C2 & V2 & R2).
  exists (n2 ++ [VisitedCleared]). split.
  - unfold added in *. rewrite A2. cbn [trace]. rewrite <- app_assoc. reflexivity.
  - repeat split.
    + rewrite clicks_app. cbn. lia.
    + rewrite visit_count_app. cbn. lia.
    + rewrite rev_app_distr. cbn [rev app fresh_from]. assumption.
Qed.

Lemma budget_mono {A : Type} c c' n n' v (m : M W A) :
  c <= c' -> n <= n' -> emits (within_budget c n v) m -> emits (within_budget c' n' v) m.
Proof.
  intros Lc Ln H. eapply emits_weaken; [exact H|].
  intros new (C & V & R). repeat split; [lia | lia | assumption].
Qed.

Lemma navigate_loop_budget remaining :
  forall pages_checked d visited target,
    emits (within_budget (2 * remaining) remaining visited)
      (navigate_loop drv remaining pages_checked d visited target).
Proof.
  induction remaining as [|remaining IH]; intros pages_checked d visited target;
    cbn [navigate_loop]; [apply budget_ret|].
  assert (forall pc d' v, emits (within_budget (2 * S remaining) (S remaining) v)
            (navigate_loop drv remaining pc d' v target)) as Again
    by (intros; eapply budget_mono; [| |apply IH]; lia).
  assert (forall pc d' v, emits (within_budget (2 * remaining) (S remaining) v)
            (navigate_loop drv remaining pc d' v target)) as AfterClick
    by (intros; eapply budget_mono; [| |apply IH]; lia).
  apply budget_after_quiet0; [apply quiet_get_url|].
  intros current_url. destruct (bool_decide (current_url ∈ visited)) eqn:Seen.
  - destruct d; [apply budget_mark_clear, Again | apply budget_ret].
  - apply bool_decide_eq_false in Seen.
    eapply budget_mono; [reflexivity | reflexivity |].
    apply budget_mark_visit; [exact Seen|].
    apply budget_after_quiet0; [apply quiet_find_navigation_button|].
    intros nav_button.
    apply budget_after_quiet0; [quiet0|]. intros _.
    apply budget_after_quiet0; [quiet0|]. intros _.
    apply budget_after_quiet0; [apply quiet_find_date_on_page|].
    intros found. destruct found; [apply budget_ret|].
    destruct nav_button as [nav_button|].
    + eapply (budget_after_quiet 2 (2 * remaining));
        [apply quiet_click_navigation_button| |lia].
      intros [found' new_direction]. cbn [fst snd].
      destruct found'; [apply budget_ret|].
      destruct (negb (direction_eqb new_direction d)).
      * apply budget_mark_clear. eapply budget_mono; [| |apply IH]; lia.
      * eapply budget_mono; [| |apply IH]; lia.
    + destruct d; [apply budget_mark_clear|apply budget_ret].
      eapply budget_mono; [| |apply IH]; lia.
Qed.

(** C4, as amended.  For every driver and every state, one call of
    [navigate_to_date_page] records at most [MAX_PAGINATION_PAGES]
    pages, makes at most [2 * MAX_PAGINATION_PAGES] click attempts (a
    navigation step clicks once, and once more with force when that
    fails), and records no page address while the address is in the
    visited set.  The set is emptied at every change of direction, so
    an address can be recorded again in the same direction later.  The
    call always ends: the function is total. *)
Theorem navigate_to_date_page_bounded (target : datetime) (s : state W) :
  exists new,
    added s (snd (navigate_to_date_page drv target s)) new /\
    clicks new <= 2 * Config.MAX_PAGINATION_PAGES /\
    visit_count new <= Config.MAX_PAGINATION_PAGES /\
    fresh_from ∅ (rev new).
Proof.
  revert s. change (emits (within_budget (2 * Config.MAX_PAGINATION_PAGES)
                             Config.MAX_PAGINATION_PAGES ∅)
                      (navigate_to_date_page drv target)).
  unfold navigate_to_date_page.
  apply budget_after_quiet0; [apply quiet_find_date_on_page|].
  intros found. destruct found; [apply budget_ret|].
  apply budget_after_quiet0; [apply quiet_get_dates_on_page|].
  intros current_dates.
  destruct (initial_direction target current_dates); [|apply budget_ret].
  apply navigate_loop_budget.
Qed.

End WithDriver.

#[export] Hint Resolve quiet_find_date_on_page quiet_get_dates_on_page
  quiet_find_navigation_button : quiet.

End PaginationFacts.

Module PaginationExamples.
Import Claims Pagination Fixture.

(** C4, as stated: on the stuck page the same address is recorded in
    the forward direction in the first and in the third round. *)
Lemma navigate_revisits_in_same_direction :
  ~ NoDup (visits (rev (trace (snd
        (navigate_to_date_page (static_driver stuck_page) (jan 21) start))))).
Proof.
  intros H.
  assert (0 = 2) as E; [|discriminate E].
  apply (NoDup_lookup _ 0 2 (Config.HOMEWORK_URL, Forward) H); vm_compute; reflexivity.
Qed.

End PaginationExamples.

Module OrderFacts.
Import Datetime Awaited.

Lemma lex_compare_antisym a : forall b, lex_compare b a = CompOpp (lex_compare a b).
Proof.
  induction a as [|x a IH]; intros [|y b]; cbn [lex_compare]; try reflexivity.
  rewrite (Z.compare_antisym x y). destruct (Z.compare x y); cbn [CompOpp]; auto.
Qed.

Lemma lex_compare_eq a : forall b, lex_compare a b = Eq -> a = b.
Proof.
  induction a as [|x a IH]; intros [|y b]; cbn [lex_compare]; try discriminate; [reflexivity|].
  destruct (Z.compare_spec x y); try discriminate. intros Hr. f_equal; auto.
Qed.

Lemma lex_compare_lt_trans a : forall b c,
  lex_compare a b = Lt -> lex_compare b c = Lt -> lex_compare a c = Lt.
Proof.
  induction a as [|x a IH]; intros [|y b] [|z c]; cbn [lex_compare]; try discriminate; auto.
  destruct (Z.compare_spec x y), (Z.compare_spec y z); try discriminate; intros H1 H2; subst.
  - rewrite Z.compare_refl. eauto.
  - rewrite (proj2 (Z.compare_lt_iff _ _)) by assumption. reflexivity.
  - rewrite (proj2 (Z.compare_lt_iff _ _)) by assumption. reflexivity.
  - rewrite (proj2 (Z.compare_lt_iff _ _)) by lia. reflexivity.
Qed.

Lemma ltb_lt a b : ltb a b = true <-> compare a b = Lt.
Proof. unfold ltb. destruct (compare a b); split; congruence. Qed.

Lemma ltb_trans a b c : ltb a b = true -> ltb b c = true -> ltb a c = true.
Proof. rewrite !ltb_lt. apply lex_compare_lt_trans. Qed.

Lemma ltb_asym a b : ltb a b = true -> ltb b a = false.
Proof.
  unfold ltb, compare. rewrite (lex_compare_antisym (fields a) (fields b)).
  destruct (lex_compare (fields a) (fields b)); cbn; congruence.
Qed.

Lemma dt_le_refl a : dt_le a a.
Proof.
  unfold dt_le. destruct (ltb a a) eqn:E; [|reflexivity].
  rewrite (ltb_asym _ _ E) in E. discriminate.
Qed.

Lemma dt_le_cases a b : dt_le a b -> ltb a b = true \/ fields a = fields b.
Proof.
  unfold dt_le, ltb, compare. rewrite (lex_compare_antisym (fields a) (fields b)).
  destruct (lex_compare (fields a) (fields b)) eqn:E; cbn; try discriminate; intros _.
  - right. apply lex_compare_eq. exact E.
  - left. reflexivity.
Qed.

Lemma le_lt_trans a b c : dt_le a b -> ltb b c = true -> ltb a c = true.
Proof.
  intros H. destruct (dt_le_cases _ _ H) as [L|E].
  - apply ltb_trans. exact L.
  - unfold ltb, compare. rewrite E. auto.
Qed.

Lemma lt_le_trans a b c : ltb a b = true -> dt_le b c -> ltb a c = true.
Proof.
  intros L H. destruct (dt_le_cases _ _ H) as [L'|E].
  - eapply ltb_trans; eassumption.
  - revert L. unfold ltb, compare. rewrite E. auto.
Qed.

Lemma dt_le_trans a b c : dt_le a b -> dt_le b c -> dt_le a c.
Proof.
  intros H1 H2. unfold dt_le. destruct (ltb c a) eqn:E; [|reflexivity].
  pose proof (lt_le_trans _ _ _ E H1) as L.
  unfold dt_le in H2. congruence.
Qed.

Lemma insert_sorted_elem x l y : y ∈ insert_sorted x l -> y = x \/ y ∈ l.
Proof.
  induction l as [|z l IH]; cbn [insert_sorted].
  - intros H. apply list_elem_of_singleton in H. auto.
  - destruct (ltb x z).
    + intros H. apply elem_of_cons in H. exact H.
    + intros H. apply elem_of_cons in H as [->|H].
      * right. left.
      * destruct (IH H) as [->|H']; [auto | right; right; exact H'].
Qed.

Lemma insert_sorted_sorted x l :
  StronglySorted dt_le l -> StronglySorted dt_le (insert_sorted x l).
Proof.
  induction 1 as [|z l S IH F]; cbn [insert_sorted].
  - repeat constructor.
  - destruct (ltb x z) eqn:E.
    + constructor; [constructor; assumption|].
      assert (dt_le x z) as Lxz by (apply ltb_asym; exact E).
      constructor; [exact Lxz|].
      eapply Forall_impl; [exact F|]. intros w Hw. eapply dt_le_trans; eassumption.
    + constructor; [exact IH|].
      apply Forall_forall. intros w Hw.
      destruct (insert_sorted_elem _ _ _ Hw) as [->|Hw'].
      * exact E.
      * rewrite Forall_forall in F. auto.
Qed.

Lemma sorted_sorted l : StronglySorted dt_le (sorted l).
Proof.
  induction l as [|x l IH]; cbn [sorted]; [constructor | apply insert_sorted_sorted, IH].
Qed.

Lemma sorted_first_le first rest x :
  StronglySorted dt_le (first :: rest) -> x ∈ first :: rest -> dt_le first x.
Proof.
  intros S H. apply StronglySorted_inv in S as [_ F].
  apply elem_of_cons in H as [->|H]; [apply dt_le_refl|].
  rewrite Forall_forall in F. auto.
Qed.

Lemma sorted_le_last l : forall d x,
  StronglySorted dt_le l -> x ∈ l -> dt_le x (List.last l d).
Proof.
  induction l as [|y l IH]; intros d x S H; [apply elem_of_nil in H; destruct H|].
  apply StronglySorted_inv in S as [S F].
  destruct l as [|z l]; cbn [List.last].
  - apply list_elem_of_singleton in H as ->. apply dt_le_refl.
  - apply elem_of_cons in H as [->|H].
    + rewrite Forall_forall in F.
      eapply dt_le_trans; [apply F; left|]. apply (IH d z S). left.
    + apply (IH d x S H).
Qed.

End OrderFacts.

Module RangeFacts.
Import Datetime Strptime Claims Awaited AwaitedFacts Pagination PaginationFacts OrderFacts.
Section WithDriver.
Context {W : Type} (drv : PageDriver W).

Lemma get_dates_on_page_sorted s ds s' :
  get_dates_on_page drv s = (Ok ds, s') -> StronglySorted dt_le ds.
Proof.
  unfold get_dates_on_page, bind.
  destruct (try_except _ _ s) as [[dates|e] s1]; [|discriminate].
  cbn [ret]. intros [= <- _]. apply sorted_sorted.
Qed.

Lemma initial_direction_within target ds earliest latest :
  StronglySorted dt_le ds ->
  earliest ∈ ds -> latest ∈ ds ->
  dt_le earliest target -> dt_le target latest ->
  initial_direction target ds = None.
Proof.
  intros S He Hl Le Ll. destruct ds as [|first rest]; [apply elem_of_nil in He; destruct He|].
  cbn [initial_direction].
  assert (ltb target first = false) as ->.
  { destruct (ltb target first) eqn:E; [|reflexivity].
    pose proof (sorted_first_le _ _ _ S He) as Lf.
    pose proof (lt_le_trans _ _ _ E Lf) as L. unfold dt_le in Le. congruence. }
  assert (gtb target (List.last (first :: rest) first) = false) as ->; [|reflexivity].
  unfold gtb. destruct (ltb (List.last (first :: rest) first) target) eqn:E; [|reflexivity].
  pose proof (sorted_le_last _ first _ S Hl) as Lf.
  pose proof (le_lt_trans _ _ _ Lf E) as L. unfold dt_le in Ll. congruence.
Qed.

(** C5.  When the target date is not found on the current page and
    the dates read from the page include one that is not after the
    target and one that is not before it, [navigate_to_date_page]
    returns [False] in the very state in which the dates were read:
    no navigation control is looked up or clicked, and no click was
    made before either. *)
Theorem navigate_within_range_fails (target : datetime) (s s1 s2 : state W)
    (current_dates : list datetime) (earliest latest : datetime) :
  find_date_on_page drv (strftime target Selectors.DATE_FORMAT_DISPLAY) s = (Ok false, s1) ->
  get_dates_on_page drv s1 = (Ok current_dates, s2) ->
  earliest ∈ current_dates -> latest ∈ current_dates ->
  dt_le earliest target -> dt_le target latest ->
  navigate_to_date_page drv target s = (Ok false, s2) /\
  exists new, added s s2 new /\ clicks new = 0.
Proof.
  intros Hfind Hdates He Hl Le Ll. split.
  - unfold navigate_to_date_page, bind. rewrite Hfind, Hdates.
    rewrite (initial_direction_within target current_dates earliest latest);
      [reflexivity | eapply get_dates_on_page_sorted; eassumption | assumption..].
  - destruct (quiet_find_date_on_page drv 0
                (strftime target Selectors.DATE_FORMAT_DISPLAY) s) as (n1 & A1 & _ & C1).
    destruct (quiet_get_dates_on_page drv 0 s1) as (n2 & A2 & _ & C2).
    rewrite Hfind in A1. rewrite Hdates in A2. cbn [snd] in A1, A2.
    exists (n2 ++ n1). split; [eapply added_trans; eassumption|].
    rewrite clicks_app. lia.
Qed.

End WithDriver.
End RangeFacts.

Module RangeExamples.
Import Datetime Strptime Claims Awaited Pagination Fixture RangeFacts.

(** The week page shows 20/01/2026 and 22/01/2026; the search for
    21/01/2026 fails there without a click. *)
Lemma navigate_within_range_fails_witness :
  fst (navigate_to_date_page (static_driver (week_page false)) (jan 21) start) = Ok false.
Proof.
  pose (drv := static_driver (week_page false)).
  pose (r1 := find_date_on_page drv (strftime (jan 21) Selectors.DATE_FORMAT_DISPLAY) start).
  pose (r2 := get_dates_on_page drv (snd r1)).
  destruct (navigate_within_range_fails drv (jan 21) start (snd r1) (snd r2)
              [jan 20; jan 22] (jan 20) (jan 22)) as [E _].
  - vm_compute. reflexivity.
  - vm_compute. reflexivity.
  - left.
  - right. left.
  - reflexivity.
  - reflexivity.
  - fold drv. rewrite E. reflexivity.
Defined.

End RangeExamples.

Module PostFacts.
Import Awaited.
Section Toolkit.
Context {W : Type}.

Lemma bind_Ok_inv {A B : Type} (m : M W A) (f : A -> M W B) s b s' :
  bind m f s = (Ok b, s') -> exists a s1, m s = (Ok a, s1) /\ f a s1 = (Ok b, s').
Proof.
  unfold bind. destruct (m s) as [[a|e] s1]; [eauto | discriminate].
Qed.

Lemma post_ret {A : Type} (Q : A -> Prop) (a : A) : Q a -> post (W:=W) Q (ret a).
Proof. intros H s a' s' [= <- _]. exact H. Qed.

Lemma post_bind {A B : Type} (Q : B -> Prop) (m : M W A) (f : A -> M W B) :
  (forall x, post Q (f x)) -> post Q (bind m f).
Proof.
  intros Hf s b s' H. apply bind_Ok_inv in H as (a & s1 & _ & H). eapply Hf, H.
Qed.

Lemma post_bind_strong {A B : Type} (R : A -> Prop) (Q : B -> Prop)
    (m : M W A) (f : A -> M W B) :
  post R m -> (forall x, R x -> post Q (f x)) -> post Q (bind m f).
Proof.
  intros Hm Hf s b s' H. apply bind_Ok_inv in H as (a & s1 & Ha & H).
  eapply Hf; [eapply Hm, Ha | exact H].
Qed.

Lemma post_try {A : Type} (Q : A -> Prop) (m : M W A) (h : exn -> M W A) :
  post Q m -> (forall e, post Q (h e)) -> post Q (try_except m h).
Proof.
  intros Hm Hh s a s'. unfold try_except.
  destruct (m s) as [[a1|e] s1] eqn:E.
  - intros [= <- _]. eapply Hm, E.
  - apply Hh.
Qed.

Lemma total_try_ret {A : Type} (m : M W A) (a : A) :
  total (try_except m (fun _ => ret a)).
Proof.
  intros s. unfold try_except. destruct (m s) as [[a1|e] s1]; cbn [ret]; eauto.
Qed.

End Toolkit.
End PostFacts.

Module ExtractorFacts.
Import PyStr Claims Awaited AwaitedFacts PostFacts Pagination Extractor.
Section WithDriver.
Context {W : Type} (drv : PageDriver W).

Lemma truthy_nonempty s : truthy s = true -> s <> EmptyString.
Proof. destruct s; cbn; congruence. Qed.

Lemma nonempty_truthy s : s <> EmptyString -> truthy s = true.
Proof. destruct s; cbn; congruence. Qed.








(** C3, as amended.  [extract_homework] never raises: it returns a
    list for every driver, target date and state.  When its flow
    raises, the list it returns is the empty one, also when rows of the
    table had been turned into records before the failure. *)
Theorem extract_homework_never_raises (target_date : option datetime) (s : state W) :
  (exists records s', extract_homework drv target_date s = (Ok records, s')) /\
  (forall e s1, extract_flow drv target_date [] s = (Raise e, s1) ->
                extract_homework drv target_date s = (Ok [], s1)).
Proof.
  unfold extract_homework, try_except.
  destruct (extract_flow drv target_date [] s) as [[records|e] s1].
  - split; [eauto | discriminate].
  - split; [cbn [ret]; eauto | intros e' s1' [= _ <-]; reflexivity].
Qed.

(** C10.  A row with fewer than six cells leaves the list of records
    as it was, and nothing is read from the row once its cells are
    listed.  The record of a row of exactly six cells has no attached
    files; with more cells, its attached files are what
    [_extract_attached_files] returns for the seventh. *)
Theorem rows_need_six_cells :
  (forall date_str row homework_list s cells s1,
     perform drv (All (Within row Selectors.TABLE_CELLS)) s = (Ok cells, s1) ->
     length cells < 6 ->
     extract_row drv date_str row homework_list s = (Ok homework_list, s1)) /\
  (forall date_str c0 c1 c2 c3 c4 c5 s item s',
     row_fields drv date_str c0 c1 c2 c3 c4 c5 [] s = (Ok item, s') ->
     attached_files item = []) /\
  (forall date_str c0 c1 c2 c3 c4 c5 c6 more s item s',
     row_fields drv date_str c0 c1 c2 c3 c4 c5 (c6 :: more) s = (Ok item, s') ->
     exists s0, _extract_attached_files drv c6 s0 = (Ok (attached_files item), s')).
Proof.
  repeat split.
  - intros date_str row homework_list s cells s1 Hcells Hlen.
    unfold extract_row, bind. rewrite Hcells.
    destruct cells as [|c0 [|c1 [|c2 [|c3 [|c4 [|c5 more]]]]]]; try reflexivity.
    cbn [length] in Hlen. lia.
  - intros date_str c0 c1 c2 c3 c4 c5 s item s' H. unfold row_fields in H.
    do 7 (apply bind_Ok_inv in H as (? & ? & ? & H)).
    match goal with X : ret [] _ = _ |- _ => injection X as <- _ end.
    injection H as <- _. reflexivity.
  - intros date_str c0 c1 c2 c3 c4 c5 c6 more s item s' H. unfold row_fields in H.
    do 7 (apply bind_Ok_inv in H as (? & ? & ? & H)).
    injection H as <- <-. cbn [attached_files]. eauto.
Qed.

End WithDriver.
End ExtractorFacts.

Module ExtractorExamples.
Import PyStr Claims Pagination Extractor Fixture ExtractorFacts.

(** C3, as stated: two records are built before the fourth row fails,
    and the call returns none of them. *)
Lemma extract_homework_discards_rows_read :
  let drv := static_driver (week_page true) in
  (forall s, fst (extract_rows drv "20/01/2026" [row_2001 0; row_2001 1; row_2001 2] [] s) =
             Ok [first_item; third_item]) /\
  (forall s, exists e,
       fst (extract_row drv "20/01/2026" (row_2001 3) [first_item; third_item] s) = Raise e) /\
  (forall s, exists e, fst (_extract_table_data drv table_2001 "20/01/2026" s) = Raise e) /\
  fst (extract_homework drv (Some (jan 20)) start) = Ok [].
Proof.
  cbn zeta. split; [|split; [|split]].
  - intros [[] tr]. vm_compute. reflexivity.
  - intros [[] tr]. eexists. vm_compute. reflexivity.
  - intros [[] tr]. eexists. vm_compute. reflexivity.
  - vm_compute. reflexivity.
Qed.

Lemma extract_homework_never_raises_witness :
  fst (extract_homework (static_driver (week_page true)) (Some (jan 20)) start) = Ok [].
Proof.
  set (drv := static_driver (week_page true)).
  pose (r := extract_flow drv (Some (jan 20)) [] start).
  assert (exists e, r = (Raise e, snd r)) as [e E] by (eexists; vm_compute; reflexivity).
  rewrite (proj2 (extract_homework_never_raises drv (Some (jan 20)) start) e (snd r) E).
  reflexivity.
Defined.


Lemma rows_need_six_cells_witness :
  fst (extract_row (static_driver (week_page false)) "20/01/2026" (row_2001 1) [] start) = Ok [].
Proof.
  set (drv := static_driver (week_page false)).
  pose (r1 := perform drv (All (Within (row_2001 1) Selectors.TABLE_CELLS)) start).
  rewrite (proj1 (rows_need_six_cells drv) "20/01/2026" (row_2001 1) [] start
             (numbered (Within (row_2001 1) Selectors.TABLE_CELLS) 5) (snd r1)).
  - reflexivity.
  - vm_compute. reflexivity.
  - vm_compute. lia.
Defined.

End ExtractorExamples.

(** ** The clock and the polling loop of [_verify_login_success] *)
Module ClockFacts.
Import Awaited Auth.
Section WithDriver.
Context {W : Type} (drv : PageDriver W) (ci : bool).
Hypothesis Hclock : clock_advances drv.

Lemma later_ret {A : Type} (a : A) : later drv (ret a).
Proof. intros s. apply Qle_refl. Qed.

Lemma later_raise {A : Type} e : later (A:=A) drv (raise e).
Proof. intros s. apply Qle_refl. Qed.

Lemma later_get_url : later drv (get_url drv).
Proof. intros s. apply Qle_refl. Qed.

Lemma later_get_loop_time : later drv (get_loop_time drv).
Proof. intros s. apply Qle_refl. Qed.

Lemma later_perform {A : Type} (c : call A) : later drv (perform drv c).
Proof.
  intros s. unfold perform.
  pose proof (proj1 Hclock A c (world s)) as H.
  destruct (answer drv c (world s)) as [r w]. exact H.
Qed.

Lemma later_sleep d : (0 <= d)%Q -> later drv (asyncio_sleep drv d).
Proof.
  intros Hd s. cbn. pose proof (proj2 Hclock d (world s) Hd). lra.
Qed.

Lemma later_bind {A B : Type} (m : M W A) (f : A -> M W B) :
  later drv m -> (forall x, later drv (f x)) -> later drv (bind m f).
Proof.
  intros Hm Hf s. unfold bind. pose proof (Hm s) as H1.
  destruct (m s) as [[a|e] s1]; cbn [snd] in *; [|exact H1].
  pose proof (Hf a s1). lra.
Qed.

Lemma later_try {A : Type} (m : M W A) (h : exn -> M W A) :
  later drv m -> (forall e, later drv (h e)) -> later drv (try_except m h).
Proof.
  intros Hm Hh s. unfold try_except. pose proof (Hm s) as H1.
  destruct (m s) as [[a|e] s1]; cbn [snd] in *; [exact H1|].
  pose proof (Hh e s1). lra.
Qed.

Lemma later_try_pass (m : M W unit) : later drv m -> later drv (try_pass m).
Proof. intros. apply later_try; [assumption | intros; apply later_ret]. Qed.

End WithDriver.

Ltac later0 :=
  repeat first
    [ apply later_ret
    | apply later_raise
    | apply later_get_url
    | apply later_get_loop_time
    | apply later_perform; assumption
    | apply later_sleep; [assumption | vm_compute; discriminate]
    | apply later_try_pass
    | apply later_bind; [|intros ?]
    | apply later_try; [|intros ?]
    | match goal with
      | |- later _ (match ?x with _ => _ end) => destruct x
      end
    | assumption ].

Section Login.
Context {W : Type} (drv : PageDriver W) (ci : bool).
Hypothesis Hclock : clock_advances drv.

Lemma later_error_keyword_shown t ks : later drv (error_keyword_shown drv t ks).
Proof. induction ks as [|k ks IH]; cbn [error_keyword_shown]; later0. Qed.

Lemma later_check_for_errors : later drv (_check_for_errors drv).
Proof. unfold _check_for_errors. later0; apply later_error_keyword_shown. Qed.

Lemma later_wait_for_redirect n : later drv (wait_for_redirect drv n).
Proof. induction n as [|n IH]; cbn [wait_for_redirect]; later0. Qed.

Lemma later_handle_recaptcha : later drv (_handle_recaptcha drv).
Proof. unfold _handle_recaptcha. later0; apply later_wait_for_redirect. Qed.

Lemma later_log_error_keywords t ks : later drv (log_error_keywords drv t ks).
Proof. induction ks as [|k ks IH]; cbn [log_error_keywords]; later0. Qed.

Lemma later_debug_login_failure : later drv (_debug_login_failure drv).
Proof. unfold _debug_login_failure. later0; apply later_log_error_keywords. Qed.

End Login.

Section Loop.
Context {W : Type} (drv : PageDriver W) (ci : bool).
Hypothesis Hclock : clock_advances drv.

Local Notation "'clock' s" := (loop_time drv (world s)) (at level 10, s at level 9).

Lemma Qgtb_false (a b : Q) : Qgtb a b = false -> (a <= b)%Q.
Proof.
  unfold Qgtb. intros H. apply Qle_alt. intros Hgt. rewrite Hgt in H. discriminate.
Qed.

(** A round that asks for another round was within the time limit when
    it started, and slept for a second. *)
Lemma poll_once_progress (start_time : Q) (checked : bool) (s : state W) :
  forall c' s',
    poll_once drv ci start_time checked s = (Ok (inr (Some c')), s') ->
    (clock s - start_time <= max_wait_time ci)%Q /\ (clock s + 1 <= clock s')%Q.
Proof.
  intros c' s'. unfold poll_once.
  unfold bind at 1. cbn [get_url]. unfold bind at 1. cbn [get_loop_time].
  destruct (redirected_to_webtop _); [discriminate|].
  unfold bind at 1.
  match goal with
  | |- context [match ?m s with _ => _ end] =>
      assert (Hl : later drv m);
      [ later0;
        first [ apply later_check_for_errors | apply later_handle_recaptcha ];
        assumption
      | pose proof (Hl s) as Hs; destruct (m s) as [[r|e] s1] ]
  end; [|discriminate].
  cbn [snd] in Hs.
  destruct r as [b|[c|]]; try discriminate.
  clear Hl. destruct (Qgtb _ (max_wait_time ci)) eqn:Hg.
  - unfold bind. destruct (_debug_login_failure drv s1) as [[?|?] ?]; discriminate.
  - unfold bind. cbn [asyncio_sleep]. cbn [ret]. intros H. injection H as _ <-.
    cbn [world]. apply Qgtb_false in Hg.
    pose proof (proj2 Hclock Delays.LONG (world s1)) as Hsl.
    assert (H0 : (0 <= Delays.LONG)%Q) by (vm_compute; discriminate).
    specialize (Hsl H0). unfold Delays.LONG in *.
    split; [exact Hg | lra].
Qed.

Lemma inject_succ (n : nat) :
  (inject_Z (Z.of_nat (S n)) == inject_Z (Z.of_nat n) + 1)%Q.
Proof. rewrite Nat2Z.inj_succ, <- Z.add_1_r, inject_Z_plus. reflexivity. Qed.

(** With more fuel than seconds left, the loop comes to an end. *)
Lemma poll_redirect_returns (fuel : nat) :
  forall (start_time : Q) (checked : bool) (s : state W),
    (1 <= fuel)%nat ->
    (max_wait_time ci - (clock s - start_time) + 1 < inject_Z (Z.of_nat fuel))%Q ->
    poll_redirect drv ci fuel start_time checked s <> None.
Proof.
  induction fuel as [|fuel IH]; intros start_time checked s Hpos Hfuel; [lia|].
  cbn [poll_redirect]. unfold fbind, lift.
  pose proof (poll_once_progress start_time checked s) as Hround.
  destruct (poll_once drv ci start_time checked s) as [[[r|[c|]]|e] s1];
    try discriminate.
  destruct (Hround c s1 eq_refl) as [Hin Hslept].
  rewrite inject_succ in Hfuel.
  assert (Hf : (0 < inject_Z (Z.of_nat fuel))%Q) by lra.
  apply IH.
  - destruct fuel as [|fuel]; [|lia]. exfalso. revert Hf. vm_compute. discriminate.
  - lra.
Qed.

Lemma max_wait_time_le : (max_wait_time ci <= 60)%Q.
Proof. unfold max_wait_time. destruct ci; vm_compute; discriminate. Qed.

Lemma lift_returns {A : Type} (m : M W A) (s : state W) : lift m s <> None.
Proof. discriminate. Qed.

Lemma fbind_returns {A B : Type} (m : F W A) (k : A -> F W B) (s : state W) :
  m s <> None -> (forall a s', k a s' <> None) -> fbind m k s <> None.
Proof.
  intros Hm Hk. unfold fbind.
  destruct (m s) as [[[a|e] s']|]; [apply Hk|discriminate|contradiction].
Qed.

Lemma ftry_returns {A : Type} (m : F W A) (h : exn -> F W A) (s : state W) :
  m s <> None -> (forall e s', h e s' <> None) -> ftry_except m h s <> None.
Proof.
  intros Hm Hh. unfold ftry_except.
  destruct (m s) as [[[a|e] s']|]; [discriminate|apply Hh|contradiction].
Qed.

Lemma verify_login_success_returns (fuel : nat) (s : state W) :
  (62 <= fuel)%nat -> _verify_login_success drv ci fuel s <> None.
Proof.
  intros Hfuel. unfold _verify_login_success.
  unfold fbind at 1. unfold lift at 1. cbn [get_loop_time].
  apply fbind_returns.
  - apply poll_redirect_returns; [lia|].
    pose proof max_wait_time_le.
    assert ((62 <= inject_Z (Z.of_nat fuel))%Q).
    { change 62%Q with (inject_Z 62). rewrite <- Zle_Qle. lia. }
    lra.
  - intros [r|] s'; apply lift_returns.
Qed.

Lemma login_flow_returns (username password : string) (fuel : nat) (s : state W) :
  (62 <= fuel)%nat -> login_flow drv ci username password fuel s <> None.
Proof.
  intros Hfuel. unfold login_flow.
  apply fbind_returns; [apply lift_returns|].
  intros [|] s1; [apply lift_returns|].
  apply fbind_returns; [apply lift_returns|]. intros _ s2.
  apply fbind_returns; [apply verify_login_success_returns; exact Hfuel|].
  intros ok s3.
  apply fbind_returns; [apply lift_returns|]. intros _ s4. apply lift_returns.
Qed.

Lemma login_returns (username password : string) (fuel : nat) (s : state W) :
  (62 <= fuel)%nat -> login drv ci username password fuel s <> None.
Proof.
  intros Hfuel. unfold login.
  apply ftry_returns; [apply login_flow_returns; exact Hfuel|].
  intros e s'. apply lift_returns.
Qed.

End Loop.
End ClockFacts.

Module AuthFacts.
Import Awaited PostFacts Auth.
Section WithDriver.
Context {W : Type} (drv : PageDriver W) (ci : bool).

(** C1, as amended.  [login] never raises, whatever the driver, the
    credentials, the fuel and the state: whenever its flow raises, the
    "field not found" errors of the lookups included, [login] returns
    [False].  And it does return: under a clock that does not run
    backwards and that a sleep advances, 62 rounds of the polling loop
    are enough for [login] to return a boolean. *)
Theorem login_converts_exceptions (username password : string) (fuel : nat) (s : state W) :
  (forall e s', login drv ci username password fuel s <> Some (Raise e, s')) /\
  (forall e s1, login_flow drv ci username password fuel s = Some (Raise e, s1) ->
                exists s2, login drv ci username password fuel s = Some (Ok false, s2)) /\
  (clock_advances drv -> (62 <= fuel)%nat ->
   exists b s', login drv ci username password fuel s = Some (Ok b, s')).
Proof.
  assert (Hraise : forall e s', login drv ci username password fuel s <> Some (Raise e, s')).
  { unfold login, ftry_except.
    destruct (login_flow drv ci username password fuel s) as [[[b|e] s1]|];
      [discriminate| |discriminate].
    unfold lift, bind.
    destruct (total_try_ret (_debug_login_failure drv) tt s1) as ([] & s2 & E).
    fold (try_pass (_debug_login_failure drv)) in E. rewrite E. cbn [ret].
    discriminate. }
  split; [exact Hraise|]. split.
  - intros e s1 Hflow. unfold login, ftry_except. rewrite Hflow.
    unfold lift, bind.
    destruct (total_try_ret (_debug_login_failure drv) tt s1) as ([] & s2 & E).
    fold (try_pass (_debug_login_failure drv)) in E. rewrite E. cbn [ret]. eauto.
  - intros Hclock Hfuel.
    pose proof (ClockFacts.login_returns drv ci Hclock username password fuel s Hfuel) as Hret.
    destruct (login drv ci username password fuel s) as [[[b|e] s']|] eqn:E.
    + eauto.
    + exfalso. exact (Hraise e s' eq_refl).
    + contradiction.
Qed.

End WithDriver.
End AuthFacts.

Module AuthExamples.
Import Awaited Auth Fixture AuthFacts.

(** C1, as stated: the username field is not found, the helper raises
    its error inside the flow, and [login] returns [False]. *)
Lemma login_swallows_field_not_found :
  let drv := static_driver blank_page in
  fst (_find_username_field drv start) = Raise username_not_found /\
  option_map fst (login_flow drv false "user" "secret" 0 start) =
    Some (Raise username_not_found) /\
  option_map fst (login drv false "user" "secret" 0 start) = Some (Ok false).
Proof. cbn zeta. split; [|split]; vm_compute; reflexivity. Qed.

Lemma ticking_clock_advances (p : page_model) : clock_advances (ticking_driver p).
Proof.
  split.
  - intros A c w. cbn. apply Qle_refl.
  - intros d w _. cbn. rewrite Qred_correct. apply Qle_refl.
Qed.

(** The bound on the rounds is reached: in CI, where the time limit is
    60 seconds, a login page that never redirects is polled 62 times. *)
Lemma login_polls_sixty_two_times :
  let drv := ticking_driver form_page in
  login drv true "user" "secret" 61 start_clock = None /\
  option_map fst (login drv true "user" "secret" 62 start_clock) = Some (Ok true).
Proof. cbn zeta. split; vm_compute; reflexivity. Qed.

Lemma login_converts_exceptions_witness :
  let drv := ticking_driver blank_page in
  (exists s2, login drv true "user" "secret" 62 start_clock = Some (Ok false, s2)) /\
  (exists b s', login drv true "user" "secret" 62 start_clock = Some (Ok b, s')).
Proof.
  cbn zeta. set (drv := ticking_driver blank_page).
  pose (s1 := match login_flow drv true "user" "secret" 62 start_clock with
              | Some (_, s) => s
              | None => start_clock
              end).
  pose proof (login_converts_exceptions drv true "user" "secret" 62 start_clock) as H.
  split.
  - apply (proj1 (proj2 H) username_not_found s1). vm_compute. reflexivity.
  - apply (proj2 (proj2 H)); [apply ticking_clock_advances | lia].
Defined.

End AuthExamples.

Module ScraperFacts.
Import PyStr Scraper.
Section WithDriver.
Context {W : Type} (drv : PageDriver W).

(** C8.  With both credentials missing or empty,
    [get_today_homework] raises the [ValueError] [missing_credentials]
    in the state it was called in: no browser was launched and no call
    of any kind was made on the driver. *)
Theorem missing_credentials_fail_first (env : environ) (date : option string)
    (fuel : nat) (s : state W) :
  otruthy (MINISTRY_OF_EDUCATION_USERNAME env) = false ->
  otruthy (MINISTRY_OF_EDUCATION_PASSWORD env) = false ->
  get_today_homework drv env date fuel s = Some (Raise missing_credentials, s) /\
  is_ValueError missing_credentials = true.
Proof.
  intros Hu Hp. split; [|reflexivity].
  unfold get_today_homework, username, password. rewrite Hu, Hp. reflexivity.
Qed.

End WithDriver.
End ScraperFacts.

Module ScraperExamples.
Import Scraper Fixture ScraperFacts.

Lemma missing_credentials_fail_first_witness :
  get_today_homework (static_driver blank_page) (mkenviron None (Some EmptyString) false)
    (Some "21-01-2026") 0 start = Some (Raise missing_credentials, start).
Proof.
  apply (fun H1 H2 => proj1 (missing_credentials_fail_first (static_driver blank_page)
           (mkenviron None (Some EmptyString) false) (Some "21-01-2026") 0 start H1 H2));
    reflexivity.
Defined.

End ScraperExamples.

(** * Further properties *)

(** ** Further properties of [parse_date] *)
Module ParseDateFacts.
Import PyStr Datetime Strptime Utils DateText Observations PureFacts.

Lemma datetime_ymd_midnight y m d t :
  datetime_ymd y m d = Ok t -> calendar_midnight t.
Proof.
  destruct (datetime_ymd_cases y m d) as [[V E]|[_ [msg E]]]; rewrite E; [|discriminate].
  intros [= <-]. repeat split. exact V.
Qed.

Lemma strptime_midnight data fmt t : strptime data fmt = Ok t -> calendar_midnight t.
Proof.
  unfold strptime.
  destruct (compile_format fmt); [|discriminate].
  destruct (re_match _ _ _) as [[g [|? ?]]|]; try discriminate.
  apply datetime_ymd_midnight.
Qed.

Lemma parse_with_cases s fmts :
  (exists fmt t, fmt ∈ fmts /\ strptime (strip s) fmt = Ok t /\ parse_with s fmts = Ok t) \/
  parse_with s fmts = Raise (parse_error s).
Proof.
  induction fmts as [|fmt fmts IH]; cbn [parse_with]; [right; reflexivity|].
  destruct (strptime (strip s) fmt) as [t|e] eqn:E.
  - left. exists fmt, t. repeat split; [left | exact E].
  - rewrite (strptime_raises_ValueError _ _ _ E).
    destruct IH as [(f & t & Hf & Ht & Hp)|Hp]; [left|right; exact Hp].
    exists f, t. repeat split; [right; exact Hf | exact Ht | exact Hp].
Qed.

(** X1.  On a string, [parse_date] either returns midnight of a
    calendar date or raises the [ValueError] that quotes the string as
    it was given; it never returns [None] and raises nothing else. *)
Theorem parse_date_returns_midnight_or_raises (date_str : string) :
  (exists t, parse_date (Some date_str) = Ok (Some t) /\ calendar_midnight t) \/
  parse_date (Some date_str) =
    Raise (ValueError ("Could not parse date '" +:+ date_str +:+
                       "'. Supported formats: DD-MM-YYYY, DD/MM/YYYY, YYYY-MM-DD")).
Proof.
  unfold parse_date.
  destruct (parse_with_cases date_str date_formats) as [(f & t & _ & Ht & ->)| ->].
  - left. exists t. split; [reflexivity | exact (strptime_midnight _ _ _ Ht)].
  - right. reflexivity.
Qed.

(** *** The length of the strings that parse *)










End ParseDateFacts.

(** ** Never raising, and where a computation ends *)
Module TotalFacts.
Import Claims Awaited Observations AwaitedFacts.
Section Toolkit.
Context {W : Type} (drv : PageDriver W).

Lemma total_ret {A : Type} (a : A) : total (W:=W) (ret a).
Proof. intros s. cbn. eauto. Qed.

Lemma total_sleep d : total (asyncio_sleep drv d).
Proof. intros s. cbn. eauto. Qed.

Lemma total_get_url : total (get_url drv).
Proof. intros s. cbn. eauto. Qed.

Lemma total_get_loop_time : total (get_loop_time drv).
Proof. intros s. cbn. eauto. Qed.

Lemma total_datetime_now : total (datetime_now drv).
Proof. intros s. cbn. eauto. Qed.

Lemma total_mark e : total (W:=W) (mark e).
Proof. intros s. cbn. eauto. Qed.

Lemma total_bind {A B : Type} (m : M W A) (f : A -> M W B) :
  total m -> (forall x, total (f x)) -> total (bind m f).
Proof.
  intros Hm Hf s. unfold bind. destruct (Hm s) as (a & s1 & ->). apply Hf.
Qed.

Lemma total_try {A : Type} (m : M W A) (h : exn -> M W A) :
  (forall e, total (h e)) -> total (try_except m h).
Proof.
  intros Hh s. unfold try_except. destruct (m s) as [[a|e] s1]; [eauto | apply Hh].
Qed.

Lemma total_try_pass (m : M W unit) : total (try_pass m).
Proof. apply total_try. intros _. apply total_ret. Qed.

Lemma ends_ret {A : Type} (Q : A -> state W -> Prop) (a : A) :
  (forall s, Q a s) -> ends Q (ret a).
Proof. intros H s a' s' [= <- <-]. apply H. Qed.

Lemma ends_bind {A B : Type} (Q : B -> state W -> Prop) (m : M W A) (f : A -> M W B) :
  (forall x, ends Q (f x)) -> ends Q (bind m f).
Proof.
  intros Hf s b s'. unfold bind. destruct (m s) as [[a|e] s1]; [apply Hf | discriminate].
Qed.

Lemma ends_bind_from {A B : Type} (Q : B -> state W -> Prop) (m : M W A) (f : A -> M W B) :
  (forall s x s1, m s = (Ok x, s1) -> forall b s', f x s1 = (Ok b, s') -> Q b s') ->
  ends Q (bind m f).
Proof.
  intros H s b s'. unfold bind. destruct (m s) as [[a|e] s1] eqn:E; [|discriminate].
  apply (H s a s1 E).
Qed.

Lemma ends_try {A : Type} (Q : A -> state W -> Prop) (m : M W A) (h : exn -> M W A) :
  ends Q m -> (forall e, ends Q (h e)) -> ends Q (try_except m h).
Proof.
  intros Hm Hh s a s'. unfold try_except. destruct (m s) as [[a1|e] s1] eqn:E.
  - intros [= <- <-]. apply (Hm s), E.
  - apply Hh.
Qed.

(** What a computation that cannot raise and does not click leaves. *)
Lemma total_quiet_run {A : Type} (m : M W A) k (s : state W) :
  total m -> quiet k m ->
  exists a s' new, m s = (Ok a, s') /\ added s s' new /\ clicks new <= k.
Proof.
  intros T Q. destruct (T s) as (a & s' & E). destruct (Q s) as (new & Ha & _ & C).
  rewrite E in Ha. eauto 6.
Qed.

Lemma fails_total {A : Type} (Q : exn -> state W -> Prop) (m : M W A) :
  total m -> fails Q m.
Proof. intros T s e s' E. destruct (T s) as (a & s1 & E'). congruence. Qed.

Lemma fails_bind {A B : Type} (Q : exn -> state W -> Prop) (m : M W A) (f : A -> M W B) :
  fails Q m -> (forall x, fails Q (f x)) -> fails Q (bind m f).
Proof.
  intros Hm Hf s e s'. unfold bind. destruct (m s) as [[a|e1] s1] eqn:E.
  - apply Hf.
  - intros [= <- <-]. apply (Hm s), E.
Qed.

Lemma fails_perform {A : Type} (c : call A) :
  fails (fun e s' => exists s0, perform drv c s0 = (Raise e, s')) (perform drv c).
Proof. intros s e s' E. eauto. Qed.

End Toolkit.

(** Code that cannot raise: returns, sleeps, reads of the page address
    and of the clocks, guarded blocks, and what is built from them. *)
Ltac total0 :=
  repeat first
    [ apply total_ret
    | apply total_sleep
    | apply total_get_url
    | apply total_get_loop_time
    | apply total_datetime_now
    | apply total_mark
    | apply total_try_pass
    | apply total_try; intros ?
    | apply total_bind; [|intros ?]
    | match goal with
      | |- total (match ?x with _ => _ end) => destruct x
      | |- total (let '_ := ?x in _) => destruct x
      end
    | assumption ].

End TotalFacts.

(** ** Further properties of the pagination search *)
Module SearchFacts.
Import PyStr Datetime Strptime DateText Claims Awaited Observations Pagination.
Import AwaitedFacts PostFacts TotalFacts PureFacts OrderFacts PaginationFacts.

(** *** The display format and the two readers of the headings *)

Lemma contains_unfold needle hay :
  contains needle hay =
  String.prefix needle hay ||
  match hay with
  | String _ hay' => contains needle hay'
  | EmptyString => false
  end.
Proof. destruct hay; reflexivity. Qed.

Lemma prefix_app needle rest : String.prefix needle (needle +:+ rest) = true.
Proof.
  induction needle as [|c needle IH]; [destruct rest; reflexivity|].
  simpl. destruct (ascii_dec c c); [exact IH | congruence].
Qed.

Lemma contains_prefix needle rest : contains needle (needle +:+ rest) = true.
Proof. rewrite contains_unfold, prefix_app. reflexivity. Qed.

Lemma contains_app pre needle post : contains needle (pre +:+ needle +:+ post) = true.
Proof.
  induction pre as [|c pre IH]; [exact (contains_prefix needle post)|].
  change (String c pre +:+ needle +:+ post) with (String c (pre +:+ needle +:+ post)).
  rewrite contains_unfold. cbv beta iota.
  rewrite IH. apply orb_true_r.
Qed.

Lemma date_at_digit c s g : date_at (String c s) = Some g -> is_digit c = true.
Proof.
  unfold date_at.
  destruct s as [|d2 [|s1 [|m1 [|m2 [|s2 [|y1 [|y2 [|y3 [|y4 r]]]]]]]]]; try discriminate.
  destruct (is_digit c); [reflexivity | discriminate].
Qed.

Lemma search_date_skips pre s :
  no_digit pre = true -> search_date (pre +:+ s) = search_date s.
Proof.
  induction pre as [|c pre IH]; [reflexivity|].
  cbn [no_digit]. intros H. apply andb_prop in H as [Hc Hp].
  change (String c pre +:+ s) with (String c (pre +:+ s)).
  cbn [search_date].
  destruct (date_at (String c (pre +:+ s))) as [g|] eqn:E; [|apply IH, Hp].
  apply date_at_digit in E. rewrite E in Hc. discriminate.
Qed.

Lemma display_text y m d :
  strftime (mkdatetime y m d 0 0 0 0) Selectors.DATE_FORMAT_DISPLAY =
  text_day_first "/" (tens d) (units d) (tens m) (units m)
    (thousands y) (hundreds y) (tens y) (units y).
Proof. reflexivity. Qed.

Lemma strftime_date_only t fmt :
  strftime t fmt = strftime (mkdatetime (year t) (month t) (day t) 0 0 0 0) fmt.
Proof. unfold strftime. destruct (compile_format fmt); reflexivity. Qed.

Lemma search_date_unfold s :
  search_date s =
  match date_at s with
  | Some g => Some g
  | None => match s with String _ s' => search_date s' | EmptyString => None end
  end.
Proof. destruct s; reflexivity. Qed.

Lemma date_at_text d1 d2 m1 m2 y1 y2 y3 y4 post :
  is_digit d1 = true -> is_digit d2 = true -> is_digit m1 = true -> is_digit m2 = true ->
  is_digit y1 = true -> is_digit y2 = true -> is_digit y3 = true -> is_digit y4 = true ->
  date_at (text_day_first "/" d1 d2 m1 m2 y1 y2 y3 y4 +:+ post) =
    Some (two d1 d2, two m1 m2, (100 * two y1 y2 + two y3 y4)%Z).
Proof.
  intros Hd1 Hd2 Hm1 Hm2 Hy1 Hy2 Hy3 Hy4.
  change (text_day_first "/" d1 d2 m1 m2 y1 y2 y3 y4 +:+ post) with
    (String d1 (String d2 (String "/" (String m1 (String m2 (String "/"
       (String y1 (String y2 (String y3 (String y4 post)))))))))).
  unfold date_at. rewrite Hd1, Hd2, Hm1, Hm2, Hy1, Hy2, Hy3, Hy4. reflexivity.
Qed.

Lemma search_date_display y m d post :
  (0 <= d <= 99)%Z -> (0 <= m <= 99)%Z -> (0 <= y <= 9999)%Z ->
  search_date (strftime (mkdatetime y m d 0 0 0 0) Selectors.DATE_FORMAT_DISPLAY +:+ post) =
    Some (d, m, y).
Proof.
  intros Hd Hm Hy. rewrite display_text.
  destruct (digits_are_digits d) as (Dt & Du & _ & _).
  destruct (digits_are_digits m) as (Mt & Mu & _ & _).
  destruct (digits_are_digits y) as (Yt & Yu & Yh & Yk).
  rewrite search_date_unfold, date_at_text by assumption.
  rewrite (two_digits d Hd), (two_digits m Hm), (four_digits y Hy). reflexivity.
Qed.

Lemma no_decimal_digit_no_digit s : no_decimal_digit s = true -> no_digit s = true.
Proof. unfold no_decimal_digit. intros H. apply andb_prop in H as [H _]. exact H. Qed.

(** X3.  A heading that shows a calendar date in the display format
    [%d/%m/%Y] after a text without decimal digits (characters below
    U+0640, as in Latin and Hebrew text, none of them in [0-9]) is read
    alike by the two readers of headings: the test of
    [find_date_on_page] finds the date string in it, and
    [get_dates_on_page] reads that date from it, whatever follows the
    date.  (Years of four digits: the rendering of earlier years need
    not be zero padded.) *)
Theorem display_date_is_recognised (t : datetime) (pre post : string) :
  valid_date (year t) (month t) (day t) = true ->
  (1000 <= year t)%Z ->
  no_decimal_digit pre = true ->
  let target_date_str := strftime t Selectors.DATE_FORMAT_DISPLAY in
  let heading_text := Some (pre +:+ target_date_str +:+ post) in
  text_has target_date_str heading_text = true /\
  heading_date heading_text = Some (mkdatetime (year t) (month t) (day t) 0 0 0 0).
Proof.
  intros V _ Hpre. cbn zeta.
  destruct (valid_date_ranges _ _ _ V) as (Hd & Hm & Hy).
  split.
  - unfold text_has. rewrite contains_app, andb_true_r.
    rewrite strftime_date_only, display_text.
    destruct pre; reflexivity.
  - unfold heading_date.
    assert (truthy (pre +:+ strftime t Selectors.DATE_FORMAT_DISPLAY +:+ post) = true) as ->
      by (rewrite strftime_date_only, display_text; destruct pre; reflexivity).
    rewrite search_date_skips by exact (no_decimal_digit_no_digit _ Hpre).
    rewrite strftime_date_only, search_date_display by assumption.
    destruct (datetime_ymd_cases (year t) (month t) (day t)) as [[_ ->]|[E _]];
      [reflexivity | congruence].
Qed.

Lemma display_date_is_recognised_witness :
  text_has "21/01/2026" (Some "יום רביעי | 21/01/2026 | ג׳ שְׁבָט תשפ״ו") = true /\
  heading_date (Some "יום רביעי | 21/01/2026 | ג׳ שְׁבָט תשפ״ו") =
    Some (mkdatetime 2026 1 21 0 0 0 0).
Proof.
  apply (display_date_is_recognised (mkdatetime 2026 1 21 12 30 0 0)
           "יום רביעי | " " | ג׳ שְׁבָט תשפ״ו").
  - reflexivity.
  - cbn. lia.
  - vm_compute. reflexivity.
Defined.

Section WithDriver.
Context {W : Type} (drv : PageDriver W).

(** *** [find_date_on_page] *)

Lemma total_find_date_on_page t : total (find_date_on_page drv t).
Proof. unfold find_date_on_page. total0. Qed.

Lemma ends_find_in_headings t hs : ends (read_the_date drv t) (find_in_headings drv t hs).
Proof.
  induction hs as [|h hs IH]; cbn [find_in_headings].
  - apply ends_ret. intros s. discriminate.
  - apply ends_bind. intros _. apply ends_bind_from.
    intros s text s1 E b s'.
    destruct (text_has t text) eqn:T; [|apply IH].
    intros [= <- <-] _. eauto.
Qed.

Lemma ends_find_date_on_page t : ends (read_the_date drv t) (find_date_on_page drv t).
Proof.
  unfold find_date_on_page. apply ends_try.
  - do 6 (apply ends_bind; intros _). apply ends_bind. intros hs.
    apply ends_find_in_headings.
  - intros _. apply ends_ret. intros s. discriminate.
Qed.

(** X4.  [find_date_on_page] is a safe probe: it never raises and
    never clicks, and it answers [True] only in the state in which a
    heading has just been read whose text contains the date string. *)
Theorem find_date_on_page_is_a_safe_probe (target_date_str : string) (s : state W) :
  exists found s' new,
    find_date_on_page drv target_date_str s = (Ok found, s') /\
    added s s' new /\ clicks new = 0 /\
    (found = true ->
     exists heading heading_text s0,
       perform drv (TextContent heading) s0 = (Ok heading_text, s') /\
       text_has target_date_str heading_text = true).
Proof.
  destruct (total_quiet_run (find_date_on_page drv target_date_str) 0 s
              (total_find_date_on_page _) (quiet_find_date_on_page drv 0 _))
    as (found & s' & new & E & A & C).
  exists found, s', new. repeat split; [exact E | exact A | lia |].
  exact (ends_find_date_on_page target_date_str s found s' E).
Qed.

(** *** [get_dates_on_page] *)

Lemma heading_date_midnight heading_text date_obj :
  heading_date heading_text = Some date_obj -> calendar_midnight date_obj.
Proof.
  unfold heading_date. destruct heading_text as [t|]; [|discriminate].
  destruct (truthy t); [|discriminate].
  destruct (search_date t) as [[[d m] y]|]; [|discriminate].
  destruct (datetime_ymd y m d) as [date|e] eqn:E; [|discriminate].
  intros [= <-]. exact (ParseDateFacts.datetime_ymd_midnight _ _ _ _ E).
Qed.

Lemma post_dates_of_headings hs : forall dates,
  Forall calendar_midnight dates ->
  post (Forall calendar_midnight) (dates_of_headings drv hs dates).
Proof.
  induction hs as [|h hs IH]; intros dates H; cbn [dates_of_headings].
  - apply post_ret, H.
  - apply post_bind. intros [heading_text|]; [|apply post_ret, H].
    apply IH. apply Forall_app. split; [exact H|].
    destruct (heading_date heading_text) as [date_obj|] eqn:E; constructor;
      [exact (heading_date_midnight _ _ E) | constructor].
Qed.

Lemma sorted_elem l y : y ∈ sorted l -> y ∈ l.
Proof.
  induction l as [|x l IH]; cbn [sorted]; [auto|].
  intros H. apply insert_sorted_elem in H as [->|H]; [left | right; auto].
Qed.

Lemma post_get_dates_on_page : post (Forall calendar_midnight) (get_dates_on_page drv).
Proof.
  unfold get_dates_on_page.
  eapply post_bind_strong with (R := Forall calendar_midnight).
  - apply post_try.
    + do 4 (apply post_bind; intros _). apply post_bind. intros hs.
      apply post_dates_of_headings. constructor.
    + intros _. apply post_ret. constructor.
  - intros dates H. apply post_ret. apply Forall_forall. intros y Hy.
    rewrite Forall_forall in H. apply H, sorted_elem, Hy.
Qed.

Lemma total_dates_of_headings hs : forall dates, total (dates_of_headings drv hs dates).
Proof. induction hs as [|h hs IH]; intros dates; cbn [dates_of_headings]; total0; apply IH. Qed.

Lemma total_get_dates_on_page : total (get_dates_on_page drv).
Proof. unfold get_dates_on_page. total0. Qed.

(** X5.  [get_dates_on_page] never raises and never clicks; the dates
    it returns are in ascending order and each is midnight of a
    calendar date: a heading whose numbers form no date (31/02/2026)
    contributes nothing. *)
Theorem get_dates_on_page_gives_sorted_dates (s : state W) :
  exists dates s' new,
    get_dates_on_page drv s = (Ok dates, s') /\
    added s s' new /\ clicks new = 0 /\
    StronglySorted dt_le dates /\ Forall calendar_midnight dates.
Proof.
  destruct (total_quiet_run (get_dates_on_page drv) 0 s
              total_get_dates_on_page (quiet_get_dates_on_page drv 0))
    as (dates & s' & new & E & A & C).
  exists dates, s', new. repeat split; [exact E | exact A | lia | |].
  - exact (RangeFacts.get_dates_on_page_sorted drv s dates s' E).
  - exact (post_get_dates_on_page s dates s' E).
Qed.

(** *** The navigation controls *)

Lemma total_first_usable_button sels : total (first_usable_button drv sels).
Proof. induction sels as [|sel sels IH]; cbn [first_usable_button]; total0. Qed.

Lemma total_find_navigation_button d : total (_find_navigation_button drv d).
Proof. unfold _find_navigation_button. total0. apply total_first_usable_button. Qed.

Lemma post_usable_button sel : post (first_of [sel]) (usable_button drv sel).
Proof.
  unfold usable_button. apply post_bind. intros n.
  destruct (0 <? n)%nat; [|apply post_ret; intros btn; discriminate].
  do 4 (apply post_bind; intros ?).
  destruct (_ && _); apply post_ret; intros btn; [|discriminate].
  intros [= <-]. exists sel. split; [left | reflexivity].
Qed.

Lemma post_first_usable_button sels : post (first_of sels) (first_usable_button drv sels).
Proof.
  induction sels as [|sel sels IH]; cbn [first_usable_button].
  - apply post_ret. intros btn. discriminate.
  - eapply post_bind_strong with (R := first_of [sel]).
    + apply post_try; [apply post_usable_button|].
      intros _. apply post_ret. intros btn. discriminate.
    + intros [b|] Hb.
      * apply post_ret. intros btn E. destruct (Hb btn E) as (x & Hx & ->).
        apply list_elem_of_singleton in Hx as ->. exists sel. split; [left | reflexivity].
      * intros s a s' E btn Ha. destruct (IH s a s' E btn Ha) as (x & Hx & ->).
        exists x. split; [right; exact Hx | reflexivity].
Qed.

Lemma elem_mem x l : x ∈ l -> mem x l = true.
Proof.
  induction 1 as [y l|y z l _ IH]; cbn [mem existsb].
  - rewrite String.eqb_refl. reflexivity.
  - fold (mem y l). rewrite IH. apply orb_true_r.
Qed.

Lemma button_selectors_apart d selector :
  selector ∈ button_selectors d -> selector ∉ button_selectors (flip d).
Proof.
  assert (forallb (fun x => negb (mem x (button_selectors (flip d)))) (button_selectors d) = true)
    as H by (destruct d; vm_compute; reflexivity).
  rewrite forallb_forall in H. intros Hin Hout.
  apply list_elem_of_In in Hin. apply H in Hin. rewrite (elem_mem _ _ Hout) in Hin. discriminate.
Qed.

(** X6.  [_find_navigation_button] never raises and never clicks, and
    a control it returns is the first match of one of the selectors of
    the direction asked for; no selector serves both directions. *)
Theorem find_navigation_button_keeps_to_its_direction (d : direction) (s : state W) :
  exists found s' new,
    _find_navigation_button drv d s = (Ok found, s') /\
    added s s' new /\ clicks new = 0 /\
    (forall btn, found = Some btn ->
       exists selector,
         selector ∈ button_selectors d /\ (selector ∉ button_selectors (flip d)) /\
         btn = First (Locate selector)).
Proof.
  destruct (total_quiet_run (_find_navigation_button drv d) 0 s
              (total_find_navigation_button d) (quiet_find_navigation_button drv 0 d))
    as (found & s' & new & E & A & C).
  exists found, s', new. repeat split; [exact E | exact A | lia |].
  intros btn Hb.
  assert (post (first_of (button_selectors d)) (_find_navigation_button drv d)) as P.
  { unfold _find_navigation_button. apply post_bind. intros _. apply post_first_usable_button. }
  destruct (P s found s' E btn Hb) as (x & Hx & ->).
  exists x. repeat split; [exact Hx | apply button_selectors_apart, Hx].
Qed.

(** *** A navigation step *)

Lemma total_click_navigation_button nav_button d pages_checked target :
  total (_click_navigation_button drv nav_button d pages_checked target).
Proof. unfold _click_navigation_button. total0. Qed.

Lemma ends_click_navigation_button nav_button d pages_checked target :
  ends (fun r s' => fst r = true ->
                    snd r = d /\
                    exists s0, find_date_on_page drv
                                 (strftime target Selectors.DATE_FORMAT_DISPLAY) s0 = (Ok true, s'))
    (_click_navigation_button drv nav_button d pages_checked target).
Proof.
  unfold _click_navigation_button. apply ends_try.
  - do 6 (apply ends_bind; intros _). apply ends_bind_from.
    intros s found s1 E b s'. destruct found.
    + intros [= <- <-] _. cbn [snd]. eauto.
    + unfold bind. destruct (get_dates_on_page drv s1) as [[ds|e] s2]; [|discriminate].
      intros [= <- <-]. cbn [fst]. discriminate.
  - intros _. apply ends_ret. intros s. cbn [fst]. discriminate.
Qed.

(** X7.  A navigation step never raises and clicks at most twice (the
    click and, when it fails, the forced click).  When it reports the
    date as found, the direction it returns is the one it was given,
    and [find_date_on_page] has just found the date. *)
Theorem click_navigation_button_is_guarded (nav_button : locator) (d : direction)
    (pages_checked : nat) (target : datetime) (s : state W) :
  exists found new_direction s' new,
    _click_navigation_button drv nav_button d pages_checked target s =
      (Ok (found, new_direction), s') /\
    added s s' new /\ clicks new <= 2 /\
    (found = true ->
     new_direction = d /\
     exists s0, find_date_on_page drv (strftime target Selectors.DATE_FORMAT_DISPLAY) s0 =
                  (Ok true, s')).
Proof.
  destruct (total_quiet_run (_click_navigation_button drv nav_button d pages_checked target) 2 s
              (total_click_navigation_button _ _ _ _)
              (quiet_click_navigation_button drv _ _ _ _))
    as ([found new_direction] & s' & new & E & A & C).
  exists found, new_direction, s', new.
  split; [exact E|]. split; [exact A|]. split; [exact C|].
  exact (ends_click_navigation_button _ _ _ _ s (found, new_direction) s' E).
Qed.

(** *** The search *)

Lemma ends_navigate_loop target remaining : forall pages_checked d visited,
  ends (found_the_date drv (strftime target Selectors.DATE_FORMAT_DISPLAY))
    (navigate_loop drv remaining pages_checked d visited target).
Proof.
  induction remaining as [|remaining IH]; intros pages_checked d visited;
    cbn [navigate_loop]; [apply ends_ret; intros s; discriminate|].
  apply ends_bind. intros current_url.
  destruct (bool_decide _).
  - destruct d; [apply ends_bind; intros _; apply IH | apply ends_ret; intros s; discriminate].
  - do 4 (apply ends_bind; intros ?). apply ends_bind_from.
    intros s found s1 E b s'. destruct found.
    + intros [= <- <-] _. eauto.
    + destruct x0 as [nav_button|].
      * revert b s'. apply ends_bind_from. intros s2 [found' d'] s3 E' b s'. cbn [fst snd].
        destruct found'.
        -- intros [= <- <-] _.
           apply (ends_click_navigation_button _ _ _ _ s2 (true, d') s3 E' eq_refl).
        -- destruct (negb _); [revert b s'; apply ends_bind; intros _|]; apply IH.
      * destruct d; [revert b s'; apply ends_bind; intros _; apply IH|].
        intros [= <- <-]. discriminate.
Qed.

Lemma fails_navigate_loop target remaining : forall pages_checked d visited,
  fails (load_wait_failed drv) (navigate_loop drv remaining pages_checked d visited target).
Proof.
  induction remaining as [|remaining IH]; intros pages_checked d visited;
    cbn [navigate_loop]; [apply fails_total, total_ret|].
  apply fails_bind; [apply fails_total, total_get_url|]. intros current_url.
  destruct (bool_decide _).
  - destruct d; [|apply fails_total, total_ret].
    apply fails_bind; [apply fails_total, total_mark | intros _; apply IH].
  - apply fails_bind; [apply fails_total, total_mark|]. intros _.
    apply fails_bind; [apply fails_total, total_find_navigation_button|]. intros nav_button.
    apply fails_bind; [apply fails_perform|]. intros _.
    apply fails_bind; [apply fails_total, total_sleep|]. intros _.
    apply fails_bind; [apply fails_total, total_find_date_on_page|]. intros found.
    destruct found; [apply fails_total, total_ret|].
    destruct nav_button as [nav_button|].
    + apply fails_bind; [apply fails_total, total_click_navigation_button|].
      intros [found' d']. cbn [fst snd].
      destruct found'; [apply fails_total, total_ret|].
      destruct (negb _); [|apply IH].
      apply fails_bind; [apply fails_total, total_mark | intros _; apply IH].
    + destruct d; [|apply fails_total, total_ret].
      apply fails_bind; [apply fails_total, total_mark | intros _; apply IH].
Qed.

(** X8.  [navigate_to_date_page] answers [True] only in the state in
    which [find_date_on_page] has just found the date.  The one
    exception that escapes it is that of the unguarded wait for the
    load state at the top of a round: every other call is guarded. *)
Theorem navigate_to_date_page_outcomes (target : datetime) (s s' : state W) :
  (navigate_to_date_page drv target s = (Ok true, s') ->
   exists s0, find_date_on_page drv (strftime target Selectors.DATE_FORMAT_DISPLAY) s0 =
                (Ok true, s')) /\
  (forall e, navigate_to_date_page drv target s = (Raise e, s') ->
   exists s0, perform drv (WaitForLoadState "networkidle" None) s0 = (Raise e, s')).
Proof.
  split.
  - intros E.
    assert (ends (found_the_date drv (strftime target Selectors.DATE_FORMAT_DISPLAY))
              (navigate_to_date_page drv target)) as H; [|exact (H s true s' E eq_refl)].
    unfold navigate_to_date_page. apply ends_bind_from.
    intros s1 found s2 E1 b s3. destruct found; [intros [= <- <-] _; eauto|].
    revert b s3. apply ends_bind. intros current_dates.
    destruct (initial_direction target current_dates);
      [apply ends_navigate_loop | apply ends_ret; intros s4; discriminate].
  - intros e E.
    assert (fails (load_wait_failed drv) (navigate_to_date_page drv target)) as H;
      [|exact (H s e s' E)].
    unfold navigate_to_date_page.
    apply fails_bind; [apply fails_total, total_find_date_on_page|]. intros found.
    destruct found; [apply fails_total, total_ret|].
    apply fails_bind; [apply fails_total, total_get_dates_on_page|]. intros current_dates.
    destruct (initial_direction target current_dates);
      [apply fails_navigate_loop | apply fails_total, total_ret].
Qed.

End WithDriver.
End SearchFacts.

Module SearchExamples.
Import Datetime Strptime Claims Pagination Fixture Fixture2 SearchFacts.

(** The week page shows 20/01/2026. *)
Lemma find_date_on_page_is_a_safe_probe_witness :
  exists heading heading_text s0 s',
    perform (static_driver (week_page false)) (TextContent heading) s0 = (Ok heading_text, s') /\
    text_has "20/01/2026" heading_text = true.
Proof.
  destruct (find_date_on_page_is_a_safe_probe (static_driver (week_page false))
              "20/01/2026" start) as (found & s' & new & E & _ & _ & H).
  assert (found = true) as F by (vm_compute in E; injection E as <- _; reflexivity).
  destruct (H F) as (heading & heading_text & s0 & P & T).
  exists heading, heading_text, s0, s'. split; assumption.
Defined.

(** On the stuck page the first forward selector finds a usable control. *)
Lemma find_navigation_button_keeps_to_its_direction_witness :
  exists selector,
    selector ∈ button_selectors Forward /\ (selector ∉ button_selectors Backward) /\
    fst (_find_navigation_button (static_driver stuck_page) Forward start) =
      Ok (Some (First (Locate selector))).
Proof.
  destruct (find_navigation_button_keeps_to_its_direction (static_driver stuck_page)
              Forward start) as (found & s' & new & E & _ & _ & H).
  assert (exists btn, found = Some btn) as [btn F]
    by (vm_compute in E; injection E as <- _; eauto).
  destruct (H btn F) as (selector & Hin & Hout & ->).
  exists selector. split; [exact Hin|]. split; [exact Hout|].
  rewrite E, F. reflexivity.
Defined.

(** A click on the week page, which shows 20/01/2026 whatever is clicked. *)
Lemma click_navigation_button_is_guarded_witness :
  exists s0 s',
    find_date_on_page (static_driver (week_page false)) "20/01/2026" s0 = (Ok true, s').
Proof.
  destruct (click_navigation_button_is_guarded (static_driver (week_page false))
              (First (Locate "a")) Forward 1 (jan 20) start)
    as (found & new_direction & s' & new & E & _ & _ & H).
  assert (found = true) as F by (vm_compute in E; injection E as <- _ _; reflexivity).
  destruct (H F) as (_ & s0 & P). exists s0, s'. exact P.
Defined.

(** The search succeeds at once on the week page, and fails with the
    exception of the load-state wait when the page has been closed. *)
Lemma navigate_to_date_page_outcomes_witness :
  (exists s0 s',
     find_date_on_page (static_driver (week_page false)) "20/01/2026" s0 = (Ok true, s')) /\
  (exists s0 s',
     perform closed_driver (WaitForLoadState "networkidle" None) s0 = (Raise page_closed, s')).
Proof.
  split.
  - pose (r := navigate_to_date_page (static_driver (week_page false)) (jan 20) start).
    destruct (proj1 (navigate_to_date_page_outcomes (static_driver (week_page false))
                       (jan 20) start (snd r))) as (s0 & P).
    + vm_compute. reflexivity.
    + exists s0, (snd r). exact P.
  - pose (r := navigate_to_date_page closed_driver (jan 21) start).
    destruct (proj2 (navigate_to_date_page_outcomes closed_driver (jan 21) start (snd r))
                page_closed) as (s0 & P).
    + vm_compute. reflexivity.
    + exists s0, (snd r). exact P.
Defined.

End SearchExamples.

(** ** Facts about trimmed and cleaned texts *)
Module TextFacts.
Import PyStr Extractor Cleaned PureFacts.

Lemma rstrip_idem s : rstrip (rstrip s) = rstrip s.
Proof.
  induction s as [|c s IH]; [reflexivity|].
  cbn [rstrip]. destruct (rstrip s) as [|a r] eqn:E.
  - destruct (isspace c) eqn:Hc; [reflexivity|]. cbn [rstrip]. rewrite Hc. reflexivity.
  - change (rstrip (String c (String a r)))
      with (match rstrip (String a r) with
            | EmptyString => if isspace c then EmptyString else String c EmptyString
            | String x y => String c (String x y)
            end).
    rewrite IH. reflexivity.
Qed.

Lemma lstrip_shape s :
  lstrip s = EmptyString \/ exists c r, lstrip s = String c r /\ isspace c = false.
Proof.
  induction s as [|c s IH]; [left; reflexivity|].
  cbn [lstrip]. destruct (isspace c) eqn:Hc; [exact IH|].
  right. exists c, s. split; [reflexivity | exact Hc].
Qed.

Lemma rstrip_head c r : isspace c = false -> exists r', rstrip (String c r) = String c r'.
Proof.
  intros Hc. cbn [rstrip]. destruct (rstrip r); [rewrite Hc|]; eauto.
Qed.

Lemma strip_idem s : strip (strip s) = strip s.
Proof.
  unfold strip. destruct (lstrip_shape s) as [->|(c & r & -> & Hc)]; [reflexivity|].
  destruct (rstrip_head c r Hc) as [r' E]. rewrite E.
  rewrite lstrip_nonspace by exact Hc. rewrite <- E. apply rstrip_idem.
Qed.

Lemma strip_or_empty_trimmed value : strip (strip_or_empty value) = strip_or_empty value.
Proof.
  unfold strip_or_empty. destruct value as [v|]; [|reflexivity].
  destruct (truthy v); [apply strip_idem | reflexivity].
Qed.

(** *** Characters *)

Lemma all_chars_app p a b : all_chars p (a +:+ b) = all_chars p a && all_chars p b.
Proof.
  induction a as [|c a IH]; [reflexivity|].
  change (String c a +:+ b) with (String c (a +:+ b)). cbn [all_chars]. rewrite IH.
  apply andb_assoc.
Qed.

Lemma all_chars_lstrip p s : all_chars p s = true -> all_chars p (lstrip s) = true.
Proof.
  induction s as [|c s IH]; [reflexivity|].
  cbn [lstrip]. destruct (isspace c); [|auto].
  cbn [all_chars]. intros H. apply andb_prop in H as [_ H]. auto.
Qed.

Lemma all_chars_rstrip p s : all_chars p s = true -> all_chars p (rstrip s) = true.
Proof.
  induction s as [|c s IH]; [reflexivity|].
  cbn [all_chars]. intros H. apply andb_prop in H as [Hc H]. specialize (IH H).
  cbn [rstrip]. destruct (rstrip s) as [|a r].
  - destruct (isspace c); [reflexivity|]. cbn [all_chars]. rewrite Hc. reflexivity.
  - cbn [all_chars] in *. rewrite Hc. exact IH.
Qed.

Lemma all_chars_strip p s : all_chars p s = true -> all_chars p (strip s) = true.
Proof. intros H. apply all_chars_rstrip, all_chars_lstrip, H. Qed.

Lemma all_chars_replace_from p old s : forall skip,
  all_chars p s = true -> all_chars p (replace_from old EmptyString s skip) = true.
Proof.
  induction s as [|c s IH]; intros skip; [reflexivity|].
  cbn [all_chars]. intros H. apply andb_prop in H as [Hc H].
  cbn [replace_from]. destruct skip as [|k]; [|auto].
  destruct (String.prefix old (String c s)); [apply IH, H|].
  cbn [all_chars]. rewrite Hc. apply IH, H.
Qed.

Lemma all_chars_remove p old s :
  old <> EmptyString -> all_chars p s = true -> all_chars p (replace old EmptyString s) = true.
Proof.
  intros Ho H. unfold replace. destruct old; [congruence|]. apply all_chars_replace_from, H.
Qed.

Lemma split_words s : Forall word (split s).
Proof.
  induction s as [|c s IH]; [constructor|].
  cbn [split]. destruct (isspace c) eqn:Hc; [exact IH|].
  assert (word (String c EmptyString)) as W1 by (unfold word; cbn; rewrite Hc; reflexivity).
  destruct s as [|c' s']; [repeat constructor; exact W1|].
  destruct (isspace c') eqn:Hc'; [constructor; assumption|].
  destruct (split (String c' s')) as [|w ws]; [repeat constructor; exact W1|].
  apply Forall_cons in IH as [Hw Hws]. constructor; [|exact Hws].
  unfold word in *. cbn [all_chars]. rewrite Hc. exact Hw.
Qed.

Lemma word_plain w : word w -> all_chars plain w = true.
Proof.
  unfold word. induction w as [|c w IH]; [reflexivity|].
  cbn [all_chars]. intros H. apply andb_prop in H as [Hc H].
  unfold plain at 1. rewrite Hc. exact (IH H).
Qed.

Lemma join_plain ws : Forall word ws -> all_chars plain (join " " ws) = true.
Proof.
  induction 1 as [|w ws Hw _ IH]; [reflexivity|].
  cbn [join]. destruct ws as [|w' ws']; [apply word_plain, Hw|].
  rewrite !all_chars_app, (word_plain _ Hw), IH. reflexivity.
Qed.

Lemma mem_elem x l : mem x l = false -> x ∉ l.
Proof.
  intros H Hin. induction Hin as [y l|y z l _ IH]; cbn [mem existsb] in H.
  - rewrite String.eqb_refl in H. discriminate.
  - apply orb_false_elim in H as [_ H]. auto.
Qed.

(** What [_extract_cell_text] makes of the text of a cell. *)
Lemma clean_cell_text_clean text : clean_text (clean_cell_text text).
Proof.
  assert (clean_text EmptyString) as Empty.
  { repeat split. intros H. unfold cell_placeholders in H.
    repeat (apply elem_of_cons in H as [H|H]; [discriminate|]). apply elem_of_nil in H. exact H. }
  unfold clean_cell_text. destruct text as [text|]; [|exact Empty].
  destruct (truthy text); [|exact Empty].
  destruct (mem _ _) eqn:E; [exact Empty|].
  split; [apply strip_idem|]. split; [apply mem_elem, E|].
  apply all_chars_strip, all_chars_remove; [discriminate|].
  apply all_chars_remove; [discriminate|].
  apply join_plain, split_words.
Qed.

End TextFacts.

(** ** Further properties of the extraction *)
Module RecordFacts.
Import PyStr Datetime Strptime Claims Awaited Observations Cleaned Pagination Extractor.
Import AwaitedFacts PostFacts TotalFacts TextFacts PaginationFacts SearchFacts ExtractorFacts.

Section WithDriver.
Context {W : Type} (drv : PageDriver W).

(** *** The cells *)

Lemma total_extract_cell_text cell : total (_extract_cell_text drv cell).
Proof. unfold _extract_cell_text. total0. Qed.

Lemma quiet_extract_cell_text k cell : quiet k (_extract_cell_text drv cell).
Proof. unfold _extract_cell_text. quiet0. Qed.

Lemma post_extract_cell_text cell : post clean_text (_extract_cell_text drv cell).
Proof.
  unfold _extract_cell_text. apply post_try.
  - apply post_bind. intros text. apply post_ret, clean_cell_text_clean.
  - intros _. apply post_ret. exact (clean_cell_text_clean None).
Qed.

(** X9.  [_extract_cell_text] never raises and never clicks (a cell
    that cannot be read gives the empty string), and the text it
    returns is clean: it has no whitespace at either end, no
    whitespace inside but single spaces, and it is none of the
    placeholders "-`", "-", "`" and "--". *)
Theorem extract_cell_text_is_clean (cell : locator) (s : state W) :
  exists text s' new,
    _extract_cell_text drv cell s = (Ok text, s') /\
    added s s' new /\ clicks new = 0 /\
    strip text = text /\ (text ∉ ["-`"; "-"; "`"; "--"]) /\ all_chars plain text = true.
Proof.
  destruct (total_quiet_run (_extract_cell_text drv cell) 0 s
              (total_extract_cell_text _) (quiet_extract_cell_text 0 _))
    as (text & s' & new & E & A & C).
  exists text, s', new. split; [exact E|]. split; [exact A|]. split; [lia|].
  exact (post_extract_cell_text cell s text s' E).
Qed.

Lemma total_extract_subject cell : total (_extract_subject drv cell).
Proof. unfold _extract_subject. total0. Qed.

Lemma quiet_extract_subject k cell : quiet k (_extract_subject drv cell).
Proof. unfold _extract_subject. quiet0. Qed.

Lemma post_extract_subject cell :
  post (fun subject => strip subject = subject) (_extract_subject drv cell).
Proof.
  unfold _extract_subject. apply post_try; [|intros _; apply post_ret; reflexivity].
  apply post_bind. intros n.
  eapply post_bind_strong
    with (R := fun from_button => forall s, from_button = Some s -> strip s = s).
  - destruct (0 <? n)%nat; [|apply post_ret; discriminate].
    apply post_bind. intros subject_text.
    destruct (otruthy subject_text); apply post_ret; [|discriminate].
    intros s [= <-]. apply strip_or_empty_trimmed.
  - intros [s|] H; [apply post_ret; auto|].
    apply post_bind. intros subject_text. apply post_ret, strip_or_empty_trimmed.
Qed.

(** X10.  [_extract_subject] never raises and never clicks, and the
    subject it returns is trimmed; a cell that cannot be read gives
    the empty subject, which [_extract_table_data] then skips. *)
Theorem extract_subject_is_trimmed (subject_cell : locator) (s : state W) :
  exists subject s' new,
    _extract_subject drv subject_cell s = (Ok subject, s') /\
    added s s' new /\ clicks new = 0 /\
    strip subject = subject.
Proof.
  destruct (total_quiet_run (_extract_subject drv subject_cell) 0 s
              (total_extract_subject _) (quiet_extract_subject 0 _))
    as (subject & s' & new & E & A & C).
  exists subject, s', new. split; [exact E|]. split; [exact A|]. split; [lia|].
  exact (post_extract_subject subject_cell s subject s' E).
Qed.

(** *** The attached files *)

Lemma total_links_of ls : forall acc, total (links_of drv ls acc).
Proof. induction ls as [|l ls IH]; intros acc; cbn [links_of]; total0; apply IH. Qed.

Lemma total_images_of ls : forall acc, total (images_of drv ls acc).
Proof. induction ls as [|l ls IH]; intros acc; cbn [images_of]; total0; apply IH. Qed.

Lemma total_extract_attached_files cell : total (_extract_attached_files drv cell).
Proof. unfold _extract_attached_files. total0. Qed.

Lemma quiet_links_of k ls : forall acc, quiet k (links_of drv ls acc).
Proof. induction ls as [|l ls IH]; intros acc; cbn [links_of]; quiet0. Qed.

Lemma quiet_images_of k ls : forall acc, quiet k (images_of drv ls acc).
Proof. induction ls as [|l ls IH]; intros acc; cbn [images_of]; quiet0. Qed.

Lemma quiet_extract_attached_files k cell : quiet k (_extract_attached_files drv cell).
Proof.
  unfold _extract_attached_files.
  apply quiet_bind0.
  - apply quiet_try0; [|intros; quiet0].
    apply quiet_bind0; [quiet0|]. intros ls.
    apply quiet_bind0; [apply quiet_links_of | intros; quiet0].
  - intros [acc|]; [|quiet0].
    apply quiet_try0; [|intros; quiet0].
    apply quiet_bind0; [quiet0|]. intros ls. apply quiet_images_of.
Qed.

Lemma post_links_of ls : forall acc,
  Forall is_link acc -> post (Forall is_link) (links_of drv ls acc).
Proof.
  induction ls as [|l ls IH]; intros acc H; cbn [links_of]; [apply post_ret, H|].
  eapply post_bind_strong with (R := Forall is_link).
  - apply post_try; [|intros _; apply post_ret; constructor].
    apply post_bind. intros href. apply post_bind. intros text_content.
    destruct href as [h|]; [|apply post_ret; constructor].
    destruct (truthy h) eqn:T; apply post_ret; constructor; [|constructor].
    split; [apply truthy_nonempty, T | apply strip_or_empty_trimmed].
  - intros new Hnew. apply IH, Forall_app. split; assumption.
Qed.

Lemma post_images_of ls : forall acc,
  links_then_images acc -> post links_then_images (images_of drv ls acc).
Proof.
  induction ls as [|l ls IH]; intros acc H; cbn [images_of]; [apply post_ret, H|].
  eapply post_bind_strong with (R := Forall is_image).
  - apply post_try; [|intros _; apply post_ret; constructor].
    apply post_bind. intros src. apply post_bind. intros alt_attr.
    destruct src as [v|]; [|apply post_ret; constructor].
    destruct (truthy v) eqn:T; apply post_ret; constructor; [|constructor].
    split; [apply truthy_nonempty, T | apply strip_or_empty_trimmed].
  - intros new Hnew. apply IH.
    destruct H as (links & images & -> & Hl & Hi).
    exists links, (images ++ new). rewrite app_assoc. repeat split; [exact Hl|].
    apply Forall_app. split; assumption.
Qed.

Lemma links_only acc : Forall is_link acc -> links_then_images acc.
Proof. intros H. exists acc, []. rewrite app_nil_r. repeat split; [exact H | constructor]. Qed.

Lemma post_extract_attached_files cell :
  post links_then_images (_extract_attached_files drv cell).
Proof.
  unfold _extract_attached_files.
  eapply post_bind_strong
    with (R := fun links => forall acc, links = Some acc -> Forall is_link acc).
  - apply post_try; [|intros _; apply post_ret; discriminate].
    apply post_bind. intros ls.
    eapply post_bind_strong; [apply post_links_of; constructor|].
    intros acc H. apply post_ret. intros acc' [= <-]. exact H.
  - intros [acc|] H; [|apply post_ret, links_only; constructor].
    specialize (H acc eq_refl).
    apply post_try; [|intros _; apply post_ret, links_only, H].
    apply post_bind. intros ls. apply post_images_of, links_only, H.
Qed.

(** X11.  [_extract_attached_files] never raises and never clicks.
    The list it returns holds the links first and the images after
    them; every link has a [href] and every image a [src] that is not
    empty, and the link texts and the [alt] texts are trimmed.  An
    element that cannot be read is left out. *)
Theorem extract_attached_files_lists_links_then_images (file_cell : locator) (s : state W) :
  exists files s' new,
    _extract_attached_files drv file_cell s = (Ok files, s') /\
    added s s' new /\ clicks new = 0 /\
    exists links images,
      files = links ++ images /\ Forall is_link links /\ Forall is_image images.
Proof.
  destruct (total_quiet_run (_extract_attached_files drv file_cell) 0 s
              (total_extract_attached_files _) (quiet_extract_attached_files 0 _))
    as (files & s' & new & E & A & C).
  exists files, s', new. split; [exact E|]. split; [exact A|]. split; [lia|].
  exact (post_extract_attached_files file_cell s files s' E).
Qed.

(** *** The heading and the table of the date *)

Lemma quiet_heading_with k t hs : quiet k (heading_with drv t hs).
Proof. induction hs as [|h hs IH]; cbn [heading_with]; quiet0. Qed.

Lemma quiet_find_date_heading k t : quiet k (_find_date_heading drv t).
Proof. unfold _find_date_heading. quiet0. apply quiet_heading_with. Qed.

Lemma ends_heading_with t hs :
  ends (fun found s' => forall heading, found = Some heading ->
          exists heading_text s0,
            perform drv (TextContent heading) s0 = (Ok heading_text, s') /\
            text_has t heading_text = true)
    (heading_with drv t hs).
Proof.
  induction hs as [|h hs IH]; cbn [heading_with].
  - apply ends_ret. intros s heading. discriminate.
  - apply ends_bind. intros _. apply ends_bind_from.
    intros s text s1 E b s'.
    destruct (text_has t text) eqn:T; [|apply IH].
    intros [= <- <-] heading [= <-]. eauto.
Qed.

(** X12.  [_find_date_heading] never clicks, and the heading it
    returns is one from which it has just read a text that contains
    the date string. *)
Theorem find_date_heading_returns_a_heading_of_the_date (target_date_str : string)
    (s : state W) :
  (exists new,
     added s (snd (_find_date_heading drv target_date_str s)) new /\ clicks new = 0) /\
  (forall heading s',
     _find_date_heading drv target_date_str s = (Ok (Some heading), s') ->
     exists heading_text s0,
       perform drv (TextContent heading) s0 = (Ok heading_text, s') /\
       text_has target_date_str heading_text = true).
Proof.
  split.
  - destruct (quiet_find_date_heading 0 target_date_str s) as (new & A & _ & C).
    exists new. split; [exact A | lia].
  - intros heading s' E.
    assert (ends (fun found s' => forall heading, found = Some heading ->
                    exists heading_text s0,
                      perform drv (TextContent heading) s0 = (Ok heading_text, s') /\
                      text_has target_date_str heading_text = true)
              (_find_date_heading drv target_date_str)) as H.
    { unfold _find_date_heading. do 4 (apply ends_bind; intros _).
      apply ends_bind. intros hs. apply ends_heading_with. }
    exact (H s (Some heading) s' E heading eq_refl).
Qed.

Lemma quiet_table_labelled k t ts : quiet k (table_labelled drv t ts).
Proof. induction ts as [|x ts IH]; cbn [table_labelled]; quiet0. Qed.

Lemma quiet_table_in_card k t h c : quiet k (table_in_card drv t h c).
Proof. unfold table_in_card. quiet0. Qed.

Lemma quiet_table_in_cards k t h cs todo : forall i, quiet k (table_in_cards drv t h cs i todo).
Proof.
  induction todo as [|todo IH]; intros i; cbn [table_in_cards]; [quiet0|].
  apply quiet_bind0; [apply quiet_try0; [apply quiet_table_in_card | intros; quiet0]|].
  intros [table|]; [quiet0 | apply IH].
Qed.

Lemma quiet_table_if_labelled k t x : quiet k (table_if_labelled drv t x).
Proof. unfold table_if_labelled. quiet0. Qed.

Lemma quiet_table_by_index k t ts todo : forall i, quiet k (table_by_index drv t ts i todo).
Proof.
  induction todo as [|todo IH]; intros i; cbn [table_by_index]; [quiet0|].
  apply quiet_bind0; [apply quiet_try0; [apply quiet_table_if_labelled | intros; quiet0]|].
  intros [table|]; [quiet0 | apply IH].
Qed.

Lemma quiet_or_else k (m next : M W (option locator)) :
  quiet 0 m -> quiet k next -> quiet k (or_else m next).
Proof. intros Hm Hn. unfold or_else. apply quiet_bind0; [exact Hm|]. intros [t|]; quiet0. Qed.

Lemma quiet_find_date_table k t h : quiet k (_find_date_table drv t h).
Proof.
  unfold _find_date_table. apply quiet_bind0; [quiet0|]. intros _.
  apply quiet_or_else; [quiet0|].
  apply quiet_or_else.
  { apply quiet_try0; [|intros; quiet0]. do 3 (apply quiet_bind0; [quiet0|]; intros ?).
    apply quiet_bind0; [quiet0|]. intros [|]; [apply quiet_table_labelled | quiet0]. }
  apply quiet_or_else.
  { apply quiet_try0; [|intros; quiet0]. do 3 (apply quiet_bind0; [quiet0|]; intros ?).
    apply quiet_table_in_cards. }
  apply quiet_try0; [|intros; quiet0]. do 3 (apply quiet_bind0; [quiet0|]; intros ?).
  apply quiet_table_by_index.
Qed.

Lemma total_or_else (m next : M W (option locator)) :
  total m -> total next -> total (or_else m next).
Proof. intros Hm Hn. unfold or_else. total0. Qed.

Lemma total_find_date_table t h : total (_find_date_table drv t h).
Proof.
  unfold _find_date_table. apply total_bind; [total0|]. intros _.
  repeat (apply total_or_else; [total0|]). total0.
Qed.

(** X13.  [_find_date_table] never raises and never clicks: each of
    its four ways to look the table up is guarded, and a failure in
    one leads to the next or to the answer [None]. *)
Theorem find_date_table_is_guarded (target_date_str : string) (target_heading : locator)
    (s : state W) :
  exists table s' new,
    _find_date_table drv target_date_str target_heading s = (Ok table, s') /\
    added s s' new /\ clicks new = 0.
Proof.
  destruct (total_quiet_run (_find_date_table drv target_date_str target_heading) 0 s
              (total_find_date_table _ _) (quiet_find_date_table 0 _ _))
    as (table & s' & new & E & A & C).
  exists table, s', new. split; [exact E|]. split; [exact A | lia].
Qed.

(** *** The records *)

Lemma quiet_row_fields k t c0 c1 c2 c3 c4 c5 more :
  quiet k (row_fields drv t c0 c1 c2 c3 c4 c5 more).
Proof.
  unfold row_fields.
  apply quiet_bind0; [apply quiet_extract_cell_text|]. intros ?.
  apply quiet_bind0; [apply quiet_extract_subject|]. intros ?.
  do 4 (apply quiet_bind0; [apply quiet_extract_cell_text|]; intros ?).
  apply quiet_bind0; [|intros; quiet0].
  destruct more; [quiet0 | apply quiet_extract_attached_files].
Qed.

Lemma quiet_extract_row k t row acc : quiet k (extract_row drv t row acc).
Proof.
  unfold extract_row. apply quiet_bind0; [quiet0|]. intros cells.
  destruct cells as [|c0 [|c1 [|c2 [|c3 [|c4 [|c5 more]]]]]]; try (quiet0; fail).
  apply quiet_bind0; [apply quiet_row_fields|]. intros item. quiet0.
Qed.

Lemma quiet_extract_rows k t rows : forall acc, quiet k (extract_rows drv t rows acc).
Proof.
  induction rows as [|row rows IH]; intros acc; cbn [extract_rows]; [quiet0|].
  apply quiet_bind0; [apply quiet_extract_row | intros; apply IH].
Qed.

Lemma quiet_extract_table_data k table t : quiet k (_extract_table_data drv table t).
Proof.
  unfold _extract_table_data. apply quiet_bind0; [quiet0|]. intros _.
  apply quiet_bind0; [quiet0|]. intros rows. apply quiet_extract_rows.
Qed.

Lemma clicks_of_quiet {A : Type} k (m : M W A) : quiet k m -> clicks_at_most k m.
Proof. intros H. eapply emits_weaken; [exact H|]. intros new [_ C]. exact C. Qed.

Lemma clicks_of_budget {A : Type} c n v (m : M W A) :
  emits (within_budget c n v) m -> clicks_at_most c m.
Proof. intros H. eapply emits_weaken; [exact H|]. intros new (C & _). exact C. Qed.

Lemma clicks_bind {A B : Type} a b k (m : M W A) (f : A -> M W B) :
  clicks_at_most a m -> (forall x, clicks_at_most b (f x)) -> a + b <= k ->
  clicks_at_most k (bind m f).
Proof.
  intros Hm Hf L.
  apply (emits_bind (fun new => clicks new <= a) (fun new => clicks new <= b)); auto.
  - intros n1 H. cbv beta in *. lia.
  - intros n1 n2 H1 H2. rewrite clicks_app. cbv beta in *. lia.
Qed.

Lemma clicks_try {A : Type} a b k (m : M W A) (h : exn -> M W A) :
  clicks_at_most a m -> (forall e, clicks_at_most b (h e)) -> a + b <= k ->
  clicks_at_most k (try_except m h).
Proof.
  intros Hm Hh L.
  apply (emits_try (fun new => clicks new <= a) (fun new => clicks new <= b)); auto.
  - intros n1 H. cbv beta in *. lia.
  - intros n1 n2 H1 H2. rewrite clicks_app. cbv beta in *. lia.
Qed.

Lemma clicks_quiet_bind {A B : Type} k (m : M W A) (f : A -> M W B) :
  quiet 0 m -> (forall x, clicks_at_most k (f x)) -> clicks_at_most k (bind m f).
Proof. intros Hm Hf. apply (clicks_bind 0 k); [apply clicks_of_quiet, Hm | exact Hf | lia]. Qed.

Lemma budget_navigate_to_date_page target :
  emits (within_budget (2 * Config.MAX_PAGINATION_PAGES) Config.MAX_PAGINATION_PAGES ∅)
    (navigate_to_date_page drv target).
Proof.
  unfold navigate_to_date_page.
  apply budget_after_quiet0; [apply quiet_find_date_on_page|].
  intros found. destruct found; [apply budget_ret|].
  apply budget_after_quiet0; [apply quiet_get_dates_on_page|].
  intros current_dates.
  destruct (initial_direction target current_dates); [|apply budget_ret].
  apply navigate_loop_budget.
Qed.

(** X14.  One call of [extract_homework] clicks at most
    [2 * MAX_PAGINATION_PAGES] times, whatever the page answers and
    whether the call returns records or the empty list. *)
Theorem extract_homework_clicks_are_bounded (target_date : option datetime) (s : state W) :
  exists new,
    added s (snd (extract_homework drv target_date s)) new /\
    clicks new <= 2 * Config.MAX_PAGINATION_PAGES.
Proof.
  revert s. change (clicks_at_most (2 * Config.MAX_PAGINATION_PAGES)
                      (extract_homework drv target_date)).
  set (k := 2 * Config.MAX_PAGINATION_PAGES).
  unfold extract_homework.
  apply (clicks_try k 0); [|intros; apply clicks_of_quiet; quiet0|lia].
  unfold extract_flow.
  apply clicks_quiet_bind; [quiet0|]. intros _.
  apply clicks_quiet_bind; [quiet0|]. intros _.
  apply clicks_quiet_bind; [destruct target_date; quiet0|]. intros t.
  apply clicks_quiet_bind; [apply quiet_find_date_on_page|]. intros on_page.
  apply (clicks_bind k 0); [| |lia].
  - destruct on_page; [apply clicks_of_quiet; quiet0|].
    eapply clicks_of_budget, budget_navigate_to_date_page.
  - intros reached. apply clicks_of_quiet.
    destruct (negb reached); [quiet0|].
    apply quiet_bind0; [apply quiet_find_date_heading|]. intros [h|]; [|quiet0].
    apply quiet_bind0; [apply quiet_find_date_table|]. intros [table|]; [|quiet0].
    apply quiet_bind0; [apply quiet_extract_table_data|]. intros; quiet0.
Qed.

Lemma post_row_fields t c0 c1 c2 c3 c4 c5 more :
  post (fun r => subject r <> EmptyString -> well_formed t r)
    (row_fields drv t c0 c1 c2 c3 c4 c5 more).
Proof.
  unfold row_fields.
  eapply post_bind_strong; [apply post_extract_cell_text|]. intros hour Hh.
  eapply post_bind_strong; [apply post_extract_subject|]. intros subj Hs.
  eapply post_bind_strong; [apply post_extract_cell_text|]. intros teacher Ht.
  eapply post_bind_strong; [apply post_extract_cell_text|]. intros status Hst.
  eapply post_bind_strong; [apply post_extract_cell_text|]. intros lesson Hl.
  eapply post_bind_strong; [apply post_extract_cell_text|]. intros hw Hw.
  eapply post_bind_strong with (R := links_then_images).
  - destruct more; [apply post_ret, links_only; constructor|].
    apply post_extract_attached_files.
  - intros files Hf. apply post_ret. intros Hsub.
    unfold well_formed. cbn. repeat split; try assumption; first [apply Hh | apply Ht | apply Hst | apply Hl | apply Hw].
Qed.

Lemma post_well_formed_row t row acc :
  Forall (well_formed t) acc -> post (Forall (well_formed t)) (extract_row drv t row acc).
Proof.
  intros H. unfold extract_row. apply post_bind. intros cells.
  destruct cells as [|c0 [|c1 [|c2 [|c3 [|c4 [|c5 more]]]]]]; try (apply post_ret; exact H).
  eapply post_bind_strong; [apply post_row_fields|]. intros item Hitem.
  destruct (truthy (subject item)) eqn:E; apply post_ret; [|exact H].
  apply Forall_app. split; [exact H|].
  constructor; [apply Hitem, truthy_nonempty, E | constructor].
Qed.

Lemma post_well_formed_rows t rows : forall acc,
  Forall (well_formed t) acc -> post (Forall (well_formed t)) (extract_rows drv t rows acc).
Proof.
  induction rows as [|row rows IH]; intros acc H; cbn [extract_rows].
  - apply post_ret. exact H.
  - eapply post_bind_strong; [apply post_well_formed_row; exact H|].
    intros l Hl. apply IH. exact Hl.
Qed.

Lemma post_well_formed_table table t :
  post (Forall (well_formed t)) (_extract_table_data drv table t).
Proof.
  unfold _extract_table_data. apply post_bind. intros _. apply post_bind. intros rows.
  apply post_well_formed_rows. constructor.
Qed.

(** X15.  Every record that [extract_homework] returns for a target
    date is well formed: its [date] is the target date in the display
    format, its [combined] text is [_combine_content] of its lesson
    topic and homework, its subject is trimmed and not empty, its hour,
    teacher, status, lesson topic and homework are clean cell texts,
    and its attached files are links with a [href] followed by images
    with a [src]. *)
Theorem extract_homework_records_are_well_formed (target : datetime) (s s' : state W)
    (records : list HomeworkRecord) :
  extract_homework drv (Some target) s = (Ok records, s') ->
  Forall (well_formed (strftime target Selectors.DATE_FORMAT_DISPLAY)) records.
Proof.
  revert s records s'.
  change (post (Forall (well_formed (strftime target Selectors.DATE_FORMAT_DISPLAY)))
            (extract_homework drv (Some target))).
  unfold extract_homework. apply post_try; [|intros _; apply post_ret; constructor].
  unfold extract_flow.
  apply post_bind. intros _. apply post_bind. intros _.
  eapply post_bind_strong with (R := fun t => t = target).
  { apply post_ret. reflexivity. }
  intros t ->.
  do 2 (apply post_bind; intros ?).
  destruct (negb _); [apply post_ret; constructor|].
  apply post_bind. intros [target_heading|]; [|apply post_ret; constructor].
  apply post_bind. intros [table|]; [|apply post_ret; constructor].
  eapply post_bind_strong; [apply post_well_formed_table|].
  intros l Hl. apply post_ret. exact Hl.
Qed.

Lemma length_extract_row t row acc :
  post (fun l => length l <= S (length acc)) (extract_row drv t row acc).
Proof.
  unfold extract_row. apply post_bind. intros cells.
  destruct cells as [|c0 [|c1 [|c2 [|c3 [|c4 [|c5 more]]]]]]; try (apply post_ret; lia).
  apply post_bind. intros item.
  destruct (truthy (subject item)); apply post_ret; [|lia].
  rewrite length_app. cbn [length]. lia.
Qed.

Lemma length_extract_rows t rows : forall acc,
  post (fun l => length l <= length acc + length rows) (extract_rows drv t rows acc).
Proof.
  induction rows as [|row rows IH]; intros acc; cbn [extract_rows length].
  - apply post_ret. lia.
  - eapply post_bind_strong; [apply length_extract_row|].
    intros l Hl s a s' E. pose proof (IH l s a s' E). cbv beta in *. lia.
Qed.

(** X16.  [_extract_table_data] returns at most one record for each
    row of the table: the number of its records is at most the number
    of rows that the table answered with. *)
Theorem extract_table_data_gives_at_most_a_record_per_row (table : locator)
    (target_date_str : string) (s s' : state W) (records : list HomeworkRecord) :
  _extract_table_data drv table target_date_str s = (Ok records, s') ->
  exists rows s0 s1,
    perform drv (All (Within table Selectors.TABLE_BODY_ROWS)) s0 = (Ok rows, s1) /\
    length records <= length rows.
Proof.
  unfold _extract_table_data. intros H.
  apply bind_Ok_inv in H as ([] & s0 & _ & H).
  apply bind_Ok_inv in H as (rows & s1 & Hrows & H).
  exists rows, s0, s1. split; [exact Hrows|].
  exact (length_extract_rows target_date_str rows [] s1 records s' H).
Qed.

End WithDriver.
End RecordFacts.

Module RecordExamples.
Import PyStr Datetime Strptime Claims Cleaned Pagination Extractor Fixture RecordFacts.

(** The heading of 20/01/2026 on the week page. *)
Lemma find_date_heading_returns_a_heading_of_the_date_witness :
  exists heading_text s0 s',
    perform (static_driver (week_page false))
      (TextContent (Nth (Locate Selectors.DATE_HEADING) 0)) s0 = (Ok heading_text, s') /\
    text_has "20/01/2026" heading_text = true.
Proof.
  pose (r := _find_date_heading (static_driver (week_page false)) "20/01/2026" start).
  destruct (proj2 (find_date_heading_returns_a_heading_of_the_date
                     (static_driver (week_page false)) "20/01/2026" start)
              (Nth (Locate Selectors.DATE_HEADING) 0) (snd r))
    as (heading_text & s0 & P & T).
  - vm_compute. reflexivity.
  - exists heading_text, s0, (snd r). split; assumption.
Defined.

(** The two records of the week page for 20/01/2026. *)
Lemma extract_homework_records_are_well_formed_witness :
  Forall (well_formed "20/01/2026") [first_item; third_item].
Proof.
  pose (r := extract_homework (static_driver (week_page false)) (Some (jan 20)) start).
  apply (extract_homework_records_are_well_formed (static_driver (week_page false))
           (jan 20) start (snd r) [first_item; third_item]).
  vm_compute. reflexivity.
Defined.

(** The table of 20/01/2026 has three rows and gives two records. *)
Lemma extract_table_data_gives_at_most_a_record_per_row_witness :
  exists rows : list locator, length rows = 3 /\ length [first_item; third_item] <= length rows.
Proof.
  pose (drv := static_driver (week_page false)).
  pose (r := _extract_table_data drv table_2001 "20/01/2026" start).
  destruct (extract_table_data_gives_at_most_a_record_per_row drv table_2001 "20/01/2026"
              start (snd r) [first_item; third_item]) as (rows & s0 & s1 & P & L).
  - vm_compute. reflexivity.
  - exists rows. split; [|exact L].
    vm_compute in P. injection P as <- _. reflexivity.
Defined.

End RecordExamples.

(** ** Facts about what is seen of an execution *)
Module WatchFacts.
Import Claims Awaited Observations Watch AwaitedFacts.

Lemma seen_app {X : Type} (obs : event -> option X) a b :
  seen obs (a ++ b) = seen obs a ++ seen obs b.
Proof.
  induction a as [|e a IH]; [reflexivity|].
  cbn [app seen]. destruct (obs e); rewrite IH; reflexivity.
Qed.

Lemma seen_rev_app {X : Type} (obs : event -> option X) n1 n2 :
  seen obs (rev (n2 ++ n1)) = seen obs (rev n1) ++ seen obs (rev n2).
Proof. rewrite rev_app_distr. apply seen_app. Qed.

Section Toolkit.
Context {W X : Type} (drv : PageDriver W) (obs : event -> option X).

Lemma sees_nothing {A : Type} (S : list X -> Prop) (m : M W A) :
  S [] -> (forall s, trace (snd (m s)) = trace s) -> sees obs S m.
Proof. intros HS H. apply emits_nothing; [exact HS | exact H]. Qed.

Lemma sees_perform {A : Type} (S : list X -> Prop) (c : call A) :
  S (seen obs [Called c]) -> sees obs S (perform drv c).
Proof.
  intros HS s. unfold perform. destruct (answer drv c (world s)) as [r w].
  exists [Called c]. split; [reflexivity | exact HS].
Qed.

Lemma sees_bind {A B : Type} (S1 S2 S : list X -> Prop) (m : M W A) (f : A -> M W B) :
  sees obs S1 m -> (forall x, sees obs S2 (f x)) ->
  (forall l, S1 l -> S l) ->
  (forall l1 l2, S1 l1 -> S2 l2 -> S (l1 ++ l2)) ->
  sees obs S (bind m f).
Proof.
  intros Hm Hf H1 H12.
  apply (emits_bind (fun new => S1 (seen obs (rev new))) (fun new => S2 (seen obs (rev new))));
    auto.
  intros n1 n2 P1 P2. rewrite seen_rev_app. auto.
Qed.

Lemma sees_try {A : Type} (S1 S2 S : list X -> Prop) (m : M W A) (h : exn -> M W A) :
  sees obs S1 m -> (forall e, sees obs S2 (h e)) ->
  (forall l, S1 l -> S l) ->
  (forall l1 l2, S1 l1 -> S2 l2 -> S (l1 ++ l2)) ->
  sees obs S (try_except m h).
Proof.
  intros Hm Hh H1 H12.
  apply (emits_try (fun new => S1 (seen obs (rev new))) (fun new => S2 (seen obs (rev new))));
    auto.
  intros n1 n2 P1 P2. rewrite seen_rev_app. auto.
Qed.

Lemma sees_weaken {A : Type} (S S' : list X -> Prop) (m : M W A) :
  sees obs S m -> (forall l, S l -> S' l) -> sees obs S' m.
Proof. intros H SS. eapply emits_weaken; [exact H|]. intros n. apply SS. Qed.

(** Nothing seen before, then [S]. *)
Lemma unseen_then {A B : Type} (S : list X -> Prop) (m : M W A) (f : A -> M W B) :
  unseen obs m -> (forall x, sees obs S (f x)) -> S [] -> sees obs S (bind m f).
Proof.
  intros Hm Hf H0. apply (sees_bind (fun l => l = []) S); auto.
  - intros l ->. exact H0.
  - intros l1 l2 -> H2. exact H2.
Qed.

(** [S], then nothing seen. *)
Lemma then_unseen {A B : Type} (S : list X -> Prop) (m : M W A) (f : A -> M W B) :
  sees obs S m -> (forall x, unseen obs (f x)) -> sees obs S (bind m f).
Proof.
  intros Hm Hf. apply (sees_bind S (fun l => l = [])); auto.
  intros l1 l2 H1 ->. rewrite app_nil_r. exact H1.
Qed.

Lemma unseen_ret {A : Type} (a : A) : unseen (W:=W) obs (ret a).
Proof. apply sees_nothing; reflexivity. Qed.

Lemma unseen_raise {A : Type} e : unseen (W:=W) (A:=A) obs (raise e).
Proof. apply sees_nothing; reflexivity. Qed.

Lemma unseen_lift_result {A : Type} (r : result A) : unseen (W:=W) obs (lift_result r).
Proof. apply sees_nothing; reflexivity. Qed.

Lemma unseen_sleep d : unseen obs (asyncio_sleep drv d).
Proof. apply sees_nothing; reflexivity. Qed.

Lemma unseen_get_url : unseen obs (get_url drv).
Proof. apply sees_nothing; reflexivity. Qed.

Lemma unseen_get_loop_time : unseen obs (get_loop_time drv).
Proof. apply sees_nothing; reflexivity. Qed.

Lemma unseen_datetime_now : unseen obs (datetime_now drv).
Proof. apply sees_nothing; reflexivity. Qed.

Lemma unseen_perform {A : Type} (c : call A) :
  obs (Called c) = None -> unseen obs (perform drv c).
Proof. intros H. apply sees_perform. cbn [seen]. rewrite H. reflexivity. Qed.

Lemma unseen_bind {A B : Type} (m : M W A) (f : A -> M W B) :
  unseen obs m -> (forall x, unseen obs (f x)) -> unseen obs (bind m f).
Proof. intros Hm Hf. apply unseen_then; auto. Qed.

Lemma unseen_try {A : Type} (m : M W A) (h : exn -> M W A) :
  unseen obs m -> (forall e, unseen obs (h e)) -> unseen obs (try_except m h).
Proof.
  intros Hm Hh. apply (sees_try (fun l => l = []) (fun l => l = [])); auto.
  intros l1 l2 -> ->. reflexivity.
Qed.

Lemma unseen_try_pass (m : M W unit) : unseen obs m -> unseen obs (try_pass m).
Proof. intros H. apply unseen_try; [exact H | intros; apply unseen_ret]. Qed.

(** *** Computations that take fuel *)

Lemma femits_lift {A : Type} (P : list event -> Prop) (m : M W A) :
  emits P m -> femits P (lift m).
Proof.
  intros H s r s'. unfold lift. intros [= E]. destruct (H s) as (new & Hn & HP).
  rewrite E in Hn. eauto.
Qed.

Lemma femits_fbind {A B : Type} (P Q R : list event -> Prop) (m : F W A) (f : A -> F W B) :
  femits P m -> (forall x, femits Q (f x)) ->
  (forall n1, P n1 -> R n1) ->
  (forall n1 n2, P n1 -> Q n2 -> R (n2 ++ n1)) ->
  femits R (fbind m f).
Proof.
  intros Hm Hf H1 H12 s r s'. unfold fbind.
  destruct (m s) as [[[a|e] s1]|] eqn:E; [| |discriminate].
  - intros E2. destruct (Hm s _ _ E) as (n1 & A1 & P1).
    destruct (Hf a s1 _ _ E2) as (n2 & A2 & P2).
    exists (n2 ++ n1). split; [eapply added_trans; eassumption | auto].
  - intros [= <- <-]. destruct (Hm s _ _ E) as (n1 & A1 & P1). eauto.
Qed.

Lemma femits_ftry {A : Type} (P Q R : list event -> Prop) (m : F W A) (h : exn -> F W A) :
  femits P m -> (forall e, femits Q (h e)) ->
  (forall n1, P n1 -> R n1) ->
  (forall n1 n2, P n1 -> Q n2 -> R (n2 ++ n1)) ->
  femits R (ftry_except m h).
Proof.
  intros Hm Hh H1 H12 s r s'. unfold ftry_except.
  destruct (m s) as [[[a|e] s1]|] eqn:E; [| |discriminate].
  - intros [= <- <-]. destruct (Hm s _ _ E) as (n1 & A1 & P1). eauto.
  - intros E2. destruct (Hm s _ _ E) as (n1 & A1 & P1).
    destruct (Hh e s1 _ _ E2) as (n2 & A2 & P2).
    exists (n2 ++ n1). split; [eapply added_trans; eassumption | auto].
Qed.

Lemma femits_weaken {A : Type} (P Q : list event -> Prop) (m : F W A) :
  femits P m -> (forall n, P n -> Q n) -> femits Q m.
Proof. intros H PQ s r s' E. destruct (H s r s' E) as (n & ? & ?). eauto. Qed.

Lemma fbind_Ok_inv {A B : Type} (m : F W A) (f : A -> F W B) s b s' :
  fbind m f s = Some (Ok b, s') ->
  exists a s1, m s = Some (Ok a, s1) /\ f a s1 = Some (Ok b, s').
Proof.
  unfold fbind. destruct (m s) as [[[a|e] s1]|]; [eauto | discriminate | discriminate].
Qed.

End Toolkit.

Create HintDb unseen.

(** Code of which [obs] sees nothing. *)
Ltac unseen0 :=
  repeat first
    [ apply unseen_ret
    | apply unseen_raise
    | apply unseen_lift_result
    | apply unseen_sleep
    | apply unseen_get_url
    | apply unseen_get_loop_time
    | apply unseen_datetime_now
    | apply unseen_perform; reflexivity
    | apply unseen_try_pass
    | apply unseen_bind; [|intros ?]
    | apply unseen_try; [|intros ?]
    | match goal with
      | |- unseen _ (match ?x with _ => _ end) => destruct x
      | |- unseen _ (let '_ := ?x in _) => destruct x
      end
    | assumption
    | solve [auto with unseen] ].

End WatchFacts.

(** ** Further properties of the login *)
Module LoginFacts.
Import PyStr Claims Awaited Observations Cleaned Watch Auth.
Import AwaitedFacts PostFacts TotalFacts WatchFacts RecordFacts.

Section WithDriver.
Context {W : Type} (drv : PageDriver W) (ci : bool).

(** *** Clicks *)

Lemma quiet_wait_until_enabled k b n : quiet k (wait_until_enabled drv b n).
Proof. induction n as [|n IH]; cbn [wait_until_enabled]; quiet0. Qed.
#[local] Hint Resolve quiet_wait_until_enabled : quiet.

Lemma quiet_any_visible k l : quiet k (any_visible drv l).
Proof. induction l as [|x l IH]; cbn [any_visible]; quiet0. Qed.
#[local] Hint Resolve quiet_any_visible : quiet.

Lemma quiet_any_selected_tab k l : quiet k (any_selected_tab drv l).
Proof. induction l as [|x l IH]; cbn [any_selected_tab]; quiet0. Qed.
#[local] Hint Resolve quiet_any_selected_tab : quiet.

Lemma quiet_any_password_field k l : quiet k (any_password_field drv l).
Proof. induction l as [|x l IH]; cbn [any_password_field]; quiet0. Qed.
#[local] Hint Resolve quiet_any_password_field : quiet.

Lemma quiet_first_visible_field k l : quiet k (first_visible_field drv l).
Proof. induction l as [|x l IH]; cbn [first_visible_field]; quiet0. Qed.
#[local] Hint Resolve quiet_first_visible_field : quiet.

Lemma quiet_submit_button k l : quiet k (submit_button drv l).
Proof. induction l as [|x l IH]; cbn [submit_button]; quiet0. Qed.
#[local] Hint Resolve quiet_submit_button : quiet.

Lemma quiet_text_button k l : quiet k (text_button drv l).
Proof. induction l as [|x l IH]; cbn [text_button]; quiet0. Qed.
#[local] Hint Resolve quiet_text_button : quiet.

Lemma quiet_role_button k l : quiet k (role_button drv l).
Proof. induction l as [|x l IH]; cbn [role_button]; quiet0. Qed.
#[local] Hint Resolve quiet_role_button : quiet.

Lemma quiet_form_button k l : quiet k (form_button drv l).
Proof. induction l as [|x l IH]; cbn [form_button]; quiet0. Qed.
#[local] Hint Resolve quiet_form_button : quiet.

Lemma quiet_error_keyword_shown k t l : quiet k (error_keyword_shown drv t l).
Proof. induction l as [|x l IH]; cbn [error_keyword_shown]; quiet0. Qed.
#[local] Hint Resolve quiet_error_keyword_shown : quiet.

Lemma quiet_wait_for_redirect k n : quiet k (wait_for_redirect drv n).
Proof. induction n as [|n IH]; cbn [wait_for_redirect]; quiet0. Qed.
#[local] Hint Resolve quiet_wait_for_redirect : quiet.

Lemma quiet_log_error_keywords k t l : quiet k (log_error_keywords drv t l).
Proof. induction l as [|x l IH]; cbn [log_error_keywords]; quiet0. Qed.
#[local] Hint Resolve quiet_log_error_keywords : quiet.

Lemma quiet_dashboard_shown k l : quiet k (dashboard_shown drv l).
Proof. induction l as [|x l IH]; cbn [dashboard_shown]; quiet0. Qed.
#[local] Hint Resolve quiet_dashboard_shown : quiet.

Lemma quiet_is_tab_already_selected k : quiet k (_is_tab_already_selected drv).
Proof. unfold _is_tab_already_selected. quiet0. Qed.

Lemma quiet_find_username_field k : quiet k (_find_username_field drv).
Proof. unfold _find_username_field. quiet0. Qed.

Lemma quiet_find_password_field k : quiet k (_find_password_field drv).
Proof. unfold _find_password_field. quiet0. Qed.

Lemma quiet_find_login_button k : quiet k (_find_login_button drv).
Proof. unfold _find_login_button. quiet0. Qed.

Lemma quiet_check_for_errors k : quiet k (_check_for_errors drv).
Proof. unfold _check_for_errors. quiet0. Qed.

Lemma quiet_handle_recaptcha k : quiet k (_handle_recaptcha drv).
Proof. unfold _handle_recaptcha. quiet0. Qed.

Lemma quiet_debug_login_failure k : quiet k (_debug_login_failure drv).
Proof. unfold _debug_login_failure. quiet0. Qed.

#[local] Hint Resolve quiet_is_tab_already_selected quiet_find_username_field
  quiet_find_password_field quiet_find_login_button quiet_check_for_errors
  quiet_handle_recaptcha quiet_debug_login_failure : quiet.

Lemma quiet_final_verification k : quiet k (final_verification drv).
Proof. unfold final_verification. quiet0. Qed.

Lemma quiet_poll_once k start checked : quiet k (poll_once drv ci start checked).
Proof. unfold poll_once. quiet0. Qed.

(** One click, and none before or after. *)
Lemma quiet_one_click {A B C : Type} k (before : M W A) (c : call B) (after : B -> M W C) :
  quiet 0 before -> (forall x, quiet 0 (after x)) ->
  quiet (S k) (bind before (fun _ => bind (perform drv c) after)).
Proof.
  intros Hb Ha. apply quiet_bind0; [exact Hb|]. intros _.
  apply (quiet_bind_split 1 0); [apply quiet_click | exact Ha | lia].
Qed.

Lemma quiet_accept_cookies : quiet 1 (_accept_cookies drv).
Proof.
  unfold _accept_cookies, try_pass.
  apply (quiet_try_split 1 0); [|intros; quiet0|lia].
  apply quiet_bind0; [quiet0|]. intros n. destruct (0 <? n)%nat; [|quiet0].
  apply (quiet_bind_split 1 0); [apply quiet_click | intros; quiet0 | lia].
Qed.

Lemma quiet_click_moe_button : quiet 1 (_click_moe_button drv).
Proof.
  unfold _click_moe_button.
  apply quiet_bind0; [quiet0|]. intros _.
  apply quiet_bind0; [quiet0|]. intros _. apply quiet_click.
Qed.

Lemma quiet_click_tab_by_text l : quiet 1 (click_tab_by_text drv l).
Proof.
  induction l as [|tab l IH]; cbn [click_tab_by_text]; [quiet0|].
  apply quiet_bind0; [quiet0|]. intros tab_text.
  destruct (is_password_tab_text tab_text); [|exact IH].
  apply quiet_bind0; [quiet0|]. intros _.
  apply (quiet_bind_split 1 0); [apply quiet_click | intros; quiet0 | lia].
Qed.

Lemma quiet_click_correct_tab : quiet 3 (_click_correct_tab drv).
Proof.
  unfold _click_correct_tab.
  apply (quiet_bind_split 1 2); [| |lia].
  { apply (quiet_try_split 1 0); [|intros; quiet0|lia].
    apply quiet_bind0; [quiet0|]. intros. apply quiet_click_tab_by_text. }
  intros m1. destruct m1; [quiet0|].
  apply (quiet_bind_split 1 1); [| |lia].
  { apply (quiet_try_split 1 0); [|intros; quiet0|lia].
    do 3 (apply quiet_bind0; [quiet0|]; intros ?).
    destruct (is_password_tab_text _); [|quiet0].
    apply (quiet_bind_split 1 0); [apply quiet_click | intros; quiet0 | lia]. }
  intros m2. destruct m2; [quiet0|].
  apply (quiet_try_split 1 0); [|intros; quiet0|lia].
  apply quiet_bind0; [quiet0|]. intros n. destruct (0 <? n)%nat; [|quiet0].
  do 2 (apply quiet_bind0; [quiet0|]; intros ?).
  apply (quiet_bind_split 1 0); [apply quiet_click | intros; quiet0 | lia].
Qed.

Lemma quiet_select_username_password_tab : quiet 3 (_select_username_password_tab drv).
Proof.
  unfold _select_username_password_tab.
  apply quiet_bind0; [quiet0|]. intros _.
  apply quiet_bind0; [quiet0|]. intros selected. destruct selected; [quiet0|].
  apply (quiet_bind_split 3 0); [apply quiet_click_correct_tab | intros; quiet0 | lia].
Qed.

Lemma quiet_handle_moe_login_page : quiet 3 (_handle_moe_login_page drv).
Proof.
  unfold _handle_moe_login_page.
  do 3 (apply quiet_bind0; [quiet0|]; intros ?).
  apply quiet_select_username_password_tab.
Qed.

Lemma quiet_fill_credentials u p : quiet 1 (_fill_credentials drv u p).
Proof.
  unfold _fill_credentials.
  do 4 (apply quiet_bind0; [quiet0|]; intros ?).
  apply (quiet_bind_split 1 0); [apply quiet_click | intros; quiet0 | lia].
Qed.

Lemma quiet_click_login_button : quiet 1 (_click_login_button drv).
Proof.
  unfold _click_login_button.
  do 3 (apply quiet_bind0; [quiet0|]; intros ?). apply quiet_click.
Qed.

(** *** Never raising *)

Lemma total_any_visible l : total (try_except (any_visible drv l) (fun _ => ret false)).
Proof. total0. Qed.

Lemma total_is_tab_already_selected : total (_is_tab_already_selected drv).
Proof. unfold _is_tab_already_selected. total0. Qed.

Lemma total_click_correct_tab : total (_click_correct_tab drv).
Proof. unfold _click_correct_tab. total0. Qed.

Lemma total_select_username_password_tab : total (_select_username_password_tab drv).
Proof.
  unfold _select_username_password_tab. total0;
    first [apply total_is_tab_already_selected | apply total_click_correct_tab].
Qed.

(** X17.  The choice of the username and password tab never raises
    and clicks at most three times, once for each of the three ways
    to find the tab; the test whether the tab is selected already
    never clicks. *)
Theorem select_username_password_tab_is_guarded (s : state W) :
  (exists s' new,
     _select_username_password_tab drv s = (Ok tt, s') /\
     added s s' new /\ clicks new <= 3) /\
  (exists selected s' new,
     _is_tab_already_selected drv s = (Ok selected, s') /\
     added s s' new /\ clicks new = 0).
Proof.
  split.
  - destruct (total_quiet_run (_select_username_password_tab drv) 3 s
                total_select_username_password_tab quiet_select_username_password_tab)
      as ([] & s' & new & E & A & C).
    exists s', new. auto.
  - destruct (total_quiet_run (_is_tab_already_selected drv) 0 s
                total_is_tab_already_selected (quiet_is_tab_already_selected 0))
      as (selected & s' & new & E & A & C).
    exists selected, s', new. split; [exact E|]. split; [exact A | lia].
Qed.

(** *** The whole login *)

Lemma femits_quiet {A : Type} k (m : M W A) : quiet k m -> femits (at_most k) (lift m).
Proof.
  intros H. apply femits_lift. eapply emits_weaken; [exact H|]. intros n [_ C]. exact C.
Qed.

Lemma femits_clicks_fbind {A B : Type} a b k (m : F W A) (f : A -> F W B) :
  femits (at_most a) m -> (forall x, femits (at_most b) (f x)) -> a + b <= k ->
  femits (at_most k) (fbind m f).
Proof.
  intros Hm Hf L. apply (femits_fbind (at_most a) (at_most b)); auto; unfold at_most.
  - intros n1 H. lia.
  - intros n1 n2 H1 H2. rewrite clicks_app. lia.
Qed.

Lemma clicks_poll_redirect fuel : forall start checked,
  femits (at_most 0) (poll_redirect drv ci fuel start checked).
Proof.
  induction fuel as [|fuel IH]; intros start checked; cbn [poll_redirect].
  - intros s r s'. discriminate.
  - apply (femits_clicks_fbind 0 0); [apply femits_quiet, quiet_poll_once| |lia].
    intros [r|[c|]]; [apply femits_quiet; quiet0 | apply IH | apply femits_quiet; quiet0].
Qed.

Lemma clicks_verify_login_success fuel :
  femits (at_most 0) (_verify_login_success drv ci fuel).
Proof.
  unfold _verify_login_success.
  apply (femits_clicks_fbind 0 0); [apply femits_quiet; quiet0| |lia]. intros start.
  apply (femits_clicks_fbind 0 0); [apply clicks_poll_redirect| |lia].
  intros [r|]; apply femits_quiet; [quiet0 | apply quiet_final_verification].
Qed.

Lemma quiet_enter u p :
  quiet 7 (bind (_accept_cookies drv) (fun _ =>
           bind (_click_moe_button drv) (fun _ =>
           bind (_handle_moe_login_page drv) (fun _ =>
           bind (_fill_credentials drv u p) (fun _ => _click_login_button drv))))).
Proof.
  apply (quiet_bind_split 1 6); [apply quiet_accept_cookies| |lia]. intros _.
  apply (quiet_bind_split 1 5); [apply quiet_click_moe_button| |lia]. intros _.
  apply (quiet_bind_split 3 2); [apply quiet_handle_moe_login_page| |lia]. intros _.
  apply (quiet_bind_split 1 1); [apply quiet_fill_credentials| |lia]. intros _.
  apply quiet_click_login_button.
Qed.

Lemma clicks_login_flow u p fuel : femits (at_most 7) (login_flow drv ci u p fuel).
Proof.
  unfold login_flow.
  apply (femits_clicks_fbind 0 7); [apply femits_quiet; quiet0| |lia].
  intros blocked. destruct blocked; [apply femits_quiet; quiet0|].
  apply (femits_clicks_fbind 7 0); [apply femits_quiet, quiet_enter| |lia]. intros _.
  apply (femits_clicks_fbind 0 0); [apply clicks_verify_login_success| |lia].
  intros login_success.
  apply (femits_clicks_fbind 0 0); [apply femits_quiet; quiet0| |lia].
  intros _. apply femits_quiet; quiet0.
Qed.

(** X18.  A login clicks at most seven times, whatever the pages
    answer: once on the cookie button, once on the Ministry button, at
    most three times on the tab, once on the password field and once
    on the login button.  The polling for the redirect and the
    debugging capture never click. *)
Theorem login_clicks_at_most_seven_times (username password : string) (fuel : nat)
    (s s' : state W) (r : result bool) :
  login drv ci username password fuel s = Some (r, s') ->
  exists new, added s s' new /\ clicks new <= 7.
Proof.
  revert s r s'. change (femits (at_most 7) (login drv ci username password fuel)).
  unfold login.
  apply (femits_ftry (at_most 7) (at_most 0)); unfold at_most.
  - apply clicks_login_flow.
  - intros e. apply femits_quiet. quiet0.
  - auto.
  - intros n1 n2 H1 H2. rewrite clicks_app. lia.
Qed.

(** *** What is typed *)


Lemma mute_wait_until_enabled b n : unseen fill_value (wait_until_enabled drv b n).
Proof. induction n as [|n IH]; cbn [wait_until_enabled]; unseen0. Qed.
#[local] Hint Resolve mute_wait_until_enabled : unseen.

Lemma mute_any_visible l : unseen fill_value (any_visible drv l).
Proof. induction l as [|x l IH]; cbn [any_visible]; unseen0. Qed.
#[local] Hint Resolve mute_any_visible : unseen.

Lemma mute_any_selected_tab l : unseen fill_value (any_selected_tab drv l).
Proof. induction l as [|x l IH]; cbn [any_selected_tab]; unseen0. Qed.
#[local] Hint Resolve mute_any_selected_tab : unseen.

Lemma mute_any_password_field l : unseen fill_value (any_password_field drv l).
Proof. induction l as [|x l IH]; cbn [any_password_field]; unseen0. Qed.
#[local] Hint Resolve mute_any_password_field : unseen.

Lemma mute_click_tab_by_text l : unseen fill_value (click_tab_by_text drv l).
Proof. induction l as [|x l IH]; cbn [click_tab_by_text]; unseen0. Qed.
#[local] Hint Resolve mute_click_tab_by_text : unseen.

Lemma mute_first_visible_field l : unseen fill_value (first_visible_field drv l).
Proof. induction l as [|x l IH]; cbn [first_visible_field]; unseen0. Qed.
#[local] Hint Resolve mute_first_visible_field : unseen.

Lemma mute_submit_button l : unseen fill_value (submit_button drv l).
Proof. induction l as [|x l IH]; cbn [submit_button]; unseen0. Qed.
#[local] Hint Resolve mute_submit_button : unseen.

Lemma mute_text_button l : unseen fill_value (text_button drv l).
Proof. induction l as [|x l IH]; cbn [text_button]; unseen0. Qed.
#[local] Hint Resolve mute_text_button : unseen.

Lemma mute_role_button l : unseen fill_value (role_button drv l).
Proof. induction l as [|x l IH]; cbn [role_button]; unseen0. Qed.
#[local] Hint Resolve mute_role_button : unseen.

Lemma mute_form_button l : unseen fill_value (form_button drv l).
Proof. induction l as [|x l IH]; cbn [form_button]; unseen0. Qed.
#[local] Hint Resolve mute_form_button : unseen.

Lemma mute_error_keyword_shown t l : unseen fill_value (error_keyword_shown drv t l).
Proof. induction l as [|x l IH]; cbn [error_keyword_shown]; unseen0. Qed.
#[local] Hint Resolve mute_error_keyword_shown : unseen.

Lemma mute_wait_for_redirect n : unseen fill_value (wait_for_redirect drv n).
Proof. induction n as [|n IH]; cbn [wait_for_redirect]; unseen0. Qed.
#[local] Hint Resolve mute_wait_for_redirect : unseen.

Lemma mute_log_error_keywords t l : unseen fill_value (log_error_keywords drv t l).
Proof. induction l as [|x l IH]; cbn [log_error_keywords]; unseen0. Qed.
#[local] Hint Resolve mute_log_error_keywords : unseen.

Lemma mute_dashboard_shown l : unseen fill_value (dashboard_shown drv l).
Proof. induction l as [|x l IH]; cbn [dashboard_shown]; unseen0. Qed.
#[local] Hint Resolve mute_dashboard_shown : unseen.

Lemma mute_accept_cookies : unseen fill_value (_accept_cookies drv).
Proof. unfold _accept_cookies. unseen0. Qed.

Lemma mute_click_moe_button : unseen fill_value (_click_moe_button drv).
Proof. unfold _click_moe_button. unseen0. Qed.

Lemma mute_handle_moe_login_page : unseen fill_value (_handle_moe_login_page drv).
Proof.
  unfold _handle_moe_login_page, _select_username_password_tab,
    _is_tab_already_selected, _click_correct_tab.
  unseen0.
Qed.

Lemma mute_find_username_field : unseen fill_value (_find_username_field drv).
Proof. unfold _find_username_field. unseen0. Qed.

Lemma mute_find_password_field : unseen fill_value (_find_password_field drv).
Proof. unfold _find_password_field. unseen0. Qed.

Lemma mute_click_login_button : unseen fill_value (_click_login_button drv).
Proof. unfold _click_login_button, _find_login_button. unseen0. Qed.

Lemma mute_check_for_errors : unseen fill_value (_check_for_errors drv).
Proof. unfold _check_for_errors. unseen0. Qed.

Lemma mute_handle_recaptcha : unseen fill_value (_handle_recaptcha drv).
Proof. unfold _handle_recaptcha. unseen0. Qed.

Lemma mute_debug_login_failure : unseen fill_value (_debug_login_failure drv).
Proof. unfold _debug_login_failure. unseen0. Qed.

#[local] Hint Resolve mute_accept_cookies mute_click_moe_button mute_handle_moe_login_page
  mute_find_username_field mute_find_password_field mute_click_login_button
  mute_check_for_errors mute_handle_recaptcha mute_debug_login_failure : unseen.

Lemma mute_final_verification : unseen fill_value (final_verification drv).
Proof. unfold final_verification. unseen0. Qed.

Lemma mute_poll_once start checked : unseen fill_value (poll_once drv ci start checked).
Proof. unfold poll_once. unseen0. Qed.

(** A call of [fill], and what is typed after it. *)
Lemma sees_fill {B : Type} (S S' : list string -> Prop) field value (f : unit -> M W B) :
  (forall x, sees fill_value S' (f x)) ->
  S [value] -> (forall l, S' l -> S (value :: l)) ->
  sees fill_value S (bind (perform drv (Fill field value)) f).
Proof.
  intros Hf H1 H2.
  apply (sees_bind fill_value (fun l => l = [value]) S'); auto.
  - apply sees_perform. reflexivity.
  - intros l ->. exact H1.
  - intros l1 l2 -> H. apply H2, H.
Qed.

Lemma typed_fill_credentials u p :
  sees fill_value (typed_in_order u p) (_fill_credentials drv u p).
Proof.
  unfold _fill_credentials.
  apply unseen_then; [apply mute_find_username_field| |left; reflexivity].
  intros username_field.
  apply (sees_fill _ (fun l => l = [] \/ l = [p])).
  - intros _. apply unseen_then; [unseen0| |left; reflexivity]. intros _.
    apply unseen_then; [apply mute_find_password_field| |left; reflexivity].
    intros password_field.
    apply unseen_then; [unseen0| |left; reflexivity]. intros _.
    apply unseen_then; [unseen0| |left; reflexivity]. intros _.
    apply (sees_fill _ (fun l => l = [])).
    + intros _. unseen0.
    + right. reflexivity.
    + intros l ->. right. reflexivity.
  - right. left. reflexivity.
  - intros l [->| ->]; [right; left | right; right]; reflexivity.
Qed.

Lemma typed_nothing u p new : seen fill_value (rev new) = [] -> typed_as u p new.
Proof. intros H. unfold typed_as. rewrite H. left. reflexivity. Qed.

Lemma femits_mute {A : Type} (m : M W A) :
  unseen fill_value m -> femits (fun new => seen fill_value (rev new) = []) (lift m).
Proof. intros H. apply femits_lift. exact H. Qed.

Lemma mute_poll_redirect fuel : forall start checked,
  femits (fun new => seen fill_value (rev new) = []) (poll_redirect drv ci fuel start checked).
Proof.
  induction fuel as [|fuel IH]; intros start checked; cbn [poll_redirect].
  - intros s r s'. discriminate.
  - eapply femits_fbind; [apply femits_mute, mute_poll_once| | |].
    + intros [r|[c|]]; [apply femits_mute; unseen0 | apply IH | apply femits_mute; unseen0].
    + auto.
    + intros n1 n2 H1 H2. cbv beta in *. rewrite seen_rev_app, H1, H2. reflexivity.
Qed.

Lemma mute_fbind {A B : Type} (m : F W A) (f : A -> F W B) :
  femits (fun new => seen fill_value (rev new) = []) m ->
  (forall x, femits (fun new => seen fill_value (rev new) = []) (f x)) ->
  femits (fun new => seen fill_value (rev new) = []) (fbind m f).
Proof.
  intros Hm Hf. eapply femits_fbind; [exact Hm | exact Hf | auto |].
  intros n1 n2 H1 H2. cbv beta in *. rewrite seen_rev_app, H1, H2. reflexivity.
Qed.

Lemma mute_verify_login_success fuel :
  femits (fun new => seen fill_value (rev new) = []) (_verify_login_success drv ci fuel).
Proof.
  unfold _verify_login_success.
  apply mute_fbind; [apply femits_mute; unseen0|]. intros start.
  apply mute_fbind; [apply mute_poll_redirect|].
  intros [r|]; apply femits_mute; [unseen0 | apply mute_final_verification].
Qed.

Lemma typed_login_flow u p fuel : femits (typed_as u p) (login_flow drv ci u p fuel).
Proof.
  unfold login_flow.
  eapply femits_fbind with (P := fun new => seen fill_value (rev new) = []) (Q := typed_as u p).
  - apply femits_mute. unseen0.
  - intros blocked. destruct blocked.
    { eapply femits_weaken; [apply femits_mute; unseen0 | apply typed_nothing]. }
    eapply femits_fbind with (P := typed_as u p)
                             (Q := fun new => seen fill_value (rev new) = []).
    + apply femits_lift.
      change (sees fill_value (typed_in_order u p)
                (bind (_accept_cookies drv) (fun _ =>
                 bind (_click_moe_button drv) (fun _ =>
                 bind (_handle_moe_login_page drv) (fun _ =>
                 bind (_fill_credentials drv u p) (fun _ => _click_login_button drv)))))).
      apply unseen_then; [apply mute_accept_cookies| |left; reflexivity]. intros _.
      apply unseen_then; [apply mute_click_moe_button| |left; reflexivity]. intros _.
      apply unseen_then; [apply mute_handle_moe_login_page| |left; reflexivity]. intros _.
      apply then_unseen; [apply typed_fill_credentials|]. intros _.
      apply mute_click_login_button.
    + intros _. apply mute_fbind; [apply mute_verify_login_success|]. intros login_success.
      apply mute_fbind; [apply femits_mute; unseen0|]. intros _.
      apply femits_mute. unseen0.
    + auto.
    + intros n1 n2 H1 H2. unfold typed_as in *. rewrite seen_rev_app, H2, app_nil_r. exact H1.
  - apply typed_nothing.
  - intros n1 n2 H1 H2. unfold typed_as in *. rewrite seen_rev_app, H1. exact H2.
Qed.

(** X19.  All that a login types are the credentials, each at most
    once and the username first: the values of its calls of [fill]
    are, in their order, none, the username, or the username and then
    the password.  The password is never typed before the username
    field has been found and filled. *)
Theorem login_types_the_username_then_the_password (username password : string)
    (fuel : nat) (s s' : state W) (r : result bool) :
  login drv ci username password fuel s = Some (r, s') ->
  exists new,
    added s s' new /\
    (seen fill_value (rev new) = [] \/
     seen fill_value (rev new) = [username] \/
     seen fill_value (rev new) = [username; password]).
Proof.
  revert s r s'. change (femits (typed_as username password)
                           (login drv ci username password fuel)).
  unfold login.
  eapply femits_ftry with (P := typed_as username password)
                          (Q := fun new => seen fill_value (rev new) = []).
  - apply typed_login_flow.
  - intros e. apply femits_mute. unseen0.
  - auto.
  - intros n1 n2 H1 H2. unfold typed_as in *. rewrite seen_rev_app, H2, app_nil_r. exact H1.
Qed.

(** *** The debugging screenshot *)

Lemma debug_login_failure_shot s :
  exists s', _debug_login_failure drv s = (Ok tt, s') /\ shot s'.
Proof.
  unfold _debug_login_failure, bind.
  match goal with |- context [try_pass ?m s] =>
    destruct (total_try_pass m s) as ([] & s1 & ->) end.
  unfold try_pass, try_except, perform.
  destruct (answer drv (Screenshot "login_debug.png" true) (world s1)) as [[[]|e] w];
    cbn [ret]; eexists; (split; [reflexivity|]); eexists; reflexivity.
Qed.

Lemma ends_debug_login_failure {A : Type} (a : A) (Q : A -> state W -> Prop) :
  (forall s, shot s -> Q a s) ->
  ends Q (bind (_debug_login_failure drv) (fun _ => ret a)).
Proof.
  intros H s a' s'. unfold bind.
  destruct (debug_login_failure_shot s) as (s1 & -> & Hs).
  intros [= <- <-]. apply H, Hs.
Qed.

Lemma login_flow_false_shot u p fuel s s' :
  login_flow drv ci u p fuel s = Some (Ok false, s') -> shot s'.
Proof.
  unfold login_flow. intros H.
  apply fbind_Ok_inv in H as (blocked & s1 & Hb & H).
  destruct blocked.
  - injection H as <-. unfold lift in Hb. injection Hb as Hb.
    revert Hb.
    match goal with |- ?m s = _ -> _ =>
      assert (ends (fun blocked s' => blocked = true -> shot s') m) as E end.
    { do 4 (apply ends_bind; intros ?).
      destruct (cloudflare_title _); [|apply ends_ret; intros; discriminate].
      do 4 (apply ends_bind; intros ?).
      destruct (contains _ _); [|apply ends_ret; intros; discriminate].
      apply ends_debug_login_failure. auto. }
    intros Hb. exact (E s true s1 Hb eq_refl).
  - apply fbind_Ok_inv in H as (entered & s2 & _ & H).
    apply fbind_Ok_inv in H as (login_success & s3 & _ & H).
    apply fbind_Ok_inv in H as (debugged & s4 & Hd & H).
    injection H as -> <-.
    unfold lift in Hd. injection Hd as Hd.
    destruct (debug_login_failure_shot s3) as (s5 & E & Hs). rewrite E in Hd.
    injection Hd as _ <-. exact Hs.
Qed.

(** X20.  Every login that fails ends with the attempt to save the
    debugging screenshot: when [login] returns [False], the last call
    it made is [page.screenshot(path="login_debug.png",
    full_page=True)]. *)
Theorem failed_login_ends_with_the_screenshot (username password : string) (fuel : nat)
    (s s' : state W) :
  login drv ci username password fuel s = Some (Ok false, s') ->
  exists earlier, trace s' = Called (Screenshot "login_debug.png" true) :: earlier.
Proof.
  unfold login, ftry_except.
  destruct (login_flow drv ci username password fuel s) as [[[b|e] s1]|] eqn:E;
    [| |discriminate].
  - intros [= -> <-]. exact (login_flow_false_shot _ _ _ _ _ E).
  - unfold lift, bind.
    assert (try_pass (_debug_login_failure drv) s1 = _debug_login_failure drv s1) as ->.
    { unfold try_pass, try_except.
      destruct (debug_login_failure_shot s1) as (s2 & -> & _). reflexivity. }
    destruct (debug_login_failure_shot s1) as (s2 & -> & Hs).
    intros [= <-]. exact Hs.
Qed.

(** *** The guarded helpers and the lookups *)

Lemma total_accept_cookies : total (_accept_cookies drv).
Proof. unfold _accept_cookies. total0. Qed.

Lemma total_check_for_errors : total (_check_for_errors drv).
Proof. unfold _check_for_errors. total0. Qed.

Lemma total_handle_recaptcha : total (_handle_recaptcha drv).
Proof. unfold _handle_recaptcha. total0. Qed.

Lemma ends_wait_for_redirect n :
  ends (fun solved s' => solved = true ->
          contains Selectors.WEBTOP_DOMAIN (page_url drv (world s')) = true)
    (wait_for_redirect drv n).
Proof.
  induction n as [|n IH]; cbn [wait_for_redirect].
  - apply ends_ret. intros s. discriminate.
  - apply ends_bind. intros _. apply ends_bind_from.
    intros s current_url s1 [= <- <-] b s'.
    destruct (contains Selectors.WEBTOP_DOMAIN (page_url drv (world s))) eqn:E; [|apply IH].
    intros [= <- <-] _. exact E.
Qed.

(** X21.  The helpers of the login that look at the page without
    acting on its form never raise: the acceptance of the cookies,
    the check for error messages, the handling of the reCAPTCHA and
    the debugging capture; the last three never click either.  The
    handling of the reCAPTCHA answers [True] only when the address of
    the page contains the Webtop domain. *)
Theorem login_helpers_are_guarded (s : state W) :
  (exists s', _accept_cookies drv s = (Ok tt, s')) /\
  (exists has_error s' new,
     _check_for_errors drv s = (Ok has_error, s') /\ added s s' new /\ clicks new = 0) /\
  (exists solved s' new,
     _handle_recaptcha drv s = (Ok solved, s') /\ added s s' new /\ clicks new = 0 /\
     (solved = true -> contains "webtop.smartschool.co.il" (page_url drv (world s')) = true)) /\
  (exists s' new,
     _debug_login_failure drv s = (Ok tt, s') /\ added s s' new /\ clicks new = 0).
Proof.
  split; [|split; [|split]].
  - destruct (total_accept_cookies s) as ([] & s' & E). eauto.
  - destruct (total_quiet_run (_check_for_errors drv) 0 s
                total_check_for_errors (quiet_check_for_errors 0))
      as (has_error & s' & new & E & A & C).
    exists has_error, s', new. split; [exact E|]. split; [exact A | lia].
  - destruct (total_quiet_run (_handle_recaptcha drv) 0 s
                total_handle_recaptcha (quiet_handle_recaptcha 0))
      as (solved & s' & new & E & A & C).
    exists solved, s', new. split; [exact E|]. split; [exact A|]. split; [lia|].
    assert (ends (fun solved s' => solved = true ->
                    contains Selectors.WEBTOP_DOMAIN (page_url drv (world s')) = true)
              (_handle_recaptcha drv)) as H; [|exact (H s solved s' E)].
    unfold _handle_recaptcha. apply ends_try; [|intros _; apply ends_ret; intros; discriminate].
    apply ends_bind. intros n. destruct (0 <? n)%nat; [|apply ends_ret; intros; discriminate].
    apply ends_bind. intros is_visible.
    destruct is_visible; [apply ends_wait_for_redirect | apply ends_ret; intros; discriminate].
  - destruct (debug_login_failure_shot s) as (s' & E & _).
    destruct (quiet_debug_login_failure 0 s) as (new & A & _ & C).
    rewrite E in A. exists s', new. split; [exact E|]. split; [exact A | lia].
Qed.

Lemma total_first_visible_field l : total (first_visible_field drv l).
Proof. induction l as [|x l IH]; cbn [first_visible_field]; total0. Qed.

Lemma post_first_visible_field l : post (first_of l) (first_visible_field drv l).
Proof.
  induction l as [|sel l IH]; cbn [first_visible_field].
  - apply post_ret. intros btn. discriminate.
  - eapply post_bind_strong with (R := first_of [sel]).
    + apply post_try; [|intros _; apply post_ret; intros btn; discriminate].
      apply post_bind. intros n. destruct (0 <? n)%nat; [|apply post_ret; intros btn; discriminate].
      apply post_bind. intros _. apply post_ret. intros btn [= <-].
      exists sel. split; [left | reflexivity].
    + intros [b|] Hb.
      * apply post_ret. intros btn E. destruct (Hb btn E) as (x & Hx & ->).
        apply list_elem_of_singleton in Hx as ->. exists sel. split; [left | reflexivity].
      * intros s a s' E btn Ha. destruct (IH s a s' E btn Ha) as (x & Hx & ->).
        exists x. split; [right; exact Hx | reflexivity].
Qed.

Lemma find_field_outcomes selectors role name (not_found : exn) (s : state W) :
  let find :=
    bind (first_visible_field drv selectors) (fun found =>
      match found with
      | Some field => ret field
      | None =>
          try_except
            (bind (perform drv (GetByRole role name false))
               (fun _ => ret (ByRole role name false)))
            (fun _ => raise not_found)
      end) in
  match find s with
  | (Ok field, _) =>
      field = ByRole role name false \/
      exists selector, selector ∈ selectors /\ field = First (Locate selector)
  | (Raise e, _) => e = not_found
  end.
Proof.
  cbn zeta. unfold bind at 1.
  destruct (total_first_visible_field selectors s) as (found & s1 & E).
  pose proof (post_first_visible_field selectors s found s1 E) as P. rewrite E.
  destruct found as [field|].
  - cbn [ret]. right. destruct (P field eq_refl) as (x & Hx & ->). eauto.
  - unfold try_except, bind, perform.
    destruct (answer drv (GetByRole role name false) (world s1)) as [[[]|e] w];
      cbn [ret raise]; auto.
Qed.

(** X22.  The lookups of the two fields raise nothing but their own
    error: [_find_username_field] raises only "Could not find username
    field" and [_find_password_field] only "Could not find password
    field", and [_find_login_button] only its "Could not find login
    button" error; a failure of a selector is passed over.  A field
    they return is the first match of one of their selectors, or the
    text box of the role lookup. *)
Theorem lookups_raise_their_own_error (s : state W) :
  match _find_username_field drv s with
  | (Ok field, _) =>
      field = ByRole "textbox" "קוד המשתמש שלך" false \/
      exists selector,
        selector ∈ Selectors.USERNAME_SELECTORS /\ field = First (Locate selector)
  | (Raise e, _) => e = PlainException "Could not find username field"
  end /\
  match _find_password_field drv s with
  | (Ok field, _) =>
      field = ByRole "textbox" "סיסמה" false \/
      exists selector,
        selector ∈ Selectors.PASSWORD_SELECTORS /\ field = First (Locate selector)
  | (Raise e, _) => e = PlainException "Could not find password field"
  end /\
  match _find_login_button drv s with
  | (Ok _, _) => True
  | (Raise e, _) =>
      e = PlainException "Could not find login button (may have matched a tab instead)"
  end.
Proof.
  split; [|split].
  - exact (find_field_outcomes Selectors.USERNAME_SELECTORS "textbox" "קוד המשתמש שלך"
             username_not_found s).
  - exact (find_field_outcomes Selectors.PASSWORD_SELECTORS "textbox" "סיסמה"
             password_not_found s).
  - unfold _find_login_button.
    repeat (unfold bind at 1;
            match goal with |- context [try_except ?m ?h s] =>
              destruct (total_try m h ltac:(intros; apply total_ret) s) as ([b|] & ? & ->)
            | |- context [try_except ?m ?h ?s0] =>
              destruct (total_try m h ltac:(intros; apply total_ret) s0) as ([b|] & ? & ->)
            end; [cbn [ret]; exact I|]).
    cbn [raise]. reflexivity.
Qed.

End WithDriver.
End LoginFacts.

Module LoginExamples.
Import Claims Watch Auth Fixture Fixture2 LoginFacts.

(** On the login form that never redirects the login clicks, types
    both credentials and, in CI, gives up after 62 rounds. *)
Lemma login_clicks_at_most_seven_times_witness :
  clicks (trace (snd (default (Ok false, start_clock)
                        (login (ticking_driver form_page) true "user" "secret" 62
                           start_clock)))) <= 7.
Proof.
  pose (r := default (Ok false, start_clock)
               (login (ticking_driver form_page) true "user" "secret" 62 start_clock)).
  destruct (login_clicks_at_most_seven_times (ticking_driver form_page) true
              "user" "secret" 62 start_clock (snd r) (fst r)) as (new & A & C).
  - vm_compute. reflexivity.
  - fold r. unfold added in A. rewrite A. cbn [trace start_clock]. rewrite app_nil_r. exact C.
Defined.

Lemma login_types_the_username_then_the_password_witness :
  seen fill_value
    (rev (trace (snd (default (Ok false, start_clock)
                        (login (ticking_driver form_page) true "user" "secret" 62
                           start_clock))))) = ["user"; "secret"].
Proof.
  pose (r := default (Ok false, start_clock)
               (login (ticking_driver form_page) true "user" "secret" 62 start_clock)).
  destruct (login_types_the_username_then_the_password (ticking_driver form_page) true
              "user" "secret" 62 start_clock (snd r) (fst r)) as (new & A & _).
  - vm_compute. reflexivity.
  - vm_compute. reflexivity.
Defined.

(** The login on the blank page fails, and the screenshot is its last call. *)
Lemma failed_login_ends_with_the_screenshot_witness :
  exists s' earlier,
    login (static_driver blank_page) false "user" "secret" 0 start = Some (Ok false, s') /\
    trace s' = Called (Screenshot "login_debug.png" true) :: earlier.
Proof.
  pose (r := default (Ok false, start)
               (login (static_driver blank_page) false "user" "secret" 0 start)).
  assert (login (static_driver blank_page) false "user" "secret" 0 start =
          Some (Ok false, snd r)) as E by (vm_compute; reflexivity).
  destruct (failed_login_ends_with_the_screenshot (static_driver blank_page) false
              "user" "secret" 0 start (snd r) E) as (earlier & T).
  exists (snd r), earlier. split; [exact E | exact T].
Defined.

(** In a session on the Webtop domain the reCAPTCHA wait ends at once. *)
Lemma login_helpers_are_guarded_witness :
  exists s',
    fst (_handle_recaptcha (static_driver session_page) start) = Ok true /\
    snd (_handle_recaptcha (static_driver session_page) start) = s' /\
    PyStr.contains "webtop.smartschool.co.il"
      (page_url (static_driver session_page) (world s')) = true.
Proof.
  destruct (proj1 (proj2 (proj2 (login_helpers_are_guarded (static_driver session_page) start))))
    as (solved & s' & new & E & _ & _ & H).
  assert (solved = true) as F by (vm_compute in E; injection E as <- _; reflexivity).
  exists s'. rewrite E. split; [rewrite F; reflexivity|]. split; [reflexivity | exact (H F)].
Defined.

End LoginExamples.

(** ** Properties of the navigation to the homework page *)
Module NavigatorFacts.
Import PyStr Claims Awaited Observations Watch Navigator.
Import AwaitedFacts PostFacts TotalFacts WatchFacts.

Section WithDriver.
Context {W : Type} (drv : PageDriver W).

Lemma quiet_click_first_link selectors pattern :
  quiet (length selectors) (click_first_link drv selectors pattern).
Proof.
  induction selectors as [|selector rest IH]; cbn [click_first_link length]; [quiet0|].
  apply (quiet_bind_split 1 (length rest)); [| |lia].
  - apply (quiet_try_split 1 0); [|intros; quiet0|lia].
    apply quiet_bind0; [quiet0|]. intros n. destruct (0 <? n)%nat; [|quiet0].
    apply quiet_bind0; [quiet0|]. intros _.
    apply (quiet_bind_split 1 0); [apply quiet_click | intros; quiet0 | lia].
  - intros clicked. destruct clicked; [quiet0 | exact IH].
Qed.

Lemma quiet_verify_homework_page k : quiet k (_verify_homework_page drv).
Proof. unfold _verify_homework_page. quiet0. Qed.

Lemma quiet_navigate_to_homework : quiet 8 (navigate_to_homework drv).
Proof.
  unfold navigate_to_homework.
  apply (quiet_try_split 8 0); [|intros; quiet0|lia].
  do 3 (apply quiet_bind0; [quiet0|]; intros ?).
  destruct (contains _ _); [quiet0|].
  apply (quiet_bind_split 3 5); [apply (quiet_click_first_link Selectors.STUDENT_CARD_SELECTORS)| |lia].
  intros student_card_clicked.
  apply quiet_bind0; [destruct student_card_clicked; quiet0|]. intros redirected.
  destruct redirected; [quiet0|].
  apply (quiet_bind_split 5 0); [apply (quiet_click_first_link Selectors.HOMEWORK_SELECTORS)| |lia].
  intros homework_clicked.
  apply quiet_bind0; [destruct homework_clicked; quiet0|]. intros _.
  apply quiet_verify_homework_page.
Qed.

Lemma total_navigate_to_homework : total (navigate_to_homework drv).
Proof. unfold navigate_to_homework. total0. Qed.

Lemma stay_click_first_link selectors pattern :
  unseen goto_url (click_first_link drv selectors pattern).
Proof. induction selectors as [|selector rest IH]; cbn [click_first_link]; unseen0. Qed.

Lemma stay_verify_homework_page : unseen goto_url (_verify_homework_page drv).
Proof. unfold _verify_homework_page. unseen0. Qed.

Lemma gotos_navigate_to_homework : sees goto_url fallback_gotos (navigate_to_homework drv).
Proof.
  unfold navigate_to_homework.
  apply (sees_try goto_url fallback_gotos (fun l => l = [])).
  2: { intros e. unseen0. }
  2: { auto. }
  2: { intros l1 l2 H ->. rewrite app_nil_r. exact H. }
  apply unseen_then; [unseen0| |left; reflexivity]. intros _.
  apply unseen_then; [unseen0| |left; reflexivity]. intros _.
  apply unseen_then; [unseen0| |left; reflexivity]. intros current_url.
  destruct (contains _ _); [apply sees_nothing; [left|]; reflexivity|].
  apply unseen_then; [apply stay_click_first_link| |left; reflexivity].
  intros student_card_clicked.
  apply (sees_bind goto_url (fun l => l = [] \/ l = [Config.STUDENT_CARD_URL])
           (fun l => l = [] \/ l = [Config.HOMEWORK_URL])).
  - destruct student_card_clicked; [apply sees_nothing; [left|]; reflexivity|].
    apply (sees_bind goto_url (fun l => l = [Config.STUDENT_CARD_URL]) (fun l => l = [])).
    + apply sees_perform. reflexivity.
    + intros _. unseen0.
    + intros l ->. right. reflexivity.
    + intros l1 l2 -> ->. right. reflexivity.
  - intros redirected. destruct redirected; [apply sees_nothing; [left|]; reflexivity|].
    apply unseen_then; [apply stay_click_first_link| |left; reflexivity].
    intros homework_clicked.
    apply then_unseen; [|intros; apply stay_verify_homework_page].
    destruct homework_clicked; [apply sees_nothing; [left|]; reflexivity|].
    apply (sees_bind goto_url (fun l => l = [Config.HOMEWORK_URL]) (fun l => l = [])).
    + apply sees_perform. reflexivity.
    + intros _. unseen0.
    + intros l ->. right. reflexivity.
    + intros l1 l2 -> ->. right. reflexivity.
  - intros l [->| ->]; [left | right; left]; reflexivity.
  - intros l1 l2 [->| ->] [->| ->]; unfold fallback_gotos; cbn [app]; auto.
Qed.

Lemma ends_verify_homework_page : ends (verified drv) (_verify_homework_page drv).
Proof.
  intros s ok s' E ->. exists s. split; [exact E|].
  revert E. unfold _verify_homework_page, bind. cbn [get_url].
  destruct (contains Selectors.LOGIN_PAGE_INDICATOR (lower (page_url drv (world s))));
    [discriminate | reflexivity].
Qed.

Lemma ends_navigate_to_homework : ends (verified drv) (navigate_to_homework drv).
Proof.
  unfold navigate_to_homework. apply ends_try.
  2: { intros _. apply ends_ret. intros s. discriminate. }
  do 3 (apply ends_bind; intros ?).
  destruct (contains _ _); [apply ends_ret; intros s; discriminate|].
  do 2 (apply ends_bind; intros ?).
  match goal with |- ends _ (if ?b then _ else _) => destruct b end;
    [apply ends_ret; intros s; discriminate|].
  do 2 (apply ends_bind; intros ?).
  apply ends_verify_homework_page.
Qed.

(** X23.  [navigate_to_homework] never raises.  It clicks at most
    eight times, once for each selector of the two links, and the
    only addresses it goes to itself are those of the student card
    and of the homework page, in this order and each at most once.
    It answers [True] only in the state in which the homework page
    has just been verified, at an address that does not contain
    "login" in any case of the letters. *)
Theorem navigate_to_homework_is_guarded (s : state W) :
  exists ok s' new,
    navigate_to_homework drv s = (Ok ok, s') /\
    added s s' new /\ clicks new <= 8 /\
    (seen goto_url (rev new) = [] \/
     seen goto_url (rev new) = [Config.STUDENT_CARD_URL] \/
     seen goto_url (rev new) = [Config.HOMEWORK_URL] \/
     seen goto_url (rev new) = [Config.STUDENT_CARD_URL; Config.HOMEWORK_URL]) /\
    (ok = true ->
     exists s0,
       _verify_homework_page drv s0 = (Ok true, s') /\
       contains "login" (lower (page_url drv (world s0))) = false).
Proof.
  destruct (total_navigate_to_homework s) as (ok & s' & E).
  destruct (quiet_navigate_to_homework s) as (new & A & _ & C).
  destruct (gotos_navigate_to_homework s) as (new' & A' & G).
  rewrite E in A, A'. cbn [snd] in A, A'.
  assert (new' = new) as -> by (unfold added in *; rewrite A in A'; eapply app_inv_tail; eauto).
  exists ok, s', new. split; [exact E|]. split; [exact A|]. split; [exact C|].
  split; [exact G|]. exact (ends_navigate_to_homework s ok s' E).
Qed.

End WithDriver.
End NavigatorFacts.

(** ** Properties of the launch of the browser *)
Module BrowserFacts.
Import Claims Awaited Observations Watch Browser.
Import AwaitedFacts PostFacts TotalFacts WatchFacts.

Section WithDriver.
Context {W : Type} (drv : PageDriver W).

Lemma total_try_launch config : total (try_launch drv config).
Proof.
  unfold try_launch. destruct config as [[engine channel] args]. total0.
Qed.

Lemma launches_try_launch config :
  sees launch_of (fun l => l = [config]) (try_launch drv config).
Proof.
  unfold try_launch. destruct config as [[engine channel] args].
  apply (sees_bind launch_of (fun l => l = [(engine, channel, args)]) (fun l => l = [])).
  - apply (sees_try launch_of (fun l => l = [(engine, channel, args)]) (fun l => l = [])).
    + apply (sees_bind launch_of (fun l => l = [(engine, channel, args)]) (fun l => l = [])).
      * apply sees_perform. reflexivity.
      * intros b. unseen0.
      * auto.
      * intros l1 l2 -> ->. reflexivity.
    + intros e. unseen0.
    + auto.
    + intros l1 l2 -> ->. reflexivity.
  - intros launched. change (unseen launch_of
      (match launched with
       | Some b =>
           bind (try_except
                   (bind (asyncio_sleep drv Delays.LONG)
                      (fun _ => bind (perform drv (Contexts b)) (fun _ => ret true)))
                   (fun _ => ret false))
             (fun alive : bool =>
                if alive then ret (Some b)
                else bind (try_pass (perform drv (CloseBrowser b))) (fun _ => ret None))
       | None => ret None
       end)).
    unseen0.
  - auto.
  - intros l1 l2 -> ->. reflexivity.
Qed.

(** What [launch_first] leaves: the configurations tried, in their order. *)
Lemma launch_first_tries configs (s : state W) :
  exists new,
    added s (snd (launch_first drv configs s)) new /\
    match fst (launch_first drv configs s) with
    | Ok _ =>
        exists tried rest,
          configs = tried ++ rest /\ tried <> [] /\ seen launch_of (rev new) = tried
    | Raise e =>
        seen launch_of (rev new) = configs /\ exists msg, e = PlainException msg
    end.
Proof.
  revert s. induction configs as [|config rest IH]; intros s; cbn [launch_first].
  - exists []. split; [reflexivity|]. cbn. eauto.
  - unfold bind.
    destruct (total_try_launch config s) as (launched & s1 & E).
    destruct (launches_try_launch config s) as (n1 & A1 & L1).
    rewrite E in *. cbn [snd] in A1.
    destruct launched as [b|].
    + exists n1. split; [exact A1|]. cbn [ret fst].
      exists [config], rest. split; [reflexivity|]. split; [discriminate | exact L1].
    + destruct (IH s1) as (n2 & A2 & H2).
      exists (n2 ++ n1). split; [eapply added_trans; eassumption|].
      rewrite seen_rev_app, L1.
      destruct (fst (launch_first drv rest s1)) as [b|e].
      * destruct H2 as (tried & rest' & -> & _ & ->).
        exists (config :: tried), rest'. split; [reflexivity|]. split; [discriminate | reflexivity].
      * destruct H2 as [-> Hm]. split; [reflexivity | exact Hm].
Qed.

(** X24.  [launch_browser] tries the four configurations in their
    order (Chrome channel, Chromium, WebKit, Firefox), each at most
    once, and stops at the first browser that is alive: when it
    returns a browser, the launches it made are an initial part of the
    list; it raises, an [Exception], only after all four were tried. *)
Theorem launch_browser_tries_the_browsers_in_order (s : state W) :
  exists new,
    added s (snd (launch_browser drv s)) new /\
    match fst (launch_browser drv s) with
    | Ok _ =>
        exists tried rest,
          browser_configs = tried ++ rest /\ tried <> [] /\
          seen launch_of (rev new) = tried
    | Raise e =>
        seen launch_of (rev new) = browser_configs /\ exists msg, e = PlainException msg
    end.
Proof. apply launch_first_tries. Qed.

End WithDriver.
End BrowserFacts.

(** ** Further properties of [get_today_homework] *)
Module CallFacts.
Import PyStr Strptime Utils Claims Awaited Observations Watch Extractor Scraper.
Import AwaitedFacts PostFacts TotalFacts WatchFacts ClockFacts.

Section WithDriver.
Context {W : Type} (drv : PageDriver W) (env : environ).

(** X25.  The date is dealt with before anything is started: with the
    credentials set, a date string that [parse_date] rejects makes
    [get_today_homework] raise that [ValueError] in the state it was
    called in, before Playwright is started; and the empty string
    stands for no date at all, that is for today. *)
Theorem date_is_parsed_before_the_browser_starts (fuel : nat) (s : state W) :
  (forall date_str e,
     otruthy (username env) = true -> otruthy (password env) = true ->
     date_str <> EmptyString ->
     parse_date (Some date_str) = Raise e ->
     get_today_homework drv env (Some date_str) fuel s = Some (Raise e, s)) /\
  get_today_homework drv env (Some EmptyString) fuel s =
    get_today_homework drv env None fuel s.
Proof.
  split; [|reflexivity].
  intros date_str e Hu Hp Hd E. unfold get_today_homework.
  rewrite Hu, Hp. cbn [negb orb].
  unfold fbind, lift, bind, lift_result.
  assert (otruthy (Some date_str) = true) as -> by (destruct date_str; [congruence | reflexivity]).
  rewrite E. reflexivity.
Qed.

Lemma cleanup_raises {A : Type} c b e (s : state W) :
  exists e' s', cleanup (A:=A) drv c b e s = (Raise e', s').
Proof.
  unfold cleanup, bind.
  match goal with |- context [try_pass ?m s] =>
    destruct (total_try_pass m s) as ([] & s1 & ->) end.
  cbn [raise]. eauto.
Qed.

Lemma lift_cleanup_not_Ok {A : Type} c b e (s : state W) (a : A) s' :
  lift (cleanup drv c b e) s <> Some (Ok a, s').
Proof.
  unfold lift. destruct (cleanup_raises (A:=A) c b e s) as (e' & s1 & ->). discriminate.
Qed.

(** X26.  When [get_today_homework] returns a list, the login
    answered [True] for the credentials of the environment, the
    navigation answered [True], the list is what [extract_homework]
    returned, and the last three calls closed the context, closed the
    browser and stopped Playwright, in this order. *)
Theorem a_returned_list_comes_from_a_closed_session (date : option string) (fuel : nat)
    (s s' : state W) (homework : list HomeworkRecord) :
  get_today_homework drv env date fuel s = Some (Ok homework, s') ->
  (exists u p s1 s2,
     username env = Some u /\ password env = Some p /\
     Auth.login drv (CI env) u p fuel s1 = Some (Ok true, s2)) /\
  (exists s3 s4, Navigator.navigate_to_homework drv s3 = (Ok true, s4)) /\
  (exists t s5 s6, extract_homework drv (Some t) s5 = (Ok homework, s6)) /\
  (exists b c earlier,
     trace s' = Called StopPlaywright :: Called (CloseBrowser b) ::
                Called (CloseContext c) :: earlier).
Proof.
  unfold get_today_homework.
  destruct (negb (otruthy (username env)) || negb (otruthy (password env))) eqn:Creds;
    [discriminate|].
  intros H.
  apply fbind_Ok_inv in H as (target_date & s0 & _ & H).
  unfold with_playwright in H.
  apply fbind_Ok_inv in H as ([] & s1 & _ & H).
  match type of H with
  | match ?body s1 with _ => _ end = _ => destruct (body s1) as [[r s2]|] eqn:Body
  end; [|discriminate].
  assert (r = Ok homework /\ exists w, s' = mkstate w (Called StopPlaywright :: trace s2))
    as [-> [w ->]].
  { revert H. unfold perform. destruct (answer drv StopPlaywright (world s2)) as [[[]|e] w];
      intros [= <- <-]; eauto. }
  clear H.
  apply fbind_Ok_inv in Body as ([b|e] & s3 & _ & Body);
    [|exfalso; exact (lift_cleanup_not_Ok _ _ _ _ _ _ Body)].
  apply fbind_Ok_inv in Body as ([c|e] & s4 & _ & Body);
    [|exfalso; exact (lift_cleanup_not_Ok _ _ _ _ _ _ Body)].
  unfold ftry_except in Body.
  match type of Body with
  | match ?flow s4 with _ => _ end = _ => destruct (flow s4) as [[[l|e] s5]|] eqn:Flow
  end; [|exfalso; exact (lift_cleanup_not_Ok _ _ _ _ _ _ Body)|discriminate].
  injection Body as -> ->.
  apply fbind_Ok_inv in Flow as ([] & s6 & _ & Flow).
  cbv beta iota in Flow.
  apply fbind_Ok_inv in Flow as (login_success & s7 & Hlogin & Flow).
  destruct login_success; [|discriminate].
  apply fbind_Ok_inv in Flow as (nav_success & s8 & Hnav & Flow).
  destruct nav_success; [|discriminate].
  apply fbind_Ok_inv in Flow as (hw & s9 & Hextract & Flow).
  apply fbind_Ok_inv in Flow as ([] & s10 & Hclose & Flow).
  injection Flow as -> ->.
  apply orb_false_elim in Creds as [Hu Hp].
  apply negb_false_iff in Hu. apply negb_false_iff in Hp.
  split; [|split; [|split]].
  - unfold username, password in *.
    destruct (MINISTRY_OF_EDUCATION_USERNAME env) as [u|]; [|discriminate].
    destruct (MINISTRY_OF_EDUCATION_PASSWORD env) as [p|]; [|discriminate].
    exists u, p, s6, s7. repeat split. exact Hlogin.
  - unfold lift in Hnav. injection Hnav as Hnav. eauto.
  - unfold lift in Hextract. injection Hextract as Hextract. eauto.
  - unfold lift in Hclose. injection Hclose as Hclose.
    apply bind_Ok_inv in Hclose as ([] & s11 & Hc & Hb).
    unfold perform in Hc, Hb.
    destruct (answer drv (CloseContext c) (world s9)) as [rc wc].
    destruct (answer drv (CloseBrowser b) (world s11)) as [rb wb].
    injection Hc as _ <-. injection Hb as _ <-. cbn [trace].
    eauto.
Qed.

(** X27.  [get_today_homework] comes to an end: under a clock that
    does not run backwards and that a sleep advances, 62 rounds of the
    polling loop of the login are enough for the call to return a list
    or to raise. *)
Theorem get_today_homework_comes_to_an_end (date : option string) (fuel : nat)
    (s : state W) :
  clock_advances drv -> 62 <= fuel ->
  exists r s', get_today_homework drv env date fuel s = Some (r, s').
Proof.
  intros Hclock Hfuel.
  assert (get_today_homework drv env date fuel s <> None) as H.
  { unfold get_today_homework.
    destruct (negb (otruthy (username env)) || negb (otruthy (password env)));
      [apply lift_returns|].
    apply fbind_returns; [apply lift_returns|]. intros target_date s0.
    unfold with_playwright.
    apply fbind_returns; [apply lift_returns|]. intros [] s1.
    match goal with
    | |- match ?body s1 with _ => _ end <> None =>
        assert (body s1 <> None) as Body; [|destruct (body s1) as [[r s2]|]; [|contradiction]]
    end.
    - apply fbind_returns; [apply lift_returns|]. intros [b|e] s2; [|apply lift_returns].
      apply fbind_returns; [apply lift_returns|]. intros [c|e] s3; [|apply lift_returns].
      apply ftry_returns; [|intros; apply lift_returns].
      apply fbind_returns; [apply lift_returns|]. intros [] s4.
      apply fbind_returns; [apply login_returns; assumption|]. intros login_success s5.
      destruct (negb login_success); [apply lift_returns|].
      apply fbind_returns; [apply lift_returns|]. intros nav_success s6.
      destruct (negb nav_success); [apply lift_returns|].
      apply fbind_returns; [apply lift_returns|]. intros hw s7.
      apply fbind_returns; [apply lift_returns|]. intros [] s8. apply lift_returns.
    - destruct (perform drv StopPlaywright s2) as [[[]|e] s3]; discriminate. }
  destruct (get_today_homework drv env date fuel s) as [[r s']|]; [eauto | contradiction].
Qed.

End WithDriver.
End CallFacts.

Module SessionExamples.
Import PyStr Strptime Utils Claims Awaited Watch Extractor Navigator Browser Scraper.
Import Fixture Fixture2 NavigatorFacts BrowserFacts CallFacts.

(** On the week page no link is found, both addresses are gone to,
    and the page is verified at the homework address. *)
Lemma navigate_to_homework_is_guarded_witness :
  exists s0 s',
    _verify_homework_page (static_driver (week_page false)) s0 = (Ok true, s') /\
    contains "login" (lower (page_url (static_driver (week_page false)) (world s0))) = false.
Proof.
  destruct (navigate_to_homework_is_guarded (static_driver (week_page false)) start)
    as (ok & s' & new & E & _ & _ & _ & H).
  assert (ok = true) as F by (vm_compute in E; injection E as <- _; reflexivity).
  destruct (H F) as (s0 & P & L). exists s0, s'. split; assumption.
Defined.

(** When nothing can be launched, all four configurations are tried. *)
Lemma launch_browser_tries_all_four_when_none_starts :
  fst (launch_browser closed_driver start) = Raise (PlainException "Failed to launch any browser") /\
  seen launch_of (rev (trace (snd (launch_browser closed_driver start)))) = browser_configs.
Proof. split; vm_compute; reflexivity. Qed.

(** The 32nd of January is rejected before anything is started. *)
Lemma date_is_parsed_before_the_browser_starts_witness :
  get_today_homework (static_driver session_page) credentials (Some "32-01-2026") 1 start =
    Some (Raise (parse_error "32-01-2026"), start).
Proof.
  apply (proj1 (date_is_parsed_before_the_browser_starts (static_driver session_page)
                  credentials 1 start)).
  - reflexivity.
  - reflexivity.
  - discriminate.
  - vm_compute. reflexivity.
Defined.

(** A whole session on the week page: the two records of 20/01/2026
    are returned, and the session is closed. *)
Lemma a_returned_list_comes_from_a_closed_session_witness :
  exists t s5 s6 b c earlier s',
    extract_homework (static_driver session_page) (Some t) s5 =
      (Ok [first_item; third_item], s6) /\
    get_today_homework (static_driver session_page) credentials (Some "20-01-2026") 1 start =
      Some (Ok [first_item; third_item], s') /\
    trace s' = Called StopPlaywright :: Called (CloseBrowser b) ::
               Called (CloseContext c) :: earlier.
Proof.
  pose (r := default (Ok [], start)
               (get_today_homework (static_driver session_page) credentials
                  (Some "20-01-2026") 1 start)).
  assert (get_today_homework (static_driver session_page) credentials
            (Some "20-01-2026") 1 start =
          Some (Ok [first_item; third_item], snd r)) as E by (vm_compute; reflexivity).
  destruct (a_returned_list_comes_from_a_closed_session (static_driver session_page)
              credentials (Some "20-01-2026") 1 start (snd r) [first_item; third_item] E)
    as (_ & _ & (t & s5 & s6 & X) & (b & c & earlier & T)).
  exists t, s5, s6, b, c, earlier, (snd r).
  split; [exact X|]. split; [exact E | exact T].
Defined.

(** The same session under a running clock comes to an end. *)
Lemma get_today_homework_comes_to_an_end_witness :
  exists r s',
    get_today_homework (ticking_driver session_page) credentials None 62 start_clock =
      Some (r, s').
Proof.
  apply (get_today_homework_comes_to_an_end (ticking_driver session_page) credentials
           None 62 start_clock).
  - apply AuthExamples.ticking_clock_advances.
  - lia.
Defined.

End SessionExamples.
